(** * BritEdge test suite: a shallow embedding of [src/test-suite.js]

    The class [BritEdgeTestSuite] issues HTTP requests, inspects the
    responses and appends one [TestResult] per assertion to [this.results];
    [generateSummary] aggregates that log.

    The network, the clock and the payloads are supplied by an environment
    ([Env]); the class itself is embedded as functions in a small
    state-and-exception monad over the fields of the instance.  Output written
    with [console.log] is never read back by the program and is not part of
    the model. *)

From Stdlib Require Import ZArith List String Ascii Bool Lia PeanoNat Sorted.
From Stdlib Require Import DecimalString Floats.SpecFloat.
Import ListNotations.

Local Open Scope string_scope.

(** ** Strings

    A JavaScript string is modelled by the byte string of its UTF-8 text. *)

Module Str.

(** [String.prototype.includes]. *)
Fixpoint includes (s sub : string) : bool :=
  prefix sub s ||
  match s with
  | EmptyString => false
  | String _ s' => includes s' sub
  end.

(** [String.prototype.startsWith]. *)
Definition startsWith (s pre : string) : bool := prefix pre s.

(** Decimal rendering of the integers that the templates interpolate. *)
Definition of_nat (n : nat) : string := NilZero.string_of_uint (Nat.to_uint n).
Definition of_Z (z : Z) : string := NilZero.string_of_int (Z.to_int z).

Fixpoint zeros (n : nat) : string :=
  match n with
  | O => ""
  | S n' => "0" ++ zeros n'
  end.

Definition take (n : nat) (s : string) : string := substring 0 n s.
Definition drop (n : nat) (s : string) : string := substring n (length s - n) s.

(** Number of UTF-16 code units of a UTF-8 text: one per code point, two
    for a code point outside the basic plane (a four-byte sequence). *)
Fixpoint utf16_length (s : string) : nat :=
  match s with
  | EmptyString => 0
  | String c s' =>
      let b := nat_of_ascii c in
      ((if (b <? 128) || (192 <=? b) then 1 else 0)
       + (if 240 <=? b then 1 else 0)
       + utf16_length s')%nat
  end.

(** Bytes of the first code point. *)
Fixpoint continuation (s : string) : string :=
  match s with
  | EmptyString => ""
  | String c s' =>
      let b := nat_of_ascii c in
      if ((128 <=? b) && (b <? 192))%nat then String c (continuation s') else ""
  end.

Definition first_char (s : string) : option string :=
  match s with
  | EmptyString => None
  | String c s' => Some (String c (continuation s'))
  end.

End Str.

(** ** Numbers

    A JavaScript number is an IEEE 754 binary64 value. *)

Module Num.

Definition prec : Z := 53.
Definition emax : Z := 1024.

Definition number := spec_float.

Definition of_Z (z : Z) : number := binary_normalize prec emax z 0 false.
Definition of_nat (n : nat) : number := of_Z (Z.of_nat n).

Definition div : number -> number -> number := SFdiv prec emax.
Definition mul : number -> number -> number := SFmul prec emax.
Definition ltb : number -> number -> bool := SFltb.

Definition NaN : number := S754_nan.

(** The positive finite value [m * 2^e] as a fraction [(numerator, denominator)]. *)
Definition fraction (m : positive) (e : Z) : Z * Z :=
  if (0 <=? e)%Z then (Z.pos m * 2 ^ e, 1)%Z else (Z.pos m, 2 ^ (- e))%Z.

(** *** [Number::toString] (radix 10)

    The shortest digit string [s] (with [k] digits and decimal exponent [n],
    value [s * 10^(n-k)]) that reads back as the same binary64 value; among
    those of that length the one closest to the value. *)

Record interval := {
  iv_lo : Z; iv_mid : Z; iv_hi : Z;   (* bounds and value, over [iv_den] *)
  iv_den : Z;
  iv_closed : bool                     (* the bounds themselves read back *)
}.

Definition rounding_interval (m : positive) (e : Z) : interval :=
  let '(num, den) := fraction m e in
  let u := if (0 <=? e)%Z then (2 ^ e)%Z else 1%Z in
  let below :=
    if (Z.pos m =? 2 ^ (prec - 1))%Z && (3 - emax - prec <? e)%Z
    then u else (2 * u)%Z in
  {| iv_lo := 4 * num - below; iv_mid := 4 * num; iv_hi := 4 * num + 2 * u;
     iv_den := 4 * den; iv_closed := Z.even (Z.pos m) |}%Z.

(** The least exponent from [n] on whose power of ten exceeds the value. *)
Fixpoint decimal_exponent (fuel : nat) (iv : interval) (n : Z) : Z :=
  match fuel with
  | O => n
  | S fuel' =>
      let below :=
        if (0 <=? n)%Z then (iv_mid iv <? iv_den iv * 10 ^ n)%Z
        else (iv_mid iv * 10 ^ (- n) <? iv_den iv)%Z in
      if below then n else decimal_exponent fuel' iv (n + 1)
  end.

(** The [k]-digit candidates next to the value, if any reads back. *)
Definition digits_of_length (iv : interval) (n0 : Z) (k : Z) : option (Z * Z) :=
  let p := (n0 - k)%Z in
  let unit := if (0 <=? p)%Z then (iv_den iv * 10 ^ p)%Z else iv_den iv in
  let sc := if (0 <=? p)%Z then 1%Z else (10 ^ (- p))%Z in
  let lo := (iv_lo iv * sc)%Z in
  let mid := (iv_mid iv * sc)%Z in
  let hi := (iv_hi iv * sc)%Z in
  let inside s :=
    let v := (s * unit)%Z in
    if iv_closed iv then (lo <=? v)%Z && (v <=? hi)%Z
    else (lo <? v)%Z && (v <? hi)%Z in
  let s1 := (mid / unit)%Z in
  let s2 := (s1 + 1)%Z in
  let norm s := if (s =? 10 ^ k)%Z then (10 ^ (k - 1), n0 + 1)%Z else (s, n0) in
  match inside s1, inside s2 with
  | false, false => None
  | true, false => Some (norm s1)
  | false, true => Some (norm s2)
  | true, true =>
      let d1 := (mid - s1 * unit)%Z in
      let d2 := (s2 * unit - mid)%Z in
      if (d1 <? d2)%Z then Some (norm s1)
      else if (d2 <? d1)%Z then Some (norm s2)
      else if Z.even s1 then Some (norm s1) else Some (norm s2)
  end.

Fixpoint shortest_digits (fuel : nat) (iv : interval) (n0 : Z) (k : Z) : Z * Z * Z :=
  match fuel with
  | O => ((iv_mid iv * (if (0 <=? n0 - k)%Z then 1 else 10 ^ (k - n0)))
            / (if (0 <=? n0 - k)%Z then iv_den iv * 10 ^ (n0 - k) else iv_den iv),
          k, n0)%Z
  | S fuel' =>
      match digits_of_length iv n0 k with
      | Some (s, n) => (s, k, n)
      | None => shortest_digits fuel' iv n0 (k + 1)
      end
  end.

Definition toString_pos (m : positive) (e : Z) : string :=
  let iv := rounding_interval m e in
  let n0 := decimal_exponent 700 iv (-330) in
  let '(s, k, n) := shortest_digits 17 iv n0 1 in
  let ds := Str.of_Z s in
  if (k <=? n)%Z && (n <=? 21)%Z then
    ds ++ Str.zeros (Z.to_nat (n - k))
  else if (0 <? n)%Z && (n <=? 21)%Z then
    Str.take (Z.to_nat n) ds ++ "." ++ Str.drop (Z.to_nat n) ds
  else if (-6 <? n)%Z && (n <=? 0)%Z then
    "0." ++ Str.zeros (Z.to_nat (- n)) ++ ds
  else
    let ex := (n - 1)%Z in
    let tail := "e" ++ (if (ex <? 0)%Z then "-" else "+") ++ Str.of_Z (Z.abs ex) in
    if (k =? 1)%Z then ds ++ tail
    else Str.take 1 ds ++ "." ++ Str.drop 1 ds ++ tail.

Definition toString (x : number) : string :=
  match x with
  | S754_nan => "NaN"
  | S754_zero _ => "0"
  | S754_infinity s => if s then "-Infinity" else "Infinity"
  | S754_finite s m e => (if s then "-" else "") ++ toString_pos m e
  end.

(** *** [Number.prototype.toFixed]

    For a finite value below [10^21]: the integer [n] with [n / 10^f]
    closest to the value, the larger one of two, printed with [f] digits
    after the point. *)
Definition nearest_scaled (m : positive) (e : Z) (f : nat) : Z :=
  let '(num, den) := fraction m e in
  ((2 * num * 10 ^ Z.of_nat f + den) / (2 * den))%Z.

Definition fixed_digits (n : Z) (f : nat) : string :=
  let ds := Str.of_Z n in
  match f with
  | O => ds
  | _ =>
      let ds := Str.zeros (S f - length ds) ++ ds in
      let k := length ds in
      Str.take (k - f) ds ++ "." ++ Str.drop (k - f) ds
  end.

Definition toFixed (x : number) (f : nat) : string :=
  match x with
  | S754_finite s m e =>
      let '(num, den) := fraction m e in
      if (10 ^ 21 * den <=? num)%Z then toString x
      else (if s then "-" else "") ++ fixed_digits (nearest_scaled m e f) f
  | S754_zero _ => fixed_digits 0 f
  | _ => toString x
  end.

End Num.

(** ** Thrown values and results of fallible operations *)

Module Error.
Record t := { name : string; message : string }.
End Error.

Inductive Res (A : Type) : Type :=
| Ok (a : A)
| Throw (e : Error.t).
Arguments Ok {A} a.
Arguments Throw {A} e.

(** ** Values of the language, as [response.json()] delivers them *)

#[local] Set Warnings "-register-all".
Inductive JSValue : Type :=
| JUndefined
| JNull
| JBool (b : bool)
| JNum (x : Num.number)
| JStr (s : string)
| JArr (items : list JSValue)
| JObj (fields : list (string * JSValue)).

(** What the language leaves to the engine: the reading of a string as a
    number (exact up to an implementation-chosen number of digits), and the
    wording of the two [TypeError]s that a payload can raise: on a property
    read of [undefined] or [null], and on the conversion of an object that
    has no primitive value. *)
Record Runtime := {
  StringToNumber : string -> Num.number;
  nullish_read_message : JSValue -> string -> string;
  no_primitive_message : JSValue -> string
}.

Module JS.

Definition truthy (v : JSValue) : bool :=
  match v with
  | JUndefined | JNull => false
  | JBool b => b
  | JNum (S754_zero _) | JNum S754_nan => false
  | JNum _ => true
  | JStr s => negb (s =? "")
  | JArr _ | JObj _ => true
  end.

Definition typeof (v : JSValue) : string :=
  match v with
  | JUndefined => "undefined"
  | JNull => "object"
  | JBool _ => "boolean"
  | JNum _ => "number"
  | JStr _ => "string"
  | JArr _ | JObj _ => "object"
  end.

Definition isArray (v : JSValue) : bool :=
  match v with JArr _ => true | _ => false end.

(** Strict equality with [null]. *)
Definition is_null (v : JSValue) : bool :=
  match v with JNull => true | _ => false end.

Fixpoint lookup (fields : list (string * JSValue)) (k : string) : JSValue :=
  match fields with
  | [] => JUndefined
  | (k', v) :: rest => if k' =? k then v else lookup rest k
  end.

(** A property key that is a canonical array index. *)
Fixpoint digits_value (acc : nat) (k : string) : option nat :=
  match k with
  | EmptyString => Some acc
  | String c k' =>
      let b := nat_of_ascii c in
      if ((48 <=? b) && (b <=? 57))%nat
      then digits_value (10 * acc + (b - 48)) k'
      else None
  end.

Definition index_of_key (k : string) : option nat :=
  match k with
  | EmptyString => None
  | _ =>
      match digits_value 0 k with
      | Some i => if Str.of_nat i =? k then Some i else None
      | None => None
      end
  end.

(** The code unit at an index of a string; a code point outside the basic
    plane stands for either of its two units. *)
Fixpoint char_at (fuel : nat) (s : string) (i : nat) : JSValue :=
  match fuel with
  | O => JUndefined
  | S fuel' =>
      match Str.first_char s with
      | None => JUndefined
      | Some c =>
          let w := Str.utf16_length c in
          if (i <? w)%nat then JStr c
          else char_at fuel' (Str.drop (length c) s) (i - w)
      end
  end.

(** Property read [v.k] / [v[k]] of own properties; on [undefined] and
    [null] it throws. *)
Definition get (rt : Runtime) (v : JSValue) (k : string) : Res JSValue :=
  match v with
  | JUndefined | JNull =>
      Throw {| Error.name := "TypeError";
               Error.message := nullish_read_message rt v k |}
  | JBool _ | JNum _ => Ok JUndefined
  | JStr s =>
      if k =? "length" then Ok (JNum (Num.of_nat (Str.utf16_length s)))
      else match index_of_key k with
           | Some i => Ok (char_at (length s) s i)
           | None => Ok JUndefined
           end
  | JArr items =>
      if k =? "length" then Ok (JNum (Num.of_nat (List.length items)))
      else match index_of_key k with
           | Some i => Ok (nth i items JUndefined)
           | None => Ok JUndefined
           end
  | JObj fields => Ok (lookup fields k)
  end.

(** An object has the key among its own properties. *)
Fixpoint has_own (fields : list (string * JSValue)) (k : string) : bool :=
  match fields with
  | [] => false
  | (k', _) :: rest => (k' =? k) || has_own rest k
  end.

(** [ToString], as a template literal applies it, and [ToPrimitive] of an
    object or an array, which goes by the same steps.  A parsed value holds
    no function: an object with a key [toString] of its own hides
    [Object.prototype.toString] behind a value that cannot be called, no
    other method yields a primitive, and the conversion throws; any other
    object is ["[object Object]"].  An array is joined with commas,
    [undefined] and [null] as the empty string, and throws where the
    conversion of an element does. *)
Fixpoint ToString (rt : Runtime) (v : JSValue) : Res string :=
  match v with
  | JUndefined => Ok "undefined"
  | JNull => Ok "null"
  | JBool b => Ok (if b then "true" else "false")
  | JNum x => Ok (Num.toString x)
  | JStr s => Ok s
  | JArr items =>
      let element v :=
        match v with JUndefined | JNull => Ok "" | _ => ToString rt v end in
      (fix join (l : list JSValue) : Res string :=
         match l with
         | [] => Ok ""
         | [v] => element v
         | v :: l' =>
             match element v with
             | Ok a =>
                 match join l' with
                 | Ok b => Ok (a ++ "," ++ b)
                 | Throw e => Throw e
                 end
             | Throw e => Throw e
             end
         end) items
  | JObj fields =>
      if has_own fields "toString"
      then Throw {| Error.name := "TypeError";
                    Error.message := no_primitive_message rt v |}
      else Ok "[object Object]"
  end.

Definition ToNumber (rt : Runtime) (v : JSValue) : Res Num.number :=
  match v with
  | JUndefined => Ok Num.NaN
  | JNull => Ok (Num.of_Z 0)
  | JBool b => Ok (if b then Num.of_Z 1 else Num.of_Z 0)
  | JNum x => Ok x
  | JStr s => Ok (StringToNumber rt s)
  | JArr _ | JObj _ =>
      match ToString rt v with
      | Ok s => Ok (StringToNumber rt s)
      | Throw e => Throw e
      end
  end.

(** [v > n] for a number [n]. *)
Definition gt (rt : Runtime) (v : JSValue) (n : Num.number) : Res bool :=
  match ToNumber rt v with
  | Ok x => Ok (Num.ltb n x)
  | Throw e => Throw e
  end.

End JS.

(** ** The environment of a run

    [fetch] resolves to a response or rejects; of a response the program
    reads the status, single headers, and the body as JSON or as text.  The
    environment answers the [i]-th request and the [i]-th reading of the
    clock; the state counts how many of each were made. *)

Module Response.
Record t := {
  status : nat;
  headers_get : string -> option string;    (* [headers.get(name)], [None] for [null] *)
  json : Res JSValue;                       (* [await response.json()] *)
  text : Res string                         (* [await response.text()] *)
}.
End Response.

Record Env := {
  fetch : nat -> string -> Res Response.t;
  now : nat -> Z                               (* milliseconds since the epoch *)
}.

(** One entry of [this.results]; the timestamp is kept as the instant read
    from the clock (the source stores its ISO 8601 rendering). *)
Record TestResult := {
  test : string;
  status : string;
  message : string;
  timestamp : Z;
  data : JSValue
}.

(** The fields of an instance, and the two counters of the environment. *)
Record St := {
  baseURL : string;
  websiteURL : string;
  results : list TestResult;
  startTime : Z;
  fetched : nat;
  ticks : nat
}.

Definition set_results (s : St) (l : list TestResult) : St :=
  {| baseURL := baseURL s; websiteURL := websiteURL s; results := l;
     startTime := startTime s; fetched := fetched s; ticks := ticks s |}.

Definition tick (s : St) : St :=
  {| baseURL := baseURL s; websiteURL := websiteURL s; results := results s;
     startTime := startTime s; fetched := fetched s; ticks := S (ticks s) |}.

Definition count_fetch (s : St) : St :=
  {| baseURL := baseURL s; websiteURL := websiteURL s; results := results s;
     startTime := startTime s; fetched := S (fetched s); ticks := ticks s |}.

(** ** The monad of the methods: state of the instance, and exceptions *)

Definition M (A : Type) : Type := St -> Res A * St.

Definition ret {A} (a : A) : M A := fun s => (Ok a, s).

Definition bind {A B} (m : M A) (k : A -> M B) : M B :=
  fun s =>
    match m s with
    | (Ok a, s') => k a s'
    | (Throw e, s') => (Throw e, s')
    end.

Definition lift {A} (r : Res A) : M A := fun s => (r, s).

(** [try { body } catch (error) { handler }] *)
Definition try_catch {A} (body : M A) (handler : Error.t -> M A) : M A :=
  fun s =>
    match body s with
    | (Ok a, s') => (Ok a, s')
    | (Throw e, s') => handler e s'
    end.

Notation "x <- m ;; k" := (bind m (fun x => k))
  (at level 61, m at next level, right associativity).
Notation "m ;;; k" := (bind m (fun _ => k))
  (at level 61, right associativity).

(** [for (const x of l) { body }], with the local variables of the loop
    threaded as an accumulator. *)
Fixpoint for_of {A S} (l : list A) (body : A -> S -> M S) (acc : S) : M S :=
  match l with
  | [] => ret acc
  | x :: l' => acc' <- body x acc ;; for_of l' body acc'
  end.

Definition get_state : M St := fun s => (Ok s, s).

(** An entry of [securityTests]: a header name with either an [expected]
    value or a [contains] fragment. *)
Module SecurityTest.
Record t := {
  name : string;
  expected : option string;
  contains : option string
}.
End SecurityTest.

(** An entry of the [endpoints] of [testResponseTimes]. *)
Module Endpoint.
Record t := { name : string; url : string }.
End Endpoint.

Section Suite.

Variable env : Env.

(** [Date.now()] and [new Date()]. *)
Definition Date_now : M Z := fun s => (Ok (now env (ticks s)), tick s).

(** [await fetch(url)]. *)
Definition fetch_url (url : string) : M Response.t :=
  fun s => (fetch env (fetched s) url, count_fetch s).

Definition constructor : St :=
  {| baseURL := "https://func-britedge-assignment.azurewebsites.net/api";
     websiteURL := "https://thankful-sand-085c06103.2.azurestaticapps.net";
     results := [];
     startTime := now env 0;
     fetched := 0;
     ticks := 1 |}.

(** [logResult(testName, passed, message, data = null)]; callers that pass
    no fourth argument are written with [JNull]. *)
Definition logResult (testName : string) (passed : bool) (message : string)
    (data : JSValue) : M unit :=
  let data := match data with JUndefined => JNull | _ => data end in
  t <- Date_now ;;
  fun s =>
    let result :=
      {| test := testName;
         status := if passed then "PASS" else "FAIL";
         message := message;
         timestamp := t;
         data := data |} in
    (Ok tt, set_results s (results s ++ [result])).

(** *** API tests *)

Section Api.

Variable rt : Runtime.

Definition get (v : JSValue) (k : string) : M JSValue := lift (JS.get rt v k).

(** [a && b] on values: [b] is evaluated only when [a] is truthy. *)
Definition and_then (a : JSValue) (b : M JSValue) : M JSValue :=
  if JS.truthy a then b else ret a.

Definition testGetBritEdgeInfo : M unit :=
  try_catch
    (s <- get_state ;;
     response <- fetch_url (baseURL s ++ "/GetBritEdgeInfo") ;;
     data <- lift (Response.json response) ;;
     if (Response.status response =? 200)%nat then
       company <- get data "company" ;;
       hasCompany <- and_then company
         (company <- get data "company" ;; get company "name") ;;
       stats <- get data "stats" ;;
       hasStats <- and_then stats
         (stats <- get data "stats" ;;
          totalEmployees <- get stats "totalEmployees" ;;
          ret (JBool (JS.typeof totalEmployees =? "number"))) ;;
       locations <- get data "locations" ;;
       hasLocations <- and_then (JBool (JS.isArray locations))
         (locations <- get data "locations" ;;
          len <- get locations "length" ;;
          positive <- lift (JS.gt rt len (Num.of_Z 0)) ;;
          ret (JBool positive)) ;;
       if JS.truthy hasCompany && JS.truthy hasStats && JS.truthy hasLocations then
         stats <- get data "stats" ;;
         totalEmployees <- get stats "totalEmployees" ;;
         employees <- lift (JS.ToString rt totalEmployees) ;;
         locations <- get data "locations" ;;
         len <- get locations "length" ;;
         count <- lift (JS.ToString rt len) ;;
         logResult "API: GetBritEdgeInfo" true
           ("Valid company data returned (" ++ employees
            ++ " employees, " ++ count ++ " locations)") JNull
       else
         logResult "API: GetBritEdgeInfo" false "Invalid response structure" data
     else
       logResult "API: GetBritEdgeInfo" false
         ("HTTP " ++ Str.of_nat (Response.status response) ++ " error") JNull)
    (fun error =>
       logResult "API: GetBritEdgeInfo" false
         ("Network error: " ++ Error.message error) JNull).

Definition testGetTestimonials : M unit :=
  try_catch
    (s <- get_state ;;
     response <- fetch_url (baseURL s ++ "/GetTestimonials") ;;
     data <- lift (Response.json response) ;;
     if (Response.status response =? 200)%nat then
       testimonials <- get data "testimonials" ;;
       let hasTestimonials := JS.isArray testimonials in
       testimonials <- get data "testimonials" ;;
       hasValidStructure <- and_then testimonials
         (testimonials <- get data "testimonials" ;;
          len <- get testimonials "length" ;;
          positive <- lift (JS.gt rt len (Num.of_Z 0)) ;;
          and_then (JBool positive)
            (testimonials <- get data "testimonials" ;;
             first <- get testimonials "0" ;;
             client <- get first "client" ;;
             and_then client
               (testimonials <- get data "testimonials" ;;
                first <- get testimonials "0" ;;
                get first "rating"))) ;;
       if hasTestimonials && JS.truthy hasValidStructure then
         testimonials <- get data "testimonials" ;;
         len <- get testimonials "length" ;;
         count <- lift (JS.ToString rt len) ;;
         logResult "API: GetTestimonials" true
           (count ++ " testimonials returned with valid structure") JNull
       else
         logResult "API: GetTestimonials" false "Invalid testimonials structure" data
     else
       logResult "API: GetTestimonials" false
         ("HTTP " ++ Str.of_nat (Response.status response) ++ " error") JNull)
    (fun error =>
       logResult "API: GetTestimonials" false
         ("Network error: " ++ Error.message error) JNull).

Definition testGetCustomers : M unit :=
  try_catch
    (s <- get_state ;;
     response <- fetch_url (baseURL s ++ "/GetCustomers") ;;
     data <- lift (Response.json response) ;;
     if (Response.status response =? 200)%nat then
       customers <- get data "customers" ;;
       let hasCustomers := JS.isArray customers in
       customers <- get data "customers" ;;
       hasValidStructure <- and_then customers
         (customers <- get data "customers" ;;
          len <- get customers "length" ;;
          positive <- lift (JS.gt rt len (Num.of_Z 0)) ;;
          and_then (JBool positive)
            (customers <- get data "customers" ;;
             first <- get customers "0" ;;
             customerId <- get first "customerId" ;;
             and_then customerId
               (customers <- get data "customers" ;;
                first <- get customers "0" ;;
                get first "companyName"))) ;;
       if hasCustomers && JS.truthy hasValidStructure then
         customers <- get data "customers" ;;
         len <- get customers "length" ;;
         count <- lift (JS.ToString rt len) ;;
         logResult "API: GetCustomers" true
           (count ++ " customers returned with valid structure") JNull
       else
         logResult "API: GetCustomers" false "Invalid customers structure" data
     else
       logResult "API: GetCustomers" false
         ("HTTP " ++ Str.of_nat (Response.status response) ++ " error") JNull)
    (fun error =>
       logResult "API: GetCustomers" false
         ("Network error: " ++ Error.message error) JNull).

End Api.

(** *** Security tests *)

Definition securityTests : list SecurityTest.t :=
  [ {| SecurityTest.name := "X-Frame-Options";
       SecurityTest.expected := Some "DENY";
       SecurityTest.contains := None |};
    {| SecurityTest.name := "X-Content-Type-Options";
       SecurityTest.expected := Some "nosniff";
       SecurityTest.contains := None |};
    {| SecurityTest.name := "X-XSS-Protection";
       SecurityTest.expected := Some "1; mode=block";
       SecurityTest.contains := None |};
    {| SecurityTest.name := "Strict-Transport-Security";
       SecurityTest.expected := None;
       SecurityTest.contains := Some "max-age=" |} ].

(** Truthiness of an optional string field, and of a header value. *)
Definition present (o : option string) : bool :=
  match o with
  | Some s => negb (s =? "")
  | None => false
  end.

(** [headerValue === test.expected] *)
Definition same (o1 o2 : option string) : bool :=
  match o1, o2 with
  | Some a, Some b => a =? b
  | _, _ => false
  end.

(** The body of the [forEach]: the new value of [passedHeaders]. *)
Definition check_header (headers : string -> option string)
    (passedHeaders : nat) (test : SecurityTest.t) : nat :=
  let headerValue := headers (SecurityTest.name test) in
  if present (SecurityTest.expected test) && same headerValue (SecurityTest.expected test)
  then S passedHeaders
  else if present (SecurityTest.contains test) && present headerValue
          && match headerValue, SecurityTest.contains test with
             | Some v, Some c => Str.includes v c
             | _, _ => false
             end
  then S passedHeaders
  else passedHeaders.

Definition testSecurityHeaders : M unit :=
  try_catch
    (s <- get_state ;;
     response <- fetch_url (websiteURL s) ;;
     let headers := Response.headers_get response in
     let passedHeaders := fold_left (check_header headers) securityTests 0 in
     let allPassed := (passedHeaders =? List.length securityTests)%nat in
     logResult "Security: Headers" allPassed
       (Str.of_nat passedHeaders ++ "/" ++ Str.of_nat (List.length securityTests)
        ++ " security headers correctly configured") JNull)
    (fun error =>
       logResult "Security: Headers" false
         ("Error checking headers: " ++ Error.message error) JNull).

(** The [try] block and the [catch] block of [testHTTPS]. *)
Definition https_try : M unit :=
  s <- get_state ;;
  let httpsTest := Str.startsWith (websiteURL s) "https://" in
  logResult "Security: HTTPS" httpsTest
    (if httpsTest then "Website uses HTTPS encryption"
     else "Website not using HTTPS") JNull.

Definition https_catch (error : Error.t) : M unit :=
  logResult "Security: HTTPS" false
    ("HTTPS test failed: " ++ Error.message error) JNull.

Definition testHTTPS : M unit := try_catch https_try https_catch.

Definition testCORS : M unit :=
  try_catch
    (s <- get_state ;;
     response <- fetch_url (baseURL s ++ "/GetBritEdgeInfo") ;;
     let corsHeader := Response.headers_get response "Access-Control-Allow-Origin" in
     let corsConfigured :=
       same corsHeader (Some "*") || same corsHeader (Some (websiteURL s)) in
     logResult "Security: CORS" corsConfigured
       (if corsConfigured
        then "CORS properly configured: "
             ++ match corsHeader with Some v => v | None => "null" end
        else "CORS not configured correctly") JNull)
    (fun error =>
       logResult "Security: CORS" false
         ("CORS test failed: " ++ Error.message error) JNull).

(** *** Performance tests *)

Definition endpoints (s : St) : list Endpoint.t :=
  [ {| Endpoint.name := "Website"; Endpoint.url := websiteURL s |};
    {| Endpoint.name := "GetBritEdgeInfo API";
       Endpoint.url := baseURL s ++ "/GetBritEdgeInfo" |};
    {| Endpoint.name := "GetTestimonials API";
       Endpoint.url := baseURL s ++ "/GetTestimonials" |};
    {| Endpoint.name := "GetCustomers API";
       Endpoint.url := baseURL s ++ "/GetCustomers" |} ].

(** The body of the loop of [testResponseTimes]. *)
Definition measure (endpoint : Endpoint.t) (_ : unit) : M unit :=
  try_catch
    (startTime <- Date_now ;;
     response <- fetch_url (Endpoint.url endpoint) ;;
     endTime <- Date_now ;;
     let responseTime := (endTime - startTime)%Z in
     let isGood := (responseTime <? 2000)%Z in
     logResult ("Performance: " ++ Endpoint.name endpoint) isGood
       ("Response time: " ++ Str.of_Z responseTime ++ "ms "
        ++ (if isGood then "(Good)" else "(Slow)")) JNull)
    (fun error =>
       logResult ("Performance: " ++ Endpoint.name endpoint) false
         ("Failed to test response time: " ++ Error.message error) JNull).

Definition testResponseTimes : M unit :=
  s <- get_state ;;
  for_of (endpoints s) measure tt.

(** *** Functionality tests *)

Definition testWebsiteNavigation : M unit :=
  try_catch
    (s <- get_state ;;
     response <- fetch_url (websiteURL s) ;;
     html <- lift (Response.text response) ;;
     let hasNavigation := Str.includes html "nav-link" || Str.includes html "navigation" in
     let hasContent := Str.includes html "BritEdge" && Str.includes html "Manufacturing" in
     let hasTailwind := Str.includes html "tailwindcss" in
     let functionalityScore :=
       List.length (filter (fun b : bool => b) [hasNavigation; hasContent; hasTailwind]) in
     logResult "Functionality: Website" (functionalityScore =? 3)%nat
       ("Website functionality check: " ++ Str.of_nat functionalityScore
        ++ "/3 elements found") JNull)
    (fun error =>
       logResult "Functionality: Website" false
         ("Website functionality test failed: " ++ Error.message error) JNull).

Definition apiEndpoints : list string :=
  ["GetBritEdgeInfo"; "GetTestimonials"; "GetCustomers"].

(** The body of the loop of [testJSONResponses]: the new value of
    [validResponses]. *)
Definition probe (endpoint : string) (validResponses : nat) : M nat :=
  try_catch
    (s <- get_state ;;
     response <- fetch_url (baseURL s ++ "/" ++ endpoint) ;;
     data <- lift (Response.json response) ;;
     if (JS.typeof data =? "object") && negb (JS.is_null data)
     then ret (S validResponses)
     else ret validResponses)
    (fun error => ret validResponses).

Definition testJSONResponses : M unit :=
  validResponses <- for_of apiEndpoints probe 0 ;;
  let allValid := (validResponses =? List.length apiEndpoints)%nat in
  logResult "Functionality: JSON APIs" allValid
    (Str.of_nat validResponses ++ "/" ++ Str.of_nat (List.length apiEndpoints)
     ++ " APIs return valid JSON") JNull.

(** *** Summary *)

Record Summary := {
  total : nat;
  passed : nat;
  failed : nat;
  successRate : string;
  executionTime : Z
}.

Record Report := { summary : Summary; report_results : list TestResult }.

Definition generateSummary : M Report :=
  s <- get_state ;;
  let totalTests := List.length (results s) in
  let passedTests := List.length (filter (fun r => status r =? "PASS") (results s)) in
  let failedTests := (totalTests - passedTests)%nat in
  let successRate :=
    Num.toFixed
      (Num.mul (Num.div (Num.of_nat passedTests) (Num.of_nat totalTests))
               (Num.of_Z 100)) 1 in
  t <- Date_now ;;
  let totalTime := (t - startTime s)%Z in
  ret {| summary := {| total := totalTests;
                       passed := passedTests;
                       failed := failedTests;
                       successRate := successRate;
                       executionTime := totalTime |};
         report_results := results s |}.

Section Run.

Variable rt : Runtime.

(** The summary is generated last; its value is not returned. *)
Definition runAllTests : M unit :=
  testGetBritEdgeInfo rt ;;;
  testGetTestimonials rt ;;;
  testGetCustomers rt ;;;
  testJSONResponses ;;;
  testSecurityHeaders ;;;
  testHTTPS ;;;
  testCORS ;;;
  testResponseTimes ;;;
  testWebsiteNavigation ;;;
  generateSummary ;;;
  ret tt.

(** [window.runBritEdgeTests]: a fresh instance, then all tests. *)
Definition runBritEdgeTests : Res unit * St := runAllTests constructor.

(** The methods of the class, and the states an instance can be in. *)
Inductive Method :=
| CallLogResult (testName : string) (passed : bool) (message : string) (data : JSValue)
| CallGetBritEdgeInfo
| CallGetTestimonials
| CallGetCustomers
| CallSecurityHeaders
| CallHTTPS
| CallCORS
| CallResponseTimes
| CallWebsiteNavigation
| CallJSONResponses
| CallRunAllTests
| CallGenerateSummary.

Definition call (m : Method) : M unit :=
  match m with
  | CallLogResult testName passed message data => logResult testName passed message data
  | CallGetBritEdgeInfo => testGetBritEdgeInfo rt
  | CallGetTestimonials => testGetTestimonials rt
  | CallGetCustomers => testGetCustomers rt
  | CallSecurityHeaders => testSecurityHeaders
  | CallHTTPS => testHTTPS
  | CallCORS => testCORS
  | CallResponseTimes => testResponseTimes
  | CallWebsiteNavigation => testWebsiteNavigation
  | CallJSONResponses => testJSONResponses
  | CallRunAllTests => runAllTests
  | CallGenerateSummary => generateSummary ;;; ret tt
  end.

Inductive reachable : St -> Prop :=
| reach_new : reachable constructor
| reach_call (s : St) (m : Method) : reachable s -> reachable (snd (call m s)).

End Run.

End Suite.

(** ** Vocabulary of the statements *)

(** The state that [logResult] leaves. *)
Definition logged (env : Env) (testName : string) (passed : bool) (msg : string)
    (d : JSValue) (s : St) : St :=
  snd (logResult env testName passed msg d s).

(** A computation that leaves the state alone. *)
Definition pure {A} (m : M A) : Prop := forall s, snd (m s) = s.

(** A computation that either logs one result under [testName] and returns,
    or throws before it has changed anything. *)
Definition once (env : Env) (testName : string) (m : M unit) : Prop :=
  forall s,
    match m s with
    | (Ok _, s') => exists p msg d, s' = logged env testName p msg d s
    | (Throw _, s') => s' = s
    end.

Definition well_formed (r : TestResult) : Prop :=
  status r = "PASS" \/ status r = "FAIL".

(** [s'] is [s] after [nf] more requests and with results of the given names
    appended; the configuration is untouched. *)
Record grows (s s' : St) (names : list string) (nf : nat) : Prop := {
  grows_baseURL : baseURL s' = baseURL s;
  grows_websiteURL : websiteURL s' = websiteURL s;
  grows_startTime : startTime s' = startTime s;
  grows_fetched : fetched s' = (fetched s + nf)%nat;
  grows_ticks : (ticks s <= ticks s')%nat;
  grows_results :
    exists l, results s' = (results s ++ l)%list /\ map test l = names /\ Forall well_formed l
}.

(** The request is rejected, or the body cannot be read as JSON. *)
Definition unanswered (o : Res Response.t) (e : Error.t) : Prop :=
  o = Throw e \/ exists response, o = Ok response /\ Response.json response = Throw e.

(** The request is rejected, or the body cannot be read as text. *)
Definition unread (o : Res Response.t) (e : Error.t) : Prop :=
  o = Throw e \/ exists response, o = Ok response /\ Response.text response = Throw e.

(** From [s], the routine returns and has appended one [FAIL] with the
    given name and message. *)
Definition records_failure (m : M unit) (s : St) (testName msg : string) : Prop :=
  exists r s',
    m s = (Ok tt, s')
    /\ results s' = (results s ++ [r])%list
    /\ test r = testName /\ status r = "FAIL" /\ message r = msg.

(** The message of an API check for a response whose status is not 200. *)
Definition non_200_message (response : Response.t) : string :=
  match Response.json response with
  | Throw e => "Network error: " ++ Error.message e
  | Ok _ => "HTTP " ++ Str.of_nat (Response.status response) ++ " error"
  end.

(** The configuration that the constructor installs. *)
Definition configured (s : St) : Prop :=
  baseURL s = "https://func-britedge-assignment.azurewebsites.net/api"
  /\ websiteURL s = "https://thankful-sand-085c06103.2.azurestaticapps.net".

(** The summary that [generateSummary] returns in a state. *)
Definition summary_in (env : Env) (s : St) : option Summary :=
  match fst (generateSummary env s) with
  | Ok report => Some (summary report)
  | Throw _ => None
  end.

(** *** Success rate *)

(** The expression of [generateSummary], on the two counts. *)
Definition rate (passedTests totalTests : nat) : string :=
  Num.toFixed
    (Num.mul (Num.div (Num.of_nat passedTests) (Num.of_nat totalTests))
             (Num.of_Z 100)) 1.

(** The specification's [round(passed/total*100, 1 decimal)] on exact
    fractions, halves rounded up: the nearest multiple of one tenth, printed
    with one decimal. *)
Definition round_1_decimal (passed total : nat) : string :=
  Num.fixed_digits
    ((2 * (1000 * Z.of_nat passed) + Z.of_nat total) / (2 * Z.of_nat total)) 1.

Definition rates_agree (total : nat) : bool :=
  forallb (fun p => rate p total =? round_1_decimal p total) (seq 0 (S total)).

Definition rates_agree_upto (n : nat) : bool := forallb rates_agree (seq 1 n).

(** *** Security headers, in the words of the specification *)

Definition header_matches (headers : string -> option string) : list bool :=
  [ same (headers "X-Frame-Options") (Some "DENY");
    same (headers "X-Content-Type-Options") (Some "nosniff");
    same (headers "X-XSS-Protection") (Some "1; mode=block");
    match headers "Strict-Transport-Security" with
    | Some v => Str.includes v "max-age="
    | None => false
    end ].

Definition count_true (l : list bool) : nat := List.length (filter (fun b : bool => b) l).

(** *** JSON validity *)

(** The request resolved and its body parsed to an object other than [null]. *)
Definition valid_json (o : Res Response.t) : bool :=
  match o with
  | Ok response =>
      match Response.json response with
      | Ok (JObj _) | Ok (JArr _) => true
      | _ => false
      end
  | Throw _ => false
  end.

(** The body of a response could not be parsed. *)
Definition parse_error (o : Res Response.t) : Prop :=
  exists response e, o = Ok response /\ Response.json response = Throw e.

(** The answer to the [i]-th request of [testJSONResponses] from state [s]. *)
Definition json_answer (env : Env) (s : St) (i : nat) : Res Response.t :=
  fetch env (fetched s + i) (baseURL s ++ "/" ++ nth i apiEndpoints "").

(** The number of the three answers that are valid. *)
Definition valid_count (env : Env) (s : St) : nat :=
  count_true (map (fun i => valid_json (json_answer env s i)) (seq 0 3)).

(** *** Response times *)

(** The clock readings that one turn of the loop of [testResponseTimes]
    takes: one before the request, one after it when it is answered, and the
    one of [logResult]. *)
Definition spent (o : Res Response.t) : nat :=
  match o with
  | Ok _ => 3
  | Throw _ => 2
  end.



(** What [testResponseTimes] records for an endpoint whose request was
    answered by [o], the clock being read for the [k]-th time just before the
    request: the response time is the difference of the readings [k] and
    [k + 1], and the result is stamped with the next reading. *)
Definition measured (env : Env) (endpoint : Endpoint.t) (o : Res Response.t)
    (k : nat) (r : TestResult) : Prop :=
  test r = "Performance: " ++ Endpoint.name endpoint
  /\ data r = JNull
  /\ match o with
     | Throw e =>
         status r = "FAIL"
         /\ message r = "Failed to test response time: " ++ Error.message e
         /\ timestamp r = now env (S k)
     | Ok _ =>
         let responseTime := (now env (S k) - now env k)%Z in
         status r = (if (responseTime <? 2000)%Z then "PASS" else "FAIL")
         /\ message r = "Response time: " ++ Str.of_Z responseTime ++ "ms "
                        ++ (if (responseTime <? 2000)%Z then "(Good)" else "(Slow)")
         /\ timestamp r = now env (S (S k))
     end.

(** *** Website content *)

Definition content_checks (html : string) : list bool :=
  [ Str.includes html "nav-link" || Str.includes html "navigation";
    Str.includes html "BritEdge" && Str.includes html "Manufacturing";
    Str.includes html "tailwindcss" ].

(** *** The run *)

(** A routine that always returns, having made [nf] requests and appended
    results of the given names. *)
Definition returns_growing (m : M unit) (names : list string) (nf : nat) : Prop :=
  forall s, exists s', m s = (Ok tt, s') /\ grows s s' names nf.

Definition performance_names : list string :=
  ["Performance: Website"; "Performance: GetBritEdgeInfo API";
   "Performance: GetTestimonials API"; "Performance: GetCustomers API"].

(** The names of the results of [runAllTests], in the order they are logged. *)
Definition run_names : list string :=
  ["API: GetBritEdgeInfo"; "API: GetTestimonials"; "API: GetCustomers";
   "Functionality: JSON APIs"; "Security: Headers"; "Security: HTTPS";
   "Security: CORS"; "Performance: Website"; "Performance: GetBritEdgeInfo API";
   "Performance: GetTestimonials API"; "Performance: GetCustomers API";
   "Functionality: Website"].

(** *** Environments and logs of the examples *)

(** A runtime for the examples: it reads strings of decimal digits, and words
    the two errors as V8 does. *)
Definition exampleRuntime : Runtime :=
  {| StringToNumber := fun s =>
       match s with
       | EmptyString => Num.of_Z 0
       | _ => match JS.digits_value 0 s with
              | Some n => Num.of_nat n
              | None => Num.NaN
              end
       end;
     nullish_read_message := fun v k =>
       "Cannot read properties of "
       ++ match v with JNull => "null" | _ => "undefined" end
       ++ " (reading '" ++ k ++ "')";
     no_primitive_message := fun _ => "Cannot convert object to primitive value" |}.

Definition respond (code : nat) (headers : list (string * string))
    (body : Res JSValue) (html : Res string) : Response.t :=
  {| Response.status := code;
     Response.headers_get := fun k =>
       match find (fun kv => fst kv =? k) headers with
       | Some kv => Some (snd kv)
       | None => None
       end;
     Response.json := body;
     Response.text := html |}.

Definition failure (msg : string) : Error.t :=
  {| Error.name := "TypeError"; Error.message := msg |}.

(** Every request is rejected. *)
Definition offline : Env :=
  {| fetch := fun _ _ => Throw (failure "Failed to fetch");
     now := fun i => Z.of_nat i |}.

(** Every request is answered by the same response. *)
Definition serving (response : Response.t) : Env :=
  {| fetch := fun _ _ => Ok response; now := fun i => Z.of_nat i |}.

(** [n] results logged one after the other. *)
Fixpoint log_many (env : Env) (n : nat) (passed : bool) (s : St) : St :=
  match n with
  | O => s
  | S n' => log_many env n' passed (logged env "check" passed "" JNull s)
  end.

(** A log of 80 results, 23 of them passed. *)
Definition uneven_log : St :=
  log_many offline 57 false (log_many offline 23 true (constructor offline)).

(** The headers of the specification's example. *)
Definition hardened : Response.t :=
  respond 200
    [ ("X-Frame-Options", "DENY");
      ("X-Content-Type-Options", "nosniff");
      ("X-XSS-Protection", "1; mode=block");
      ("Strict-Transport-Security", "max-age=31536000") ]
    (Ok (JObj [])) (Ok "").

(** A server error whose body is not JSON. *)
Definition broken : Response.t :=
  respond 500 []
    (Throw {| Error.name := "SyntaxError";
              Error.message := "Unexpected token < in JSON at position 0" |})
    (Ok "<html>Internal Server Error</html>").

(** The second request is answered by a body that is not JSON, the others by
    an object. *)
Definition one_bad_body : Env :=
  {| fetch := fun i _ =>
       if (i =? 1)%nat then Ok broken else Ok (respond 200 [] (Ok (JObj [])) (Ok ""));
     now := fun i => Z.of_nat i |}.

(** A page without the stylesheet marker. *)
Definition plain_page : Response.t :=
  respond 200 [] (Throw (failure "not JSON"))
    (Ok "<nav class='nav-link'>BritEdge Solutions - Manufacturing</nav>").

(** The clock advances by the latency of each request: 120, 2500, 300 and
    80 milliseconds; reading it takes no time. *)
Definition slow_second : Env :=
  {| fetch := fun _ _ => Ok (respond 200 [] (Ok (JObj [])) (Ok ""));
     now := fun i =>
       match i with
       | 0 | 1 => 1000%Z
       | 2 | 3 | 4 => 1120%Z
       | 5 | 6 | 7 => 3620%Z
       | 8 | 9 | 10 => 3920%Z
       | _ => 4000%Z
       end |}.

(** A healthy deployment: every endpoint answers at once with a well-formed
    payload, the site sends the four security headers and allows any origin. *)
Definition healthy_payload (url : string) : Res JSValue :=
  if Str.includes url "/GetBritEdgeInfo" then
    Ok (JObj [ ("company", JObj [("name", JStr "BritEdge Solutions")]);
               ("stats", JObj [("totalEmployees", JNum (Num.of_Z 250))]);
               ("locations", JArr [JStr "Leeds"; JStr "Glasgow"]) ])
  else if Str.includes url "/GetTestimonials" then
    Ok (JObj [ ("testimonials",
                JArr [ JObj [("client", JStr "Acme"); ("rating", JNum (Num.of_Z 5))] ]) ])
  else if Str.includes url "/GetCustomers" then
    Ok (JObj [ ("customers",
                JArr [ JObj [("customerId", JStr "C-001"); ("companyName", JStr "Acme")];
                       JObj [("customerId", JStr "C-002"); ("companyName", JStr "Zenith")] ]) ])
  else Throw (failure "Unexpected token < in JSON at position 0").

Definition healthy : Env :=
  {| fetch := fun _ url =>
       Ok (respond 200
             [ ("X-Frame-Options", "DENY");
               ("X-Content-Type-Options", "nosniff");
               ("X-XSS-Protection", "1; mode=block");
               ("Strict-Transport-Security", "max-age=31536000");
               ("Access-Control-Allow-Origin", "*") ]
             (healthy_payload url)
             (Ok "<script src='https://cdn.tailwindcss.com'></script><a class='nav-link'>BritEdge Manufacturing</a>"));
     now := fun i => (10 * Z.of_nat i)%Z |}.

(** *** Payloads of the API checks *)

(** [undefined] or [null]: the values whose properties cannot be read. *)
Definition nullish (v : JSValue) : bool :=
  match v with JUndefined | JNull => true | _ => false end.

(** The value of [v.k] where the read does not throw. *)
Definition prop (rt : Runtime) (v : JSValue) (k : string) : JSValue :=
  match JS.get rt v k with
  | Ok x => x
  | Throw _ => JUndefined
  end.

(** [v > n] where the comparison returns. *)
Definition exceeds (rt : Runtime) (v : JSValue) (n : Num.number) : bool :=
  match JS.gt rt v n with
  | Ok b => b
  | Throw _ => false
  end.

(** The text of [v] in a template where the conversion returns. *)
Definition shown (rt : Runtime) (v : JSValue) : string :=
  match JS.ToString rt v with
  | Ok text => text
  | Throw _ => ""
  end.

(** [{company: {name}, stats: {totalEmployees: number}, locations: [>= 1 item]}] *)
Definition info_shape (rt : Runtime) (data : JSValue) : bool :=
  JS.truthy (prop rt data "company")
  && JS.truthy (prop rt (prop rt data "company") "name")
  && JS.truthy (prop rt data "stats")
  && (JS.typeof (prop rt (prop rt data "stats") "totalEmployees") =? "number")
  && JS.isArray (prop rt data "locations")
  && exceeds rt (prop rt (prop rt data "locations") "length") (Num.of_Z 0).

Definition info_message (rt : Runtime) (data : JSValue) : string :=
  "Valid company data returned ("
  ++ shown rt (prop rt (prop rt data "stats") "totalEmployees")
  ++ " employees, "
  ++ shown rt (prop rt (prop rt data "locations") "length")
  ++ " locations)".

(** [data[key] && data[key].length > 0], the test that guards the read of
    the first element: it is [false] for a falsy value under [key], and it
    throws when the length has no primitive value to compare. *)
Definition first_reached (rt : Runtime) (data : JSValue) (key : string) : Res bool :=
  if JS.truthy (prop rt data key)
  then JS.gt rt (prop rt (prop rt data key) "length") (Num.of_Z 0)
  else Ok false.

(** The list under [key] is read up to its first element: it is truthy and
    its length exceeds 0. *)
Definition reaches_first (rt : Runtime) (data : JSValue) (key : string) : bool :=
  JS.truthy (prop rt data key)
  && exceeds rt (prop rt (prop rt data key) "length") (Num.of_Z 0).

Definition first_of (rt : Runtime) (data : JSValue) (key : string) : JSValue :=
  prop rt (prop rt data key) "0".

(** [{key: [{k1, k2}, ...]}] with at least one item, [k1] and [k2] of the
    first item truthy. *)
Definition list_shape (rt : Runtime) (data : JSValue) (key k1 k2 : string) : bool :=
  JS.isArray (prop rt data key)
  && reaches_first rt data key
  && JS.truthy (prop rt (first_of rt data key) k1)
  && JS.truthy (prop rt (first_of rt data key) k2).

(** A payload on which every read and comparison of the list check returns:
    it is not [null], the guard of the first element does not throw, and
    where it holds the first element is not [null]. *)
Definition list_readable (rt : Runtime) (data : JSValue) (key : string) : Prop :=
  nullish data = false
  /\ exists reached,
       first_reached rt data key = Ok reached
       /\ (reached = true -> nullish (first_of rt data key) = false).

(** What an API check logs for a response: passed, message, attached data. *)
Definition info_verdict (rt : Runtime) (response : Response.t) : bool * string * JSValue :=
  match Response.json response with
  | Throw e => (false, "Network error: " ++ Error.message e, JNull)
  | Ok data =>
      if (Response.status response =? 200)%nat then
        if nullish data then
          (false, "Network error: " ++ nullish_read_message rt data "company", JNull)
        else if info_shape rt data then (true, info_message rt data, JNull)
        else (false, "Invalid response structure", data)
      else (false, "HTTP " ++ Str.of_nat (Response.status response) ++ " error", JNull)
  end.

Definition list_verdict (rt : Runtime) (key k1 k2 noun : string) (response : Response.t)
    : bool * string * JSValue :=
  match Response.json response with
  | Throw e => (false, "Network error: " ++ Error.message e, JNull)
  | Ok data =>
      if (Response.status response =? 200)%nat then
        if nullish data then
          (false, "Network error: " ++ nullish_read_message rt data key, JNull)
        else
          match first_reached rt data key with
          | Throw e => (false, "Network error: " ++ Error.message e, JNull)
          | Ok reached =>
              if reached && nullish (first_of rt data key) then
                (false,
                 "Network error: " ++ nullish_read_message rt (first_of rt data key) k1,
                 JNull)
              else if list_shape rt data key k1 k2 then
                (true,
                 shown rt (prop rt (prop rt data key) "length")
                 ++ " " ++ noun ++ " returned with valid structure", JNull)
              else (false, "Invalid " ++ noun ++ " structure", data)
          end
      else (false, "HTTP " ++ Str.of_nat (Response.status response) ++ " error", JNull)
  end.

(** The entry that [logResult] appends. *)
Definition entry (testName : string) (passed : bool) (msg : string) (t : Z) (d : JSValue)
    : TestResult :=
  {| test := testName;
     status := if passed then "PASS" else "FAIL";
     message := msg;
     timestamp := t;
     data := match d with JUndefined => JNull | _ => d end |}.
(** A site whose payloads have an empty first slot. *)
Definition hollow : Response.t :=
  respond 200 []
    (Ok (JObj [ ("testimonials", JArr [JNull]); ("customers", JArr [JNull; JNull]) ]))
    (Ok "").

(** A site that answers every request with the JSON text [null]. *)
Definition null_body : Response.t := respond 200 [] (Ok JNull) (Ok "").

(** A site whose lists are objects with a length that has no primitive
    value. *)
Definition odd_length : JSValue :=
  JObj [ ("length", JObj [("toString", JNum (Num.of_Z 1))]) ].

Definition unconvertible : Response.t :=
  respond 200 []
    (Ok (JObj [ ("testimonials", odd_length); ("customers", odd_length) ]))
    (Ok "").

(** A site whose payloads lack a field: no [stats], no [rating], no
    [companyName]. *)
Definition incomplete_payload : JSValue :=
  JObj [ ("company", JObj [("name", JStr "BritEdge Solutions")]);
         ("locations", JArr [JStr "Leeds"]);
         ("testimonials", JArr [ JObj [("client", JStr "Acme")] ]);
         ("customers", JArr [ JObj [("customerId", JStr "C-001")] ]) ].

Definition incomplete : Response.t := respond 200 [] (Ok incomplete_payload) (Ok "").
(** *** The clock *)

(** The clock never runs backwards. *)
Definition monotone_clock (env : Env) : Prop :=
  forall i j, (i <= j)%nat -> (now env i <= now env j)%Z.

(** The start time is the first reading of the clock, and the timestamps of
    the log are later readings, each taken after the one before. *)
Definition stamped (env : Env) (s : St) : Prop :=
  startTime s = now env 0
  /\ (0 < ticks s)%nat
  /\ exists ks,
       map timestamp (results s) = map (now env) ks
       /\ StronglySorted lt ks
       /\ Forall (fun k => (0 < k < ticks s)%nat) ks.

(** A computation that keeps the log stamped. *)
Definition keeps_stamps {A} (env : Env) (m : M A) : Prop :=
  forall s, stamped env s -> stamped env (snd (m s)).
(** *** The requests of a run *)

(** The URLs that [runAllTests] requests, in order. *)
Definition run_requests (s : St) : list string :=
  [ baseURL s ++ "/GetBritEdgeInfo"; baseURL s ++ "/GetTestimonials";
    baseURL s ++ "/GetCustomers";
    baseURL s ++ "/GetBritEdgeInfo"; baseURL s ++ "/GetTestimonials";
    baseURL s ++ "/GetCustomers";
    websiteURL s;
    baseURL s ++ "/GetBritEdgeInfo";
    websiteURL s; baseURL s ++ "/GetBritEdgeInfo"; baseURL s ++ "/GetTestimonials";
    baseURL s ++ "/GetCustomers";
    websiteURL s ].

(** Two environments give the same answer to the [i]-th request from state
    [s], for every [i]-th URL of the list. *)
Definition same_answers (env1 env2 : Env) (s : St) (urls : list string) : Prop :=
  forall i url,
    nth_error urls i = Some url ->
    fetch env1 (fetched s + i) url = fetch env2 (fetched s + i) url.

Definition same_clock (env1 env2 : Env) : Prop := forall k, now env1 k = now env2 k.

(** An environment that answers as [env] does up to the request [n], and
    rejects every later request. *)
Definition cut_off (env : Env) (n : nat) : Env :=
  {| fetch := fun i url =>
       if (i <? n)%nat then fetch env i url else Throw (failure "Failed to fetch");
     now := now env |}.
(** *** A run in which every check passes *)









(** *** Variations of an environment *)

(** The same response under another status code. *)
Definition with_status (code : nat) (response : Response.t) : Response.t :=
  {| Response.status := code;
     Response.headers_get := Response.headers_get response;
     Response.json := Response.json response;
     Response.text := Response.text response |}.

(** The environment [env] with the status of every answer replaced. *)
Definition restatus (code : nat -> string -> nat) (env : Env) : Env :=
  {| fetch := fun i url =>
       match fetch env i url with
       | Ok response => Ok (with_status (code i url) response)
       | Throw e => Throw e
       end;
     now := now env |}.

(** [runAllTests] called [n] times on the same instance. *)
Fixpoint runs (env : Env) (rt : Runtime) (n : nat) (s : St) : St :=
  match n with
  | O => s
  | S n' => runs env rt n' (snd (runAllTests env rt s))
  end.

Definition count_passed (l : list TestResult) : nat :=
  List.length (filter (fun r => status r =? "PASS") l).

(** ** Stepping through the monad *)

Section Steps.

Variable env : Env.

Lemma bind_get_state {A} (k : St -> M A) s : bind get_state k s = k s s.
Proof. reflexivity. Qed.

Lemma bind_ret {A B} (a : A) (k : A -> M B) s : bind (ret a) k s = k a s.
Proof. reflexivity. Qed.

Lemma bind_lift {A B} (r : Res A) (k : A -> M B) s :
  bind (lift r) k s =
  match r with
  | Ok a => k a s
  | Throw e => (Throw e, s)
  end.
Proof. destruct r; reflexivity. Qed.

Lemma bind_fetch {A} (u : string) (k : Response.t -> M A) s :
  bind (fetch_url env u) k s =
  match fetch env (fetched s) u with
  | Ok response => k response (count_fetch s)
  | Throw e => (Throw e, count_fetch s)
  end.
Proof. unfold bind, fetch_url. destruct (fetch env (fetched s) u); reflexivity. Qed.

Lemma bind_now {A} (k : Z -> M A) s :
  bind (Date_now env) k s = k (now env (ticks s)) (tick s).
Proof. reflexivity. Qed.

Lemma logResult_eq testName p msg d s :
  logResult env testName p msg d s = (Ok tt, logged env testName p msg d s).
Proof. reflexivity. Qed.

Lemma results_logged testName p msg d s :
  results (logged env testName p msg d s) =
  (results s ++ [ {| test := testName;
                     status := if p then "PASS" else "FAIL";
                     message := msg;
                     timestamp := now env (ticks s);
                     data := match d with JUndefined => JNull | _ => d end |} ])%list.
Proof. reflexivity. Qed.

Lemma fetched_logged testName p msg d s :
  fetched (logged env testName p msg d s) = fetched s.
Proof. reflexivity. Qed.

Lemma ticks_logged testName p msg d s :
  ticks (logged env testName p msg d s) = S (ticks s).
Proof. reflexivity. Qed.

Lemma grows_logged testName p msg d s :
  grows s (logged env testName p msg d s) [testName] 0.
Proof.
  constructor; try reflexivity.
  - rewrite fetched_logged. lia.
  - rewrite ticks_logged. lia.
  - rewrite results_logged. eexists; split; [reflexivity | split; [reflexivity | ]].
    constructor; [ | constructor ]. unfold well_formed; simpl. destruct p; auto.
Qed.

Lemma grows_count_fetch s : grows s (count_fetch s) [] 1.
Proof.
  constructor; try reflexivity; simpl; try lia.
  exists []. rewrite app_nil_r. auto.
Qed.

Lemma grows_tick s : grows s (tick s) [] 0.
Proof.
  constructor; try reflexivity; simpl; try lia.
  exists []. rewrite app_nil_r. auto.
Qed.

Lemma grows_refl s : grows s s [] 0.
Proof.
  constructor; try reflexivity; try lia.
  exists []. rewrite app_nil_r. auto.
Qed.

Lemma grows_trans s1 s2 s3 n12 n23 f12 f23 :
  grows s1 s2 n12 f12 -> grows s2 s3 n23 f23 ->
  grows s1 s3 (n12 ++ n23)%list (f12 + f23).
Proof.
  intros [B1 W1 T1 F1 K1 (l1 & R1 & N1 & G1)] [B2 W2 T2 F2 K2 (l2 & R2 & N2 & G2)].
  constructor; try congruence; try lia.
  exists (l1 ++ l2)%list. rewrite R2, R1, app_assoc, map_app, N1, N2.
  split; [reflexivity | split; [reflexivity | ]].
  apply Forall_app; auto.
Qed.

(** *** Computations that leave the state alone, or log once *)

Lemma pure_ret {A} (a : A) : pure (ret a).
Proof. intro s; reflexivity. Qed.

Lemma pure_lift {A} (r : Res A) : pure (lift r).
Proof. intro s; reflexivity. Qed.

Lemma pure_bind {A B} (m : M A) (k : A -> M B) :
  pure m -> (forall a, pure (k a)) -> pure (bind m k).
Proof.
  intros Hm Hk s. unfold bind. specialize (Hm s).
  destruct (m s) as [[a|e] s1]; simpl in *; subst; [apply Hk | reflexivity].
Qed.

Lemma pure_and_then a b : pure b -> pure (and_then a b).
Proof.
  intros Hb. unfold and_then. destruct (JS.truthy a); [assumption | apply pure_ret].
Qed.

Lemma once_log testName p msg d : once env testName (logResult env testName p msg d).
Proof. intro s. rewrite logResult_eq. eauto. Qed.

Lemma once_bind testName {A} (m : M A) (k : A -> M unit) :
  pure m -> (forall a, once env testName (k a)) -> once env testName (bind m k).
Proof.
  intros Hm Hk s. unfold bind. specialize (Hm s).
  destruct (m s) as [[a|e] s1]; simpl in *; subst; [apply Hk | reflexivity].
Qed.

Lemma once_if testName (b : bool) (m1 m2 : M unit) :
  once env testName m1 -> once env testName m2 ->
  once env testName (if b then m1 else m2).
Proof. destruct b; auto. Qed.

(** A [try] block that logs once or throws early, with a handler that logs:
    the statement returns, and has logged exactly once. *)
Lemma try_catch_once testName (body : M unit) (handler : Error.t -> M unit) s :
  once env testName body ->
  (forall e, once env testName (handler e)) ->
  (forall e s', fst (handler e s') = Ok tt) ->
  exists p msg d,
    try_catch body handler s = (Ok tt, logged env testName p msg d s).
Proof.
  intros Hb Hh Hok. unfold try_catch. specialize (Hb s).
  destruct (body s) as [[[]|e] s1].
  - destruct Hb as (p & msg & d & ->). eauto.
  - subst s1. specialize (Hh e s). specialize (Hok e s).
    destruct (handler e s) as [[[]|e'] s2]; simpl in Hok; [ | discriminate].
    destruct Hh as (p & msg & d & ->). eauto.
Qed.

End Steps.

Ltac quiet :=
  repeat first
    [ apply pure_ret | apply pure_lift | apply pure_and_then
    | apply pure_bind; [ | intro ] ].

Ltac logs_once :=
  repeat first
    [ apply once_log
    | apply once_if
    | apply once_bind; [ solve [unfold get; quiet] | intro ] ].

(** ** The check routines, one by one *)

Section Routines.

Variable env : Env.
Variable rt : Runtime.

(** *** API checks *)

Ltac enter_try :=
  unfold try_catch; rewrite bind_get_state, bind_fetch.

Ltac split_on x := destruct x as [?|?].

Ltac api_returns :=
  intro; enter_try;
  match goal with
  | |- context [fetch env ?n ?u] => split_on (fetch env n u)
  end;
  [ rewrite bind_lift;
    match goal with
    | |- context [Response.json ?r] => split_on (Response.json r)
    end;
    [ match goal with
      | |- context [match ?m ?st with _ => _ end] =>
          let H := fresh "H" in
          let s1 := fresh "s" in
          assert (H : once env _ m) by logs_once;
          specialize (H st); destruct (m st) as [[[]|?] s1];
          [ destruct H as (p & msg & d & ->); eauto
          | subst s1; rewrite logResult_eq; eauto ]
      end
    | rewrite logResult_eq; eauto ]
  | rewrite logResult_eq; eauto ].

Lemma testGetBritEdgeInfo_returns :
  forall s, exists p msg d,
    testGetBritEdgeInfo env rt s
    = (Ok tt, logged env "API: GetBritEdgeInfo" p msg d (count_fetch s)).
Proof. unfold testGetBritEdgeInfo. api_returns. Qed.

Lemma testGetTestimonials_returns :
  forall s, exists p msg d,
    testGetTestimonials env rt s
    = (Ok tt, logged env "API: GetTestimonials" p msg d (count_fetch s)).
Proof. unfold testGetTestimonials. api_returns. Qed.

Lemma testGetCustomers_returns :
  forall s, exists p msg d,
    testGetCustomers env rt s
    = (Ok tt, logged env "API: GetCustomers" p msg d (count_fetch s)).
Proof. unfold testGetCustomers. api_returns. Qed.

Ltac api_caught :=
  let E := fresh "E" in
  let J := fresh "J" in
  intros ? ? [E | (? & E & J)]; enter_try; rewrite E;
  [ | rewrite bind_lift, J ]; apply logResult_eq.

Lemma testGetBritEdgeInfo_caught s e :
  unanswered (fetch env (fetched s) (baseURL s ++ "/GetBritEdgeInfo")) e ->
  testGetBritEdgeInfo env rt s
  = (Ok tt, logged env "API: GetBritEdgeInfo" false
              ("Network error: " ++ Error.message e) JNull (count_fetch s)).
Proof. revert s e. unfold testGetBritEdgeInfo. api_caught. Qed.

Lemma testGetTestimonials_caught s e :
  unanswered (fetch env (fetched s) (baseURL s ++ "/GetTestimonials")) e ->
  testGetTestimonials env rt s
  = (Ok tt, logged env "API: GetTestimonials" false
              ("Network error: " ++ Error.message e) JNull (count_fetch s)).
Proof. revert s e. unfold testGetTestimonials. api_caught. Qed.

Lemma testGetCustomers_caught s e :
  unanswered (fetch env (fetched s) (baseURL s ++ "/GetCustomers")) e ->
  testGetCustomers env rt s
  = (Ok tt, logged env "API: GetCustomers" false
              ("Network error: " ++ Error.message e) JNull (count_fetch s)).
Proof. revert s e. unfold testGetCustomers. api_caught. Qed.

(** A parsed body under a status other than 200. *)
Ltac api_http_error :=
  let E := fresh "E" in
  let J := fresh "J" in
  let N := fresh "N" in
  intros ? ? ? E J N; enter_try; rewrite E, bind_lift, J;
  rewrite (proj2 (Nat.eqb_neq _ _) N); reflexivity.

Lemma testGetBritEdgeInfo_http_error s response payload :
  fetch env (fetched s) (baseURL s ++ "/GetBritEdgeInfo") = Ok response ->
  Response.json response = Ok payload ->
  Response.status response <> 200%nat ->
  testGetBritEdgeInfo env rt s
  = (Ok tt, logged env "API: GetBritEdgeInfo" false
              ("HTTP " ++ Str.of_nat (Response.status response) ++ " error")
              JNull (count_fetch s)).
Proof. revert s response payload. unfold testGetBritEdgeInfo. api_http_error. Qed.

Lemma testGetTestimonials_http_error s response payload :
  fetch env (fetched s) (baseURL s ++ "/GetTestimonials") = Ok response ->
  Response.json response = Ok payload ->
  Response.status response <> 200%nat ->
  testGetTestimonials env rt s
  = (Ok tt, logged env "API: GetTestimonials" false
              ("HTTP " ++ Str.of_nat (Response.status response) ++ " error")
              JNull (count_fetch s)).
Proof. revert s response payload. unfold testGetTestimonials. api_http_error. Qed.

Lemma testGetCustomers_http_error s response payload :
  fetch env (fetched s) (baseURL s ++ "/GetCustomers") = Ok response ->
  Response.json response = Ok payload ->
  Response.status response <> 200%nat ->
  testGetCustomers env rt s
  = (Ok tt, logged env "API: GetCustomers" false
              ("HTTP " ++ Str.of_nat (Response.status response) ++ " error")
              JNull (count_fetch s)).
Proof. revert s response payload. unfold testGetCustomers. api_http_error. Qed.

(** *** Security checks *)

Lemma testSecurityHeaders_eq s :
  testSecurityHeaders env s =
  match fetch env (fetched s) (websiteURL s) with
  | Ok response =>
      let n := fold_left (check_header (Response.headers_get response)) securityTests 0 in
      (Ok tt, logged env "Security: Headers" (n =? 4)%nat
                (Str.of_nat n ++ "/" ++ Str.of_nat 4
                 ++ " security headers correctly configured") JNull (count_fetch s))
  | Throw e =>
      (Ok tt, logged env "Security: Headers" false
                ("Error checking headers: " ++ Error.message e) JNull (count_fetch s))
  end.
Proof.
  unfold testSecurityHeaders. enter_try.
  destruct (fetch env (fetched s) (websiteURL s)); reflexivity.
Qed.

Lemma testHTTPS_eq s :
  testHTTPS env s =
  (Ok tt, logged env "Security: HTTPS" (Str.startsWith (websiteURL s) "https://")
            (if Str.startsWith (websiteURL s) "https://"
             then "Website uses HTTPS encryption" else "Website not using HTTPS")
            JNull s).
Proof. reflexivity. Qed.

Lemma testCORS_eq s :
  testCORS env s =
  match fetch env (fetched s) (baseURL s ++ "/GetBritEdgeInfo") with
  | Ok response =>
      let corsHeader := Response.headers_get response "Access-Control-Allow-Origin" in
      let corsConfigured :=
        same corsHeader (Some "*") || same corsHeader (Some (websiteURL s)) in
      (Ok tt, logged env "Security: CORS" corsConfigured
                (if corsConfigured
                 then "CORS properly configured: "
                      ++ match corsHeader with Some v => v | None => "null" end
                 else "CORS not configured correctly") JNull (count_fetch s))
  | Throw e =>
      (Ok tt, logged env "Security: CORS" false
                ("CORS test failed: " ++ Error.message e) JNull (count_fetch s))
  end.
Proof.
  unfold testCORS. enter_try.
  destruct (fetch env (fetched s) (baseURL s ++ "/GetBritEdgeInfo")); reflexivity.
Qed.

(** *** Website content *)

Lemma testWebsiteNavigation_eq s :
  testWebsiteNavigation env s =
  match fetch env (fetched s) (websiteURL s) with
  | Ok response =>
      match Response.text response with
      | Ok html =>
          let n := count_true (content_checks html) in
          (Ok tt, logged env "Functionality: Website" (n =? 3)%nat
                    ("Website functionality check: " ++ Str.of_nat n
                     ++ "/3 elements found") JNull (count_fetch s))
      | Throw e =>
          (Ok tt, logged env "Functionality: Website" false
                    ("Website functionality test failed: " ++ Error.message e)
                    JNull (count_fetch s))
      end
  | Throw e =>
      (Ok tt, logged env "Functionality: Website" false
                ("Website functionality test failed: " ++ Error.message e)
                JNull (count_fetch s))
  end.
Proof.
  unfold testWebsiteNavigation. enter_try.
  destruct (fetch env (fetched s) (websiteURL s)) as [response|e]; [ | reflexivity].
  rewrite bind_lift. destruct (Response.text response); reflexivity.
Qed.

(** *** Response times: one turn of the loop *)

Lemma measure_eq endpoint s :
  measure env endpoint tt s =
  match fetch env (fetched s) (Endpoint.url endpoint) with
  | Ok _ =>
      let responseTime := (now env (S (ticks s)) - now env (ticks s))%Z in
      (Ok tt, logged env ("Performance: " ++ Endpoint.name endpoint) (responseTime <? 2000)%Z
                ("Response time: " ++ Str.of_Z responseTime ++ "ms "
                 ++ (if (responseTime <? 2000)%Z then "(Good)" else "(Slow)"))
                JNull (tick (count_fetch (tick s))))
  | Throw e =>
      (Ok tt, logged env ("Performance: " ++ Endpoint.name endpoint) false
                ("Failed to test response time: " ++ Error.message e)
                JNull (count_fetch (tick s)))
  end.
Proof.
  unfold measure, try_catch. rewrite bind_now, bind_fetch.
  change (fetched (tick s)) with (fetched s).
  destruct (fetch env (fetched s) (Endpoint.url endpoint)); reflexivity.
Qed.

(** *** JSON validity: one turn of the loop *)

Lemma probe_eq endpoint n s :
  probe env endpoint n s =
  (Ok (if valid_json (fetch env (fetched s) (baseURL s ++ "/" ++ endpoint))
       then S n else n),
   count_fetch s).
Proof.
  unfold probe, try_catch, valid_json. rewrite bind_get_state, bind_fetch.
  destruct (fetch env (fetched s) (baseURL s ++ "/" ++ endpoint)) as [response|e];
    [ | reflexivity].
  rewrite bind_lift.
  destruct (Response.json response) as [[| |b|x|v|l|l]|e]; reflexivity.
Qed.

End Routines.

(** ** Loops, and the whole run *)

Section Whole.

Variable env : Env.
Variable rt : Runtime.

Lemma measure_step endpoint s :
  exists r s',
    measure env endpoint tt s = (Ok tt, s')
    /\ results s' = (results s ++ [r])%list
    /\ measured env endpoint (fetch env (fetched s) (Endpoint.url endpoint)) (ticks s) r
    /\ ticks s' = (ticks s + spent (fetch env (fetched s) (Endpoint.url endpoint)))%nat
    /\ grows s s' ["Performance: " ++ Endpoint.name endpoint] 1.
Proof.
  rewrite measure_eq. unfold measured.
  destruct (fetch env (fetched s) (Endpoint.url endpoint)) as [response|e]; cbv zeta;
    eexists; eexists; (split; [reflexivity | ]);
    rewrite results_logged; (split; [reflexivity | ]); (split; [ | split]).
  - cbn [test data status message timestamp].
    split; [reflexivity | ]. split; [reflexivity | ].
    split; [reflexivity | ]. split; reflexivity.
  - rewrite ticks_logged. cbn [spent ticks tick count_fetch]. lia.
  - change 1 with (0 + 1 + 0 + 0).
    change ["Performance: " ++ Endpoint.name endpoint]
      with ((([] ++ []) ++ []) ++ [("Performance: " ++ Endpoint.name endpoint)%string])%list.
    eapply grows_trans; [ | apply grows_logged].
    eapply grows_trans; [ | apply grows_tick].
    eapply grows_trans; [apply grows_tick | apply grows_count_fetch].
  - cbn [test data status message timestamp].
    split; [reflexivity | ]. split; [reflexivity | ].
    split; [reflexivity | ]. split; reflexivity.
  - rewrite ticks_logged. cbn [spent ticks tick count_fetch]. lia.
  - change 1 with (0 + 1 + 0).
    change ["Performance: " ++ Endpoint.name endpoint]
      with (([] ++ []) ++ [("Performance: " ++ Endpoint.name endpoint)%string])%list.
    eapply grows_trans; [ | apply grows_logged].
    eapply grows_trans; [apply grows_tick | apply grows_count_fetch].
Qed.

(** The loop of [testResponseTimes] over any list of endpoints: it returns,
    with one request and one result per endpoint, in order. *)
Lemma for_of_measure l :
  forall s,
    exists s',
      for_of l (measure env) tt s = (Ok tt, s')
      /\ grows s s' (map (fun e => "Performance: " ++ Endpoint.name e) l) (List.length l).
Proof.
  induction l as [|endpoint l IH]; intro s.
  - exists s. split; [reflexivity | apply grows_refl].
  - destruct (measure_step endpoint s) as (r & s1 & E1 & _ & _ & _ & G1).
    destruct (IH s1) as (s' & E2 & G2).
    exists s'. split.
    + simpl for_of. unfold bind at 1. rewrite E1. exact E2.
    + change (map (fun e => "Performance: " ++ Endpoint.name e) (endpoint :: l))
        with ([("Performance: " ++ Endpoint.name endpoint)%string]
                ++ map (fun e => ("Performance: " ++ Endpoint.name e)%string) l)%list.
      change (List.length (endpoint :: l)) with (1 + List.length l).
      eapply grows_trans; eassumption.
Qed.

Lemma bind_probe {A} endpoint n (k : nat -> M A) s :
  bind (probe env endpoint n) k s =
  k (if valid_json (fetch env (fetched s) (baseURL s ++ "/" ++ endpoint))
     then S n else n) (count_fetch s).
Proof. unfold bind. rewrite probe_eq. reflexivity. Qed.

Lemma testJSONResponses_eq s :
  testJSONResponses env s =
  let n := count_true (map valid_json
             [json_answer env s 0; json_answer env s 1; json_answer env s 2]) in
  (Ok tt, logged env "Functionality: JSON APIs" (n =? 3)%nat
            (Str.of_nat n ++ "/" ++ Str.of_nat 3 ++ " APIs return valid JSON")
            JNull (count_fetch (count_fetch (count_fetch s)))).
Proof.
  unfold testJSONResponses, apiEndpoints, for_of.
  unfold bind at 1. rewrite !bind_probe. unfold ret.
  unfold json_answer, apiEndpoints, nth.
  change (fetched (count_fetch (count_fetch s))) with (S (S (fetched s))).
  change (fetched (count_fetch s)) with (S (fetched s)).
  change (baseURL (count_fetch (count_fetch s))) with (baseURL s).
  change (baseURL (count_fetch s)) with (baseURL s).
  replace (fetched s + 0) with (fetched s) by lia.
  replace (fetched s + 1) with (S (fetched s)) by lia.
  replace (fetched s + 2) with (S (S (fetched s))) by lia.
  cbv zeta. unfold map.
  destruct (valid_json (fetch env (fetched s) _));
    destruct (valid_json (fetch env (S (fetched s)) _));
    destruct (valid_json (fetch env (S (S (fetched s))) _)); reflexivity.
Qed.

(** *** Every routine returns, and extends the log by its own results *)

Lemma grows_logged_after_fetch testName p msg d s :
  grows s (logged env testName p msg d (count_fetch s)) [testName] 1.
Proof.
  change 1 with (1 + 0). change [testName] with ([] ++ [testName])%list.
  eapply grows_trans; [apply grows_count_fetch | apply grows_logged].
Qed.

Lemma testGetBritEdgeInfo_grows :
  returns_growing (testGetBritEdgeInfo env rt) ["API: GetBritEdgeInfo"] 1.
Proof.
  intro s. destruct (testGetBritEdgeInfo_returns env rt s) as (p & msg & d & ->).
  eexists; split; [reflexivity | apply grows_logged_after_fetch].
Qed.

Lemma testGetTestimonials_grows :
  returns_growing (testGetTestimonials env rt) ["API: GetTestimonials"] 1.
Proof.
  intro s. destruct (testGetTestimonials_returns env rt s) as (p & msg & d & ->).
  eexists; split; [reflexivity | apply grows_logged_after_fetch].
Qed.

Lemma testGetCustomers_grows :
  returns_growing (testGetCustomers env rt) ["API: GetCustomers"] 1.
Proof.
  intro s. destruct (testGetCustomers_returns env rt s) as (p & msg & d & ->).
  eexists; split; [reflexivity | apply grows_logged_after_fetch].
Qed.

Lemma testJSONResponses_grows :
  returns_growing (testJSONResponses env) ["Functionality: JSON APIs"] 3.
Proof.
  intro s. rewrite testJSONResponses_eq. cbv zeta.
  eexists; split; [reflexivity | ].
  change 3 with (1 + (1 + (1 + 0))).
  change ["Functionality: JSON APIs"]
    with ([] ++ ([] ++ ([] ++ ["Functionality: JSON APIs"])))%list.
  repeat (eapply grows_trans; [apply grows_count_fetch | ]).
  apply grows_logged.
Qed.

Lemma testSecurityHeaders_grows :
  returns_growing (testSecurityHeaders env) ["Security: Headers"] 1.
Proof.
  intro s. rewrite testSecurityHeaders_eq.
  destruct (fetch env (fetched s) (websiteURL s)); cbv zeta;
    (eexists; split; [reflexivity | apply grows_logged_after_fetch]).
Qed.

Lemma testHTTPS_grows : returns_growing (testHTTPS env) ["Security: HTTPS"] 0.
Proof.
  intro s. rewrite testHTTPS_eq. eexists; split; [reflexivity | apply grows_logged].
Qed.

Lemma testCORS_grows : returns_growing (testCORS env) ["Security: CORS"] 1.
Proof.
  intro s. rewrite testCORS_eq.
  destruct (fetch env (fetched s) (baseURL s ++ "/GetBritEdgeInfo")); cbv zeta;
    (eexists; split; [reflexivity | apply grows_logged_after_fetch]).
Qed.

Lemma testResponseTimes_grows :
  returns_growing (testResponseTimes env) performance_names 4.
Proof.
  intro s. unfold testResponseTimes. rewrite bind_get_state.
  destruct (for_of_measure (endpoints s) s) as (s' & E & G).
  exists s'. split; [exact E | exact G].
Qed.

Lemma testWebsiteNavigation_grows :
  returns_growing (testWebsiteNavigation env) ["Functionality: Website"] 1.
Proof.
  intro s. rewrite testWebsiteNavigation_eq.
  destruct (fetch env (fetched s) (websiteURL s)) as [response|e];
    [destruct (Response.text response) | ]; cbv zeta;
    (eexists; split; [reflexivity | apply grows_logged_after_fetch]).
Qed.

Lemma generateSummary_eq s :
  generateSummary env s =
  (Ok {| summary :=
           {| total := List.length (results s);
              passed := List.length (filter (fun r => status r =? "PASS") (results s));
              failed := List.length (results s)
                        - List.length (filter (fun r => status r =? "PASS") (results s));
              successRate :=
                rate (List.length (filter (fun r => status r =? "PASS") (results s)))
                     (List.length (results s));
              executionTime := (now env (ticks s) - startTime s)%Z |};
         report_results := results s |},
   tick s).
Proof. reflexivity. Qed.

Lemma returns_growing_bind m k names1 nf1 names2 nf2 :
  returns_growing m names1 nf1 -> returns_growing k names2 nf2 ->
  returns_growing (m ;;; k) (names1 ++ names2)%list (nf1 + nf2).
Proof.
  intros Hm Hk s. destruct (Hm s) as (s1 & E1 & G1). destruct (Hk s1) as (s2 & E2 & G2).
  exists s2. split; [ | eapply grows_trans; eassumption].
  unfold bind. rewrite E1. exact E2.
Qed.

Lemma summary_grows : returns_growing (generateSummary env ;;; ret tt) [] 0.
Proof.
  intro s. unfold bind. rewrite generateSummary_eq.
  eexists; split; [reflexivity | apply grows_tick].
Qed.

Lemma runAllTests_grows : returns_growing (runAllTests env rt) run_names 13.
Proof.
  unfold runAllTests.
  change run_names
    with (["API: GetBritEdgeInfo"] ++ ["API: GetTestimonials"] ++ ["API: GetCustomers"]
          ++ ["Functionality: JSON APIs"] ++ ["Security: Headers"]
          ++ ["Security: HTTPS"] ++ ["Security: CORS"] ++ performance_names
          ++ ["Functionality: Website"] ++ [])%list.
  change 13 with (1 + (1 + (1 + (3 + (1 + (0 + (1 + (4 + (1 + 0))))))))).
  repeat (apply returns_growing_bind;
          [ first [ apply testGetBritEdgeInfo_grows | apply testGetTestimonials_grows
                  | apply testGetCustomers_grows | apply testJSONResponses_grows
                  | apply testSecurityHeaders_grows | apply testHTTPS_grows
                  | apply testCORS_grows | apply testResponseTimes_grows
                  | apply testWebsiteNavigation_grows ] | ]).
  apply summary_grows.
Qed.

(** *** What holds in every state of an instance *)

Lemma call_grows m : exists names nf, returns_growing (call env rt m) names nf.
Proof.
  destruct m; simpl call.
  - exists [testName], 0. intro s. rewrite logResult_eq.
    eexists; split; [reflexivity | apply grows_logged].
  - eexists; eexists; apply testGetBritEdgeInfo_grows.
  - eexists; eexists; apply testGetTestimonials_grows.
  - eexists; eexists; apply testGetCustomers_grows.
  - eexists; eexists; apply testSecurityHeaders_grows.
  - eexists; eexists; apply testHTTPS_grows.
  - eexists; eexists; apply testCORS_grows.
  - eexists; eexists; apply testResponseTimes_grows.
  - eexists; eexists; apply testWebsiteNavigation_grows.
  - eexists; eexists; apply testJSONResponses_grows.
  - eexists; eexists; apply runAllTests_grows.
  - eexists; eexists; apply summary_grows.
Qed.

Lemma reachable_invariant s :
  reachable env rt s -> configured s /\ Forall well_formed (results s).
Proof.
  induction 1 as [|s m _ [[Hb Hw] Hr]].
  - split; [split; reflexivity | constructor].
  - destruct (call_grows m) as (names & nf & H). destruct (H s) as (s' & E & G).
    rewrite E. simpl snd. destruct G as [B W _ _ _ (l & R & _ & Hl)].
    split; [split; congruence | ]. rewrite R. apply Forall_app; auto.
Qed.

End Whole.

(** ** The summary *)

(** [toFixed] prints the integer nearest to the scaled value, the larger one
    of two: [n <= x * 10^f + 1/2 < n + 1]. *)
Lemma nearest_scaled_nearest (m : positive) (e : Z) (f : nat) :
  let '(num, den) := Num.fraction m e in
  let n := Num.nearest_scaled m e f in
  (0 < den
   /\ 2 * den * n <= 2 * num * 10 ^ Z.of_nat f + den < 2 * den * (n + 1))%Z.
Proof.
  unfold Num.nearest_scaled. destruct (Num.fraction m e) as [num den] eqn:E.
  assert (Hden : (0 < den)%Z).
  { unfold Num.fraction in E. destruct (0 <=? e)%Z eqn:He; inversion E; subst.
    - lia.
    - apply Z.pow_pos_nonneg; [lia | ]. apply Z.leb_gt in He. lia. }
  cbv zeta. split; [exact Hden | ].
  pose proof (Z.mul_div_le (2 * num * 10 ^ Z.of_nat f + den) (2 * den)) as H1.
  pose proof (Z.mul_succ_div_gt (2 * num * 10 ^ Z.of_nat f + den) (2 * den)) as H2.
  unfold Z.succ in H2. split; [apply H1 | apply H2]; lia.
Qed.

Lemma filter_length_le {A} (f : A -> bool) (l : list A) :
  (List.length (filter f l) <= List.length l)%nat.
Proof.
  induction l as [|a l IH]; simpl; [lia | ].
  destruct (f a); simpl; lia.
Qed.

Lemma Some_eq {A} (a b : A) : Some a = Some b -> a = b.
Proof. intro H. injection H as H. exact H. Qed.

Lemma summary_in_eq env s :
  summary_in env s =
  Some {| total := List.length (results s);
          passed := List.length (filter (fun r => status r =? "PASS") (results s));
          failed := List.length (results s)
                    - List.length (filter (fun r => status r =? "PASS") (results s));
          successRate :=
            rate (List.length (filter (fun r => status r =? "PASS") (results s)))
                 (List.length (results s));
          executionTime := (now env (ticks s) - startTime s)%Z |}.
Proof. reflexivity. Qed.

Lemma rates_agree_sound (t p : nat) :
  rates_agree t = true -> (p <= t)%nat -> rate p t = round_1_decimal p t.
Proof.
  unfold rates_agree. intros H Hp. apply String.eqb_eq.
  apply (proj1 (forallb_forall _ _) H). apply in_seq. lia.
Qed.

Lemma rates_agree_upto_sound (n t : nat) :
  rates_agree_upto n = true -> (0 < t <= n)%nat -> rates_agree t = true.
Proof.
  unfold rates_agree_upto. intros H Ht.
  apply (proj1 (forallb_forall _ _) H). apply in_seq. lia.
Qed.

(** Checked on every split of every total from 1 to 79. *)
Lemma rates_agree_upto_79 : rates_agree_upto 79 = true.
Proof. vm_compute. reflexivity. Qed.

Lemma rate_exact (p t : nat) :
  (0 < t < 80)%nat -> (p <= t)%nat -> rate p t = round_1_decimal p t.
Proof.
  intros Ht Hp. apply rates_agree_sound; [ | exact Hp].
  apply (rates_agree_upto_sound 79); [exact rates_agree_upto_79 | lia].
Qed.

(** C1, as amended.  For every result log [generateSummary] returns a summary
    with [passed + failed = total].  Its [successRate] is the one-decimal
    rendering of the binary64 value of [(passed / total) * 100]; for every
    non-empty log of fewer than 80 results that rendering is
    [round(passed/total*100, 1 decimal)]. *)
Theorem generateSummary_counts_and_rate (env : Env) (s : St) :
  exists sm,
    summary_in env s = Some sm
    /\ total sm = List.length (results s)
    /\ (passed sm + failed sm = total sm)%nat
    /\ successRate sm = rate (passed sm) (total sm)
    /\ ((0 < total sm < 80)%nat ->
        successRate sm = round_1_decimal (passed sm) (total sm)).
Proof.
  rewrite summary_in_eq. eexists. split; [reflexivity | ]. simpl.
  pose proof (filter_length_le (fun r => status r =? "PASS") (results s)) as Hle.
  split; [reflexivity | ]. split; [lia | ]. split; [reflexivity | ].
  intro Ht. apply rate_exact; assumption.
Qed.

(** The theorem at a log of three results, two of them passed. *)
Lemma generateSummary_two_of_three :
  exists sm,
    summary_in offline
      (log_many offline 1 false (log_many offline 2 true (constructor offline))) = Some sm
    /\ total sm = 3%nat /\ passed sm = 2%nat /\ failed sm = 1%nat
    /\ successRate sm = "66.7".
Proof.
  destruct (generateSummary_counts_and_rate offline
              (log_many offline 1 false (log_many offline 2 true (constructor offline))))
    as (sm & E & Ht & Hsum & _ & Hexact).
  exists sm. split; [exact E | ].
  rewrite summary_in_eq in E. apply Some_eq in E. subst sm.
  split; [reflexivity | ]. split; [reflexivity | ]. split; [reflexivity | ].
  rewrite Hexact; [vm_compute; reflexivity | clear; simpl; lia].
Defined.

(** C1 as stated fails: with 23 of 80 results passed the exact rate is 28.75,
    which rounds to 28.8, and the summary reports 28.7 (the binary64 product
    is 28.749999999999996). *)
Lemma generateSummary_rate_not_exact :
  exists sm,
    summary_in offline uneven_log = Some sm
    /\ total sm = 80%nat /\ passed sm = 23%nat
    /\ successRate sm = "28.7"
    /\ round_1_decimal 23 80 = "28.8"
    /\ successRate sm <> round_1_decimal (passed sm) (total sm).
Proof.
  eexists. split; [apply summary_in_eq | ].
  split; [vm_compute; reflexivity | ]. split; [vm_compute; reflexivity | ].
  split; [vm_compute; reflexivity | ]. split; [vm_compute; reflexivity | ].
  vm_compute. discriminate.
Qed.

(** On the empty log the division is 0/0: the rate is reported as ["NaN"],
    neither as 0% nor as "undefined". *)
Lemma generateSummary_empty_log (env : Env) :
  exists sm,
    summary_in env (constructor env) = Some sm
    /\ total sm = 0%nat /\ successRate sm = "NaN".
Proof. eexists. split; [apply summary_in_eq | ]. split; reflexivity. Qed.

(** C5.  [generateSummary] only reads the log: it makes no request and leaves
    the log as it is, and a second call on the same log returns the same
    total, passed and failed counts (and the same rate). *)
Theorem generateSummary_idempotent (env : Env) (s : St) :
  exists report1 s1 report2 s2,
    generateSummary env s = (Ok report1, s1)
    /\ generateSummary env s1 = (Ok report2, s2)
    /\ total (summary report2) = total (summary report1)
    /\ passed (summary report2) = passed (summary report1)
    /\ failed (summary report2) = failed (summary report1)
    /\ successRate (summary report2) = successRate (summary report1)
    /\ results s1 = results s /\ results s2 = results s
    /\ report_results report1 = results s /\ report_results report2 = results s
    /\ fetched s1 = fetched s /\ fetched s2 = fetched s.
Proof.
  do 4 eexists. split; [apply generateSummary_eq | ].
  split; [apply generateSummary_eq | ].
  repeat split; reflexivity.
Qed.

(** ** Statuses *)

Lemma failed_count (l : list TestResult) :
  Forall well_formed l ->
  List.length l - List.length (filter (fun r => status r =? "PASS") l)
  = List.length (filter (fun r => status r =? "FAIL") l).
Proof.
  induction 1 as [|r l [Hr|Hr] _ IH]; [reflexivity | | ];
    pose proof (filter_length_le (fun r => status r =? "PASS") l);
    simpl filter; rewrite Hr.
  - change ("PASS" =? "PASS") with true. change ("PASS" =? "FAIL") with false.
    cbv iota. simpl List.length. lia.
  - change ("FAIL" =? "PASS") with false. change ("FAIL" =? "FAIL") with true.
    cbv iota. simpl List.length. lia.
Qed.

(** C10.  [logResult] appends one entry whose status is ['PASS'] or ['FAIL']
    after its boolean argument; so in every state of an instance the failed
    count of the summary, total minus passed, is the number of entries whose
    status is ['FAIL']. *)
Theorem failed_counts_FAIL_entries (env : Env) (rt : Runtime) (s : St) :
  reachable env rt s ->
  (forall testName p msg d, exists r s',
      logResult env testName p msg d s = (Ok tt, s')
      /\ results s' = (results s ++ [r])%list
      /\ status r = (if p then "PASS" else "FAIL"))
  /\ Forall (fun r => status r = "PASS" \/ status r = "FAIL") (results s)
  /\ exists sm,
       summary_in env s = Some sm
       /\ failed sm = (total sm - passed sm)%nat
       /\ failed sm = List.length (filter (fun r => status r =? "FAIL") (results s)).
Proof.
  intro Hs. apply reachable_invariant in Hs. destruct Hs as [_ Hwf].
  split; [ | split; [exact Hwf | ]].
  - intros. do 2 eexists. split; [apply logResult_eq | ].
    rewrite results_logged. split; reflexivity.
  - rewrite summary_in_eq. eexists. split; [reflexivity | ]. simpl.
    split; [reflexivity | apply failed_count; exact Hwf].
Qed.

(** The theorem after a whole run with no network: only the HTTPS check
    passes. *)
Lemma failed_counts_offline_run :
  exists sm,
    summary_in offline
      (snd (call offline exampleRuntime CallRunAllTests (constructor offline))) = Some sm
    /\ total sm = 12%nat /\ passed sm = 1%nat /\ failed sm = 11%nat
    /\ failed sm
       = List.length
           (filter (fun r => status r =? "FAIL")
              (results (snd (call offline exampleRuntime CallRunAllTests
                               (constructor offline))))).
Proof.
  destruct (failed_counts_FAIL_entries offline exampleRuntime _
              (reach_call offline exampleRuntime _ CallRunAllTests
                 (reach_new offline exampleRuntime)))
    as (_ & _ & sm & E & _ & Hf).
  exists sm. split; [exact E | ].
  rewrite summary_in_eq in E. apply Some_eq in E. subst sm.
  split; [vm_compute; reflexivity | ]. split; [vm_compute; reflexivity | ].
  split; [vm_compute; reflexivity | exact Hf].
Defined.

(** ** Security headers *)

Lemma includes_nonempty (v c : string) :
  c <> "" -> Str.includes v c = true -> (v =? "") = false.
Proof.
  intros Hc H. destruct v; [ | reflexivity].
  destruct c; [congruence | discriminate H].
Qed.

(** The loop of [testSecurityHeaders] counts the headers that match. *)
Lemma passedHeaders_eq (headers : string -> option string) :
  fold_left (check_header headers) securityTests 0 = count_true (header_matches headers).
Proof.
  unfold securityTests, header_matches, fold_left, check_header, count_true.
  cbn [SecurityTest.name SecurityTest.expected SecurityTest.contains present same negb andb].
  change ("DENY" =? "") with false. change ("nosniff" =? "") with false.
  change ("1; mode=block" =? "") with false. change ("max-age=" =? "") with false.
  cbn [negb andb].
  destruct (headers "X-Frame-Options") as [v1|];
    destruct (headers "X-Content-Type-Options") as [v2|];
    destruct (headers "X-XSS-Protection") as [v3|];
    destruct (headers "Strict-Transport-Security") as [v4|];
    cbn [same present andb];
    repeat match goal with
           | |- context [?v =? "DENY"] => destruct (v =? "DENY")
           | |- context [?v =? "nosniff"] => destruct (v =? "nosniff")
           | |- context [?v =? "1; mode=block"] => destruct (v =? "1; mode=block")
           end;
    try (destruct (Str.includes v4 "max-age=") eqn:Hinc;
         [ rewrite (includes_nonempty v4 "max-age=") by (discriminate || exact Hinc)
         | rewrite andb_false_r ]);
    reflexivity.
Qed.

Lemma all_true_count (l : list bool) :
  (count_true l =? List.length l)%nat = forallb (fun b => b) l.
Proof.
  unfold count_true. induction l as [|b l IH]; [reflexivity | ].
  destruct b; simpl.
  - exact IH.
  - pose proof (filter_length_le (fun b : bool => b) l). apply Nat.eqb_neq. lia.
Qed.

(** C2, as amended: four headers.  When the site answers, the check tests four
    expected headers, [X-Frame-Options], [X-Content-Type-Options] and
    [X-XSS-Protection] by equality with [DENY], [nosniff] and
    [1; mode=block], and [Strict-Transport-Security] by containment of
    [max-age=]; it records PASS exactly when all four match, and its
    message gives the number matched out of 4. *)
Theorem testSecurityHeaders_four_headers (env : Env) (s : St) (response : Response.t) :
  fetch env (fetched s) (websiteURL s) = Ok response ->
  exists r s',
    testSecurityHeaders env s = (Ok tt, s')
    /\ results s' = (results s ++ [r])%list
    /\ map SecurityTest.name securityTests
       = ["X-Frame-Options"; "X-Content-Type-Options"; "X-XSS-Protection";
          "Strict-Transport-Security"]
    /\ test r = "Security: Headers"
    /\ status r
       = (if forallb (fun b => b) (header_matches (Response.headers_get response))
          then "PASS" else "FAIL")
    /\ message r
       = Str.of_nat (count_true (header_matches (Response.headers_get response)))
         ++ "/4 security headers correctly configured".
Proof.
  intro E. rewrite testSecurityHeaders_eq, E. cbv zeta.
  do 2 eexists. split; [reflexivity | ].
  rewrite results_logged. split; [reflexivity | ].
  split; [reflexivity | ]. split; [reflexivity | ].
  rewrite passedHeaders_eq. cbn [status message].
  change 4 with (List.length (header_matches (Response.headers_get response))) at 1.
  rewrite all_true_count. split; reflexivity.
Qed.

(** The theorem on the headers of the specification's example: 4/4 and PASS. *)
Lemma testSecurityHeaders_hardened :
  exists r s',
    testSecurityHeaders (serving hardened) (constructor (serving hardened)) = (Ok tt, s')
    /\ results s' = [r]
    /\ status r = "PASS"
    /\ message r = "4/4 security headers correctly configured".
Proof.
  destruct (testSecurityHeaders_four_headers (serving hardened)
              (constructor (serving hardened)) hardened eq_refl)
    as (r & s' & E & R & _ & _ & Hs & Hm).
  exists r, s'. split; [exact E | ]. split; [exact R | ].
  split; [exact Hs | exact Hm].
Defined.

(** C2 as stated fails: the check is configured with four headers, not five. *)
Lemma securityTests_are_four :
  List.length securityTests = 4%nat /\ List.length securityTests <> 5%nat.
Proof. split; [reflexivity | discriminate]. Qed.

(** ** JSON validity *)

Lemma valid_json_parse_error (o : Res Response.t) : parse_error o -> valid_json o = false.
Proof. intros (response & e & -> & H). unfold valid_json. rewrite H. reflexivity. Qed.

Lemma testJSONResponses_logged (env : Env) (s : St) :
  testJSONResponses env s
  = (Ok tt, logged env "Functionality: JSON APIs" (valid_count env s =? 3)%nat
              (Str.of_nat (valid_count env s) ++ "/3 APIs return valid JSON")
              JNull (count_fetch (count_fetch (count_fetch s)))).
Proof. rewrite testJSONResponses_eq. reflexivity. Qed.

(** C4.  The JSON-validity check makes its three requests whatever happens,
    counts the answers that parse to an object other than [null], records PASS
    exactly when the count is 3, and reports the count out of 3; a body that
    does not parse only lowers the count: with one such body and two valid
    answers the result is "2/3" and FAIL. *)
Theorem testJSONResponses_counts (env : Env) (s : St) :
  exists r s',
    testJSONResponses env s = (Ok tt, s')
    /\ results s' = (results s ++ [r])%list
    /\ fetched s' = (fetched s + List.length apiEndpoints)%nat
    /\ List.length apiEndpoints = 3%nat
    /\ test r = "Functionality: JSON APIs"
    /\ message r = Str.of_nat (valid_count env s) ++ "/3 APIs return valid JSON"
    /\ status r = (if (valid_count env s =? 3)%nat then "PASS" else "FAIL")
    /\ (forall i,
          (i < 3)%nat ->
          parse_error (json_answer env s i) ->
          (forall j, (j < 3)%nat -> j <> i -> valid_json (json_answer env s j) = true) ->
          message r = "2/3 APIs return valid JSON" /\ status r = "FAIL").
Proof.
  rewrite testJSONResponses_logged. do 2 eexists.
  split; [reflexivity | ]. rewrite results_logged. split; [reflexivity | ].
  split; [simpl; lia | ]. split; [reflexivity | ]. split; [reflexivity | ].
  cbn [message status].
  split; [reflexivity | ]. split; [reflexivity | ].
  intros i Hi Hbad Hgood. apply valid_json_parse_error in Hbad.
  assert (H0 := Hgood 0). assert (H1 := Hgood 1). assert (H2 := Hgood 2).
  unfold valid_count. cbn [seq map].
  destruct i as [|[|[|i]]]; [ | | | lia]; rewrite Hbad.
  - rewrite H1, H2 by (lia || discriminate). split; reflexivity.
  - rewrite H0, H2 by (lia || discriminate). split; reflexivity.
  - rewrite H0, H1 by (lia || discriminate). split; reflexivity.
Qed.

(** The theorem where the second of the three bodies is not JSON. *)
Lemma testJSONResponses_one_bad_body :
  exists r s',
    testJSONResponses one_bad_body (constructor one_bad_body) = (Ok tt, s')
    /\ results s' = [r]
    /\ fetched s' = 3%nat
    /\ message r = "2/3 APIs return valid JSON" /\ status r = "FAIL".
Proof.
  destruct (testJSONResponses_counts one_bad_body (constructor one_bad_body))
    as (r & s' & E & R & F & _ & _ & _ & _ & H).
  exists r, s'. split; [exact E | ]. split; [exact R | ]. split; [exact F | ].
  apply (H 1%nat).
  - lia.
  - do 2 eexists. split; reflexivity.
  - intros [|[|[|j]]] Hj Hne; try reflexivity; congruence.
Defined.

(** ** Response times *)



(** A run in which the second endpoint takes 2500 ms and the others 120, 300
    and 80 ms. *)
Example testResponseTimes_slow_second :
  map (fun r => (test r, status r, message r))
      (results (snd (testResponseTimes slow_second (constructor slow_second))))
  = [ ("Performance: Website", "PASS", "Response time: 120ms (Good)");
      ("Performance: GetBritEdgeInfo API", "FAIL", "Response time: 2500ms (Slow)");
      ("Performance: GetTestimonials API", "PASS", "Response time: 300ms (Good)");
      ("Performance: GetCustomers API", "PASS", "Response time: 80ms (Good)") ].
Proof. vm_compute. reflexivity. Qed.

(** ** Website content *)

Lemma count_true_le (l : list bool) : (count_true l <= List.length l)%nat.
Proof. apply filter_length_le. Qed.

(** C7.  On the HTML of the site the check makes three tests by substring
    (navigation, content, stylesheet), scores how many hold, records PASS
    exactly when the score is 3, and reports the score in its message
    whether it passes or not. *)
Theorem testWebsiteNavigation_scores (env : Env) (s : St)
    (response : Response.t) (html : string) :
  fetch env (fetched s) (websiteURL s) = Ok response ->
  Response.text response = Ok html ->
  exists r s',
    testWebsiteNavigation env s = (Ok tt, s')
    /\ results s' = (results s ++ [r])%list
    /\ test r = "Functionality: Website"
    /\ content_checks html
       = [ Str.includes html "nav-link" || Str.includes html "navigation";
           Str.includes html "BritEdge" && Str.includes html "Manufacturing";
           Str.includes html "tailwindcss" ]
    /\ (count_true (content_checks html) <= 3)%nat
    /\ status r = (if (count_true (content_checks html) =? 3)%nat then "PASS" else "FAIL")
    /\ message r = "Website functionality check: "
                   ++ Str.of_nat (count_true (content_checks html))
                   ++ "/3 elements found".
Proof.
  intros E T. rewrite testWebsiteNavigation_eq, E, T. cbv zeta.
  do 2 eexists. split; [reflexivity | ]. rewrite results_logged.
  split; [reflexivity | ]. split; [reflexivity | ]. split; [reflexivity | ].
  split; [apply (count_true_le (content_checks html)) | ]. split; reflexivity.
Qed.

(** The theorem on a page that lacks the stylesheet marker: 2/3 and FAIL. *)
Lemma testWebsiteNavigation_plain_page :
  exists r s',
    testWebsiteNavigation (serving plain_page) (constructor (serving plain_page))
    = (Ok tt, s')
    /\ results s' = [r]
    /\ status r = "FAIL"
    /\ message r = "Website functionality check: 2/3 elements found".
Proof.
  destruct (testWebsiteNavigation_scores (serving plain_page)
              (constructor (serving plain_page)) plain_page _ eq_refl eq_refl)
    as (r & s' & E & R & _ & _ & _ & Hs & Hm).
  exists r, s'. split; [exact E | ]. split; [exact R | ].
  split; [exact Hs | exact Hm].
Defined.

(** ** HTTPS *)

(** C8.  In every state of an instance the website URL is the constant of
    the constructor, which starts with [https://]: the [try] block of
    [testHTTPS] returns (whatever the [catch] block is, it is never
    entered), one PASS is appended, and no request is made. *)
Theorem testHTTPS_always_passes (env : Env) (rt : Runtime) (s : St) :
  reachable env rt s ->
  websiteURL s = "https://thankful-sand-085c06103.2.azurestaticapps.net"
  /\ Str.startsWith (websiteURL s) "https://" = true
  /\ fst (https_try env s) = Ok tt
  /\ (forall handler, try_catch (https_try env) handler s = testHTTPS env s)
  /\ exists r s',
       testHTTPS env s = (Ok tt, s')
       /\ results s' = (results s ++ [r])%list
       /\ test r = "Security: HTTPS" /\ status r = "PASS"
       /\ message r = "Website uses HTTPS encryption"
       /\ fetched s' = fetched s.
Proof.
  intro Hs. apply reachable_invariant in Hs. destruct Hs as [[_ Hw] _].
  split; [exact Hw | ].
  assert (Hp : Str.startsWith (websiteURL s) "https://" = true)
    by (rewrite Hw; reflexivity).
  split; [exact Hp | ]. split; [reflexivity | ]. split; [reflexivity | ].
  rewrite testHTTPS_eq. do 2 eexists. split; [reflexivity | ].
  rewrite results_logged, Hp. repeat split; reflexivity.
Qed.

(** The theorem on a fresh instance. *)
Lemma testHTTPS_fresh_instance :
  exists r s',
    testHTTPS offline (constructor offline) = (Ok tt, s')
    /\ results s' = [r] /\ status r = "PASS" /\ fetched s' = 0%nat.
Proof.
  destruct (testHTTPS_always_passes offline exampleRuntime (constructor offline)
              (reach_new offline exampleRuntime))
    as (_ & _ & _ & _ & r & s' & E & R & _ & Hs & _ & F).
  exists r, s'. split; [exact E | ]. split; [exact R | ]. split; [exact Hs | exact F].
Defined.

(** ** Errors *)

Section Caught.

Variable env : Env.
Variable rt : Runtime.

Lemma logged_failure (m : M unit) (s s0 : St) (testName msg : string) :
  m s = (Ok tt, logged env testName false msg JNull s0) ->
  results s0 = results s ->
  records_failure m s testName msg.
Proof.
  intros E R. do 2 eexists. split; [exact E | ].
  rewrite results_logged, R. repeat split; reflexivity.
Qed.

Lemma testGetBritEdgeInfo_reports s e :
  unanswered (fetch env (fetched s) (baseURL s ++ "/GetBritEdgeInfo")) e ->
  records_failure (testGetBritEdgeInfo env rt) s "API: GetBritEdgeInfo"
    ("Network error: " ++ Error.message e).
Proof.
  intro H. eapply logged_failure;
    [apply testGetBritEdgeInfo_caught; exact H | reflexivity].
Qed.

Lemma testGetTestimonials_reports s e :
  unanswered (fetch env (fetched s) (baseURL s ++ "/GetTestimonials")) e ->
  records_failure (testGetTestimonials env rt) s "API: GetTestimonials"
    ("Network error: " ++ Error.message e).
Proof.
  intro H. eapply logged_failure;
    [apply testGetTestimonials_caught; exact H | reflexivity].
Qed.

Lemma testGetCustomers_reports s e :
  unanswered (fetch env (fetched s) (baseURL s ++ "/GetCustomers")) e ->
  records_failure (testGetCustomers env rt) s "API: GetCustomers"
    ("Network error: " ++ Error.message e).
Proof.
  intro H. eapply logged_failure;
    [apply testGetCustomers_caught; exact H | reflexivity].
Qed.

Lemma testSecurityHeaders_reports s e :
  fetch env (fetched s) (websiteURL s) = Throw e ->
  records_failure (testSecurityHeaders env) s "Security: Headers"
    ("Error checking headers: " ++ Error.message e).
Proof.
  intro H. eapply logged_failure;
    [rewrite testSecurityHeaders_eq, H; reflexivity | reflexivity].
Qed.

Lemma testCORS_reports s e :
  fetch env (fetched s) (baseURL s ++ "/GetBritEdgeInfo") = Throw e ->
  records_failure (testCORS env) s "Security: CORS"
    ("CORS test failed: " ++ Error.message e).
Proof.
  intro H. eapply logged_failure;
    [rewrite testCORS_eq, H; reflexivity | reflexivity].
Qed.

Lemma measure_reports endpoint s e :
  fetch env (fetched s) (Endpoint.url endpoint) = Throw e ->
  records_failure (measure env endpoint tt) s ("Performance: " ++ Endpoint.name endpoint)
    ("Failed to test response time: " ++ Error.message e).
Proof.
  intro H. eapply logged_failure;
    [rewrite measure_eq, H; reflexivity | reflexivity].
Qed.

Lemma valid_json_unanswered o e : unanswered o e -> valid_json o = false.
Proof.
  intros [-> | (response & -> & J)]; unfold valid_json; [ | rewrite J]; reflexivity.
Qed.

Lemma testWebsiteNavigation_reports s e :
  unread (fetch env (fetched s) (websiteURL s)) e ->
  records_failure (testWebsiteNavigation env) s "Functionality: Website"
    ("Website functionality test failed: " ++ Error.message e).
Proof.
  intros [H | (response & H & T)].
  - eapply logged_failure;
      [rewrite testWebsiteNavigation_eq, H; reflexivity | reflexivity].
  - eapply logged_failure;
      [rewrite testWebsiteNavigation_eq, H, T; reflexivity | reflexivity].
Qed.

End Caught.

(** C9.  Each of the three API checks reads the body as JSON before it looks
    at the status code.  For a response whose status is not 200 the result is
    a FAIL whose message is "HTTP <status> error" only if the body parsed; if
    the body does not parse, the message is "Network error: ..." with the
    parser's error instead. *)
Theorem api_checks_parse_before_status (env : Env) (rt : Runtime) (s : St)
    (response : Response.t) :
  Response.status response <> 200%nat ->
  (fetch env (fetched s) (baseURL s ++ "/GetBritEdgeInfo") = Ok response ->
   records_failure (testGetBritEdgeInfo env rt) s "API: GetBritEdgeInfo"
     (non_200_message response))
  /\ (fetch env (fetched s) (baseURL s ++ "/GetTestimonials") = Ok response ->
      records_failure (testGetTestimonials env rt) s "API: GetTestimonials"
        (non_200_message response))
  /\ (fetch env (fetched s) (baseURL s ++ "/GetCustomers") = Ok response ->
      records_failure (testGetCustomers env rt) s "API: GetCustomers"
        (non_200_message response))
  /\ (forall e,
        Response.json response = Throw e ->
        non_200_message response = "Network error: " ++ Error.message e
        /\ non_200_message response
           <> "HTTP " ++ Str.of_nat (Response.status response) ++ " error").
Proof.
  intro N. unfold non_200_message.
  split; [ | split; [ | split]].
  - intro E. destruct (Response.json response) as [payload|e] eqn:J.
    + eapply logged_failure;
        [eapply testGetBritEdgeInfo_http_error; eassumption | reflexivity].
    + apply testGetBritEdgeInfo_reports. right. eauto.
  - intro E. destruct (Response.json response) as [payload|e] eqn:J.
    + eapply logged_failure;
        [eapply testGetTestimonials_http_error; eassumption | reflexivity].
    + apply testGetTestimonials_reports. right. eauto.
  - intro E. destruct (Response.json response) as [payload|e] eqn:J.
    + eapply logged_failure;
        [eapply testGetCustomers_http_error; eassumption | reflexivity].
    + apply testGetCustomers_reports. right. eauto.
  - intros e ->. split; [reflexivity | discriminate].
Qed.

(** The theorem on a 500 response with an HTML body. *)
Lemma api_checks_on_broken_server :
  records_failure (testGetBritEdgeInfo (serving broken) exampleRuntime)
    (constructor (serving broken)) "API: GetBritEdgeInfo"
    "Network error: Unexpected token < in JSON at position 0"
  /\ records_failure (testGetTestimonials (serving broken) exampleRuntime)
       (constructor (serving broken)) "API: GetTestimonials"
       "Network error: Unexpected token < in JSON at position 0"
  /\ records_failure (testGetCustomers (serving broken) exampleRuntime)
       (constructor (serving broken)) "API: GetCustomers"
       "Network error: Unexpected token < in JSON at position 0".
Proof.
  destruct (api_checks_parse_before_status (serving broken) exampleRuntime
              (constructor (serving broken)) broken ltac:(discriminate))
    as (H1 & H2 & H3 & _).
  split; [exact (H1 eq_refl) | split; [exact (H2 eq_refl) | exact (H3 eq_refl)]].
Defined.

(** C3, as amended.  In every check routine but the JSON-validity check, a
    rejected request or an unreadable body is caught inside the routine and
    recorded as a FAIL whose message ends with the text of the error; the
    JSON-validity check catches such errors as well but only leaves them out
    of its count.  No routine throws, and none repeats a request: each makes
    its fixed number of requests and appends its own results, so
    [runAllTests] always logs all twelve results, in order, after thirteen
    requests. *)
Theorem errors_are_caught_and_reported (env : Env) (rt : Runtime) (s : St) :
  (forall e,
      unanswered (fetch env (fetched s) (baseURL s ++ "/GetBritEdgeInfo")) e ->
      records_failure (testGetBritEdgeInfo env rt) s "API: GetBritEdgeInfo"
        ("Network error: " ++ Error.message e))
  /\ (forall e,
        unanswered (fetch env (fetched s) (baseURL s ++ "/GetTestimonials")) e ->
        records_failure (testGetTestimonials env rt) s "API: GetTestimonials"
          ("Network error: " ++ Error.message e))
  /\ (forall e,
        unanswered (fetch env (fetched s) (baseURL s ++ "/GetCustomers")) e ->
        records_failure (testGetCustomers env rt) s "API: GetCustomers"
          ("Network error: " ++ Error.message e))
  /\ (forall e,
        fetch env (fetched s) (websiteURL s) = Throw e ->
        records_failure (testSecurityHeaders env) s "Security: Headers"
          ("Error checking headers: " ++ Error.message e))
  /\ (forall e,
        fetch env (fetched s) (baseURL s ++ "/GetBritEdgeInfo") = Throw e ->
        records_failure (testCORS env) s "Security: CORS"
          ("CORS test failed: " ++ Error.message e))
  /\ (forall endpoint e,
        fetch env (fetched s) (Endpoint.url endpoint) = Throw e ->
        records_failure (measure env endpoint tt) s ("Performance: " ++ Endpoint.name endpoint)
          ("Failed to test response time: " ++ Error.message e))
  /\ (forall e,
        unread (fetch env (fetched s) (websiteURL s)) e ->
        records_failure (testWebsiteNavigation env) s "Functionality: Website"
          ("Website functionality test failed: " ++ Error.message e))
  /\ (exists r s',
        testJSONResponses env s = (Ok tt, s')
        /\ results s' = (results s ++ [r])%list
        /\ message r = Str.of_nat (valid_count env s) ++ "/3 APIs return valid JSON")
  /\ (forall i e,
        unanswered (json_answer env s i) e -> valid_json (json_answer env s i) = false)
  /\ returns_growing (testGetBritEdgeInfo env rt) ["API: GetBritEdgeInfo"] 1
  /\ returns_growing (testGetTestimonials env rt) ["API: GetTestimonials"] 1
  /\ returns_growing (testGetCustomers env rt) ["API: GetCustomers"] 1
  /\ returns_growing (testJSONResponses env) ["Functionality: JSON APIs"] 3
  /\ returns_growing (testSecurityHeaders env) ["Security: Headers"] 1
  /\ returns_growing (testHTTPS env) ["Security: HTTPS"] 0
  /\ returns_growing (testCORS env) ["Security: CORS"] 1
  /\ returns_growing (testResponseTimes env) performance_names 4
  /\ returns_growing (testWebsiteNavigation env) ["Functionality: Website"] 1
  /\ returns_growing (runAllTests env rt) run_names 13.
Proof.
  split; [intro; apply testGetBritEdgeInfo_reports | ].
  split; [intro; apply testGetTestimonials_reports | ].
  split; [intro; apply testGetCustomers_reports | ].
  split; [intro; apply testSecurityHeaders_reports | ].
  split; [intro; apply testCORS_reports | ].
  split; [intros ? ?; apply measure_reports | ].
  split; [intro; apply testWebsiteNavigation_reports | ].
  split.
  { do 2 eexists. split; [apply testJSONResponses_logged | ].
    rewrite results_logged. split; reflexivity. }
  split; [intros i e; apply valid_json_unanswered | ].
  split; [apply testGetBritEdgeInfo_grows | ].
  split; [apply testGetTestimonials_grows | ].
  split; [apply testGetCustomers_grows | ].
  split; [apply testJSONResponses_grows | ].
  split; [apply testSecurityHeaders_grows | ].
  split; [apply testHTTPS_grows | ].
  split; [apply testCORS_grows | ].
  split; [apply testResponseTimes_grows | ].
  split; [apply testWebsiteNavigation_grows | apply runAllTests_grows].
Qed.

(** The theorem with no network: the run still returns, with its twelve
    results. *)
Lemma errors_are_caught_offline :
  exists s',
    runAllTests offline exampleRuntime (constructor offline) = (Ok tt, s')
    /\ map test (results s') = run_names
    /\ fetched s' = 13%nat.
Proof.
  destruct (errors_are_caught_and_reported offline exampleRuntime (constructor offline))
    as (_ & _ & _ & _ & _ & _ & _ & _ & _ & _ & _ & _ & _ & _ & _ & _ & _ & _ & H).
  destruct (H (constructor offline)) as (s' & E & G).
  exists s'. split; [exact E | ].
  destruct G as [_ _ _ F _ (l & R & N & _)].
  split; [rewrite R; exact N | exact F].
Defined.

(** C3 as stated fails for the JSON-validity check: with every request
    rejected ("Failed to fetch") its one result reads "0/3 APIs return valid
    JSON"; the text of the error is nowhere in it. *)
Lemma testJSONResponses_drops_error_text :
  exists r s',
    testJSONResponses offline (constructor offline) = (Ok tt, s')
    /\ results s' = [r]
    /\ fetch offline 0 (baseURL (constructor offline) ++ "/GetBritEdgeInfo")
       = Throw (failure "Failed to fetch")
    /\ status r = "FAIL"
    /\ message r = "0/3 APIs return valid JSON"
    /\ Str.includes (message r) "Failed to fetch" = false.
Proof.
  do 2 eexists. split; [apply testJSONResponses_eq | ].
  cbv zeta. rewrite results_logged.
  split; [reflexivity | ]. split; [reflexivity | ]. split; [reflexivity | ].
  split; [reflexivity | ]. vm_compute. reflexivity.
Qed.

(** With only two of the four headers right, the check reports 2/4 and
    FAIL. *)
Example testSecurityHeaders_two_of_four :
  map (fun r => (test r, status r, message r))
      (results
         (snd (testSecurityHeaders
                 (serving (respond 200
                             [ ("X-Frame-Options", "DENY");
                               ("X-Content-Type-Options", "sniff");
                               ("Strict-Transport-Security", "max-age=600") ]
                             (Ok (JObj [])) (Ok "")))
                 (constructor offline))))
  = [ ("Security: Headers", "FAIL", "2/4 security headers correctly configured") ].
Proof. vm_compute. reflexivity. Qed.

(** ** CORS *)

Lemma same_Some (o : option string) (v : string) : same o (Some v) = true <-> o = Some v.
Proof.
  destruct o as [w|]; simpl.
  - rewrite String.eqb_eq. split; congruence.
  - split; discriminate.
Qed.

(** X3.  When the API answers, the CORS check passes exactly when the
    [Access-Control-Allow-Origin] header is the wildcard or the website URL. *)
Theorem testCORS_accepts_wildcard_or_origin (env : Env) (s : St) (response : Response.t) :
  fetch env (fetched s) (baseURL s ++ "/GetBritEdgeInfo") = Ok response ->
  exists r s',
    testCORS env s = (Ok tt, s')
    /\ results s' = (results s ++ [r])%list
    /\ test r = "Security: CORS"
    /\ (status r = "PASS" \/ status r = "FAIL")
    /\ (status r = "PASS" <->
        Response.headers_get response "Access-Control-Allow-Origin" = Some "*"
        \/ Response.headers_get response "Access-Control-Allow-Origin"
           = Some (websiteURL s)).
Proof.
  intro E. rewrite testCORS_eq, E. cbv zeta.
  do 2 eexists. split; [reflexivity | ]. rewrite results_logged.
  split; [reflexivity | ]. split; [reflexivity | ]. cbn [status].
  rewrite <- !same_Some, <- orb_true_iff.
  destruct (same _ (Some "*") || same _ (Some (websiteURL s))).
  - split; [left; reflexivity | split; reflexivity].
  - split; [right; reflexivity | split; discriminate].
Qed.

(** The theorem on the healthy deployment, which allows any origin. *)
Lemma testCORS_healthy :
  exists r s',
    testCORS healthy (constructor healthy) = (Ok tt, s')
    /\ results s' = [r] /\ status r = "PASS".
Proof.
  destruct (testCORS_accepts_wildcard_or_origin healthy (constructor healthy) _ eq_refl)
    as (r & s' & E & R & _ & _ & H).
  exists r, s'. split; [exact E | ]. split; [exact R | ].
  apply H. left. reflexivity.
Defined.

(** ** A whole run *)

(** The end-to-end scenario of the specification, computed: against a healthy
    deployment every check passes, and the summary reports no failure and a
    rate of 100.0. *)
Example runAllTests_healthy :
  map (fun r => (test r, status r, message r))
      (results (snd (runAllTests healthy exampleRuntime (constructor healthy))))
  = [ ("API: GetBritEdgeInfo", "PASS",
       "Valid company data returned (250 employees, 2 locations)");
      ("API: GetTestimonials", "PASS", "1 testimonials returned with valid structure");
      ("API: GetCustomers", "PASS", "2 customers returned with valid structure");
      ("Functionality: JSON APIs", "PASS", "3/3 APIs return valid JSON");
      ("Security: Headers", "PASS", "4/4 security headers correctly configured");
      ("Security: HTTPS", "PASS", "Website uses HTTPS encryption");
      ("Security: CORS", "PASS", "CORS properly configured: *");
      ("Performance: Website", "PASS", "Response time: 10ms (Good)");
      ("Performance: GetBritEdgeInfo API", "PASS", "Response time: 10ms (Good)");
      ("Performance: GetTestimonials API", "PASS", "Response time: 10ms (Good)");
      ("Performance: GetCustomers API", "PASS", "Response time: 10ms (Good)");
      ("Functionality: Website", "PASS",
       "Website functionality check: 3/3 elements found") ]
  /\ option_map (fun sm => (total sm, passed sm, failed sm, successRate sm))
       (summary_in healthy (snd (runAllTests healthy exampleRuntime (constructor healthy))))
     = Some (12, 12, 0, "100.0")%nat.
Proof. split; vm_compute; reflexivity. Qed.

(** ** Binary64 facts used by the summary and by the length tests *)

Lemma digits2_pos_size (p : positive) : digits2_pos p = Pos.size p.
Proof. induction p; simpl; congruence. Qed.

Lemma digits2_pos_shift (p k : positive) :
  digits2_pos (Pos.iter xO p k) = (digits2_pos p + k)%positive.
Proof.
  induction k as [|k IH] using Pos.peano_ind.
  - simpl. lia.
  - rewrite Pos.iter_succ. simpl. rewrite IH. lia.
Qed.

Lemma digits2_pos_bound (p : positive) :
  (Z.pos p < 2 ^ 53)%Z -> (Z.pos (digits2_pos p) <= 53)%Z.
Proof.
  intro H. rewrite digits2_pos_size.
  pose proof (Pos.size_le p) as Hle.
  assert (Hp : (2 ^ Z.pos (Pos.size p) <= 2 * Z.pos p)%Z).
  { rewrite <- Pos2Z.inj_pow. change (2 * Z.pos p)%Z with (Z.pos p~0). exact Hle. }
  destruct (Z_le_gt_dec (Z.pos (Pos.size p)) 53) as [|Hgt]; [assumption | exfalso].
  assert ((2 ^ 54 <= 2 ^ Z.pos (Pos.size p))%Z) by (apply Z.pow_le_mono_r; lia).
  change (2 ^ 54)%Z with (2 * 2 ^ 53)%Z in *. lia.
Qed.

(** A mantissa of 53 bits with an exponent in range is kept as it is. *)
Lemma binary_round_aux_canonical (m : positive) (e : Z) :
  digits2_pos m = 53%positive -> (-1074 <= e <= 971)%Z ->
  binary_round_aux Num.prec Num.emax false (Z.pos m) e loc_Exact = S754_finite false m e.
Proof.
  intros Hd He.
  assert (Hf : (fexp Num.prec Num.emax (Z.pos (digits2_pos m) + e) - e = 0)%Z).
  { unfold fexp, emin, Num.prec, Num.emax. rewrite Hd. lia. }
  unfold binary_round_aux, shr_fexp. cbn [Zdigits2 shr_record_of_loc].
  rewrite Hf. cbn [shr shr_m loc_of_shr_record round_nearest_even Zdigits2 shr_record_of_loc].
  rewrite Hf. cbn [shr shr_m].
  replace (e <=? Num.emax - Num.prec)%Z with true; [reflexivity | ].
  symmetry. apply Z.leb_le. unfold Num.emax, Num.prec. lia.
Qed.

(** The integers below [2^53] are numbers as they are. *)
Lemma of_Z_pos_finite (p : positive) :
  (Z.pos p < 2 ^ 53)%Z -> exists m e, Num.of_Z (Z.pos p) = S754_finite false m e.
Proof.
  intro H. pose proof (digits2_pos_bound p H) as Hd.
  unfold Num.of_Z, binary_normalize, binary_round.
  assert (Hf : fexp Num.prec Num.emax (Z.pos (digits2_pos p) + 0)
               = (Z.pos (digits2_pos p) - 53)%Z).
  { unfold fexp, emin, Num.prec, Num.emax. lia. }
  rewrite Hf. unfold shl_align.
  destruct (Z.pos (digits2_pos p) - 53 - 0)%Z as [|k|k] eqn:Hk; [ | lia | ].
  - do 2 eexists. apply binary_round_aux_canonical; [ | lia].
    apply Pos2Z.inj. lia.
  - do 2 eexists. apply binary_round_aux_canonical; [ | lia].
    rewrite digits2_pos_shift. apply Pos2Z.inj. rewrite Pos2Z.inj_add. lia.
Qed.

Lemma of_nat_finite (n : nat) :
  (0 < n)%nat -> (Z.of_nat n < 2 ^ 53)%Z ->
  exists m e, Num.of_nat n = S754_finite false m e.
Proof.
  intros Hn Hb. unfold Num.of_nat. destruct (Z.of_nat n) as [|p|p] eqn:E; [lia | | lia].
  apply of_Z_pos_finite. exact Hb.
Qed.

(** A finite number divided by itself is one. *)
Lemma div_self (m : positive) (e : Z) :
  Num.div (S754_finite false m e) (S754_finite false m e) = Num.of_Z 1.
Proof.
  unfold Num.div, SFdiv, SFdiv_core_binary. cbn [Zdigits2 xorb].
  replace (Z.pos (digits2_pos m) + e - (Z.pos (digits2_pos m) + e))%Z with 0%Z by lia.
  rewrite Z.sub_diag.
  change (Z.min (fexp Num.prec Num.emax 0) 0) with (-53)%Z.
  change (0 - -53)%Z with 53%Z. cbv iota.
  destruct (Z.div_eucl (Z.shiftl (Z.pos m) 53) (Z.pos m)) as [q r] eqn:E.
  assert (Hq : q = (Z.shiftl (Z.pos m) 53 / Z.pos m)%Z) by (unfold Z.div; rewrite E; reflexivity).
  assert (Hr : r = (Z.shiftl (Z.pos m) 53 mod Z.pos m)%Z)
    by (unfold Z.modulo; rewrite E; reflexivity).
  rewrite Z.shiftl_mul_pow2 in Hq, Hr by lia.
  rewrite Z.mul_comm, Z.div_mul in Hq by lia. rewrite Z.mul_comm, Z.mod_mul in Hr by lia.
  subst q r. unfold new_location.
  destruct (Z.even (Z.pos m)); vm_compute; reflexivity.
Qed.

(** ** Payloads of the API checks *)

Lemma bind_bind {A B C} (m : M A) (f : A -> M B) (k : B -> M C) s :
  bind (bind m f) k s = bind m (fun a => bind (f a) k) s.
Proof. unfold bind. destruct (m s) as [[a|e] s1]; reflexivity. Qed.

Lemma get_prop (rt : Runtime) (v : JSValue) (k : string) :
  nullish v = false -> JS.get rt v k = Ok (prop rt v k).
Proof.
  intro H. unfold prop. destruct (JS.get rt v k) as [x|e] eqn:E; [reflexivity | exfalso].
  destruct v; try discriminate H; simpl in E; try discriminate E.
  - destruct (k =? "length"); [discriminate E | ].
    destruct (JS.index_of_key k); discriminate E.
  - destruct (k =? "length"); [discriminate E | ].
    destruct (JS.index_of_key k); discriminate E.
Qed.

Lemma get_nullish (rt : Runtime) (v : JSValue) (k : string) :
  nullish v = true ->
  JS.get rt v k = Throw {| Error.name := "TypeError";
                           Error.message := nullish_read_message rt v k |}.
Proof. destruct v; try discriminate; reflexivity. Qed.

Lemma truthy_not_nullish (v : JSValue) : JS.truthy v = true -> nullish v = false.
Proof. destruct v; try discriminate; reflexivity. Qed.

Lemma isArray_not_nullish (v : JSValue) : JS.isArray v = true -> nullish v = false.
Proof. destruct v; try discriminate; reflexivity. Qed.

Lemma isArray_truthy (v : JSValue) : JS.isArray v = true -> JS.truthy v = true.
Proof. destruct v; try discriminate; reflexivity. Qed.

Lemma prop_nullish (rt : Runtime) (v : JSValue) (k : string) :
  nullish v = true -> prop rt v k = JUndefined.
Proof. intro H. unfold prop. rewrite (get_nullish rt v k H). reflexivity. Qed.

Lemma typeof_number (v : JSValue) :
  (JS.typeof v =? "number") = true -> exists x, v = JNum x.
Proof. destruct v; try discriminate. eauto. Qed.

Lemma length_number (rt : Runtime) (v : JSValue) :
  JS.isArray v = true -> (JS.typeof (prop rt v "length") =? "number") = true.
Proof. destruct v; try discriminate. reflexivity. Qed.

Lemma gt_number (rt : Runtime) (v : JSValue) (n : Num.number) :
  (JS.typeof v =? "number") = true -> JS.gt rt v n = Ok (exceeds rt v n).
Proof. intro H. destruct (typeof_number v H) as (x & ->). reflexivity. Qed.

Lemma ToString_number (rt : Runtime) (v : JSValue) :
  (JS.typeof v =? "number") = true -> JS.ToString rt v = Ok (shown rt v).
Proof. intro H. destruct (typeof_number v H) as (x & ->). reflexivity. Qed.

Section Payloads.

Variable env : Env.
Variable rt : Runtime.

Lemma bind_get {A} (v : JSValue) (k : string) (f : JSValue -> M A) s :
  nullish v = false -> bind (get rt v k) f s = f (prop rt v k) s.
Proof. intro H. unfold get. rewrite (get_prop rt v k H). reflexivity. Qed.

Lemma bind_get_nullish {A} (v : JSValue) (k : string) (f : JSValue -> M A) s :
  nullish v = true ->
  bind (get rt v k) f s
  = (Throw {| Error.name := "TypeError";
              Error.message := nullish_read_message rt v k |}, s).
Proof. intro H. unfold get. rewrite (get_nullish rt v k H). reflexivity. Qed.

Lemma bind_gt_number {A} (v : JSValue) (n : Num.number) (f : bool -> M A) s :
  (JS.typeof v =? "number") = true ->
  bind (lift (JS.gt rt v n)) f s = f (exceeds rt v n) s.
Proof. intro H. rewrite bind_lift, (gt_number rt v n H). reflexivity. Qed.

Lemma bind_ToString_number {A} (v : JSValue) (f : string -> M A) s :
  (JS.typeof v =? "number") = true ->
  bind (lift (JS.ToString rt v)) f s = f (shown rt v) s.
Proof. intro H. rewrite bind_lift, (ToString_number rt v H). reflexivity. Qed.

Lemma bind_gt {A} (v : JSValue) (n : Num.number) (f : bool -> M A) s r :
  JS.gt rt v n = r ->
  bind (lift (JS.gt rt v n)) f s
  = match r with
    | Ok b => f b s
    | Throw e => (Throw e, s)
    end.
Proof. intros <-. apply bind_lift. Qed.

Ltac nn :=
  first [ assumption
        | apply truthy_not_nullish; assumption
        | apply isArray_not_nullish; assumption ].

Ltac is_number :=
  first [ assumption | apply length_number; assumption ].

Ltac run_gets :=
  repeat first
    [ rewrite bind_bind
    | rewrite bind_ret
    | rewrite bind_get by nn
    | rewrite bind_get_nullish by assumption
    | match goal with
      | H : JS.gt rt ?v ?n = _ |- context [bind (lift (JS.gt rt ?v ?n)) _ _] =>
          rewrite (bind_gt v n _ _ _ H)
      end
    | rewrite bind_gt_number by is_number
    | rewrite bind_ToString_number by is_number ].

Ltac settle :=
  repeat first
    [ progress run_gets
    | progress cbn [JS.truthy andb]
    | match goal with
      | H : _ = true |- _ => rewrite H
      | H : _ = false |- _ => rewrite H
      end ];
  try reflexivity.

Lemma testGetBritEdgeInfo_shape s response data :
  fetch env (fetched s) (baseURL s ++ "/GetBritEdgeInfo") = Ok response ->
  Response.json response = Ok data ->
  Response.status response = 200%nat ->
  nullish data = false ->
  testGetBritEdgeInfo env rt s
  = (Ok tt,
     if info_shape rt data
     then logged env "API: GetBritEdgeInfo" true (info_message rt data) JNull (count_fetch s)
     else logged env "API: GetBritEdgeInfo" false "Invalid response structure" data
            (count_fetch s)).
Proof.
  intros E J C N. unfold testGetBritEdgeInfo, try_catch.
  rewrite bind_get_state, bind_fetch, E, bind_lift, J, C. cbn [Nat.eqb].
  unfold info_shape, info_message, and_then.
  destruct (JS.truthy (prop rt data "company")) eqn:H1;
    [ destruct (JS.truthy (prop rt (prop rt data "company") "name")) eqn:H2 | ];
    (destruct (JS.truthy (prop rt data "stats")) eqn:H3;
     [ destruct (JS.typeof (prop rt (prop rt data "stats") "totalEmployees") =? "number")
         eqn:H4 | ]);
    (destruct (JS.isArray (prop rt data "locations")) eqn:H5;
     [ destruct (exceeds rt (prop rt (prop rt data "locations") "length") (Num.of_Z 0))
         eqn:H6 | ]);
    settle.
Qed.

(** The list checks, by what the guard of the first element does. *)
Ltac list_cases data key k1 k2 :=
  unfold list_shape, reaches_first, first_reached, first_of, exceeds, and_then;
  destruct (JS.isArray (prop rt data key)) eqn:?;
  (destruct (JS.truthy (prop rt data key)) eqn:?;
   [ destruct (JS.gt rt (prop rt (prop rt data key) "length") (Num.of_Z 0))
       as [[|]|?] eqn:?;
     [ destruct (nullish (prop rt (prop rt data key) "0")) eqn:?;
       [ | destruct (JS.truthy (prop rt (prop rt (prop rt data key) "0") k1)) eqn:?;
           [ destruct (JS.truthy (prop rt (prop rt (prop rt data key) "0") k2)) eqn:? | ] ]
     | | ]
   | ]);
  settle.

Lemma testGetTestimonials_shape s response data :
  fetch env (fetched s) (baseURL s ++ "/GetTestimonials") = Ok response ->
  Response.json response = Ok data ->
  Response.status response = 200%nat ->
  nullish data = false ->
  testGetTestimonials env rt s
  = (Ok tt,
     match first_reached rt data "testimonials" with
     | Throw e =>
         logged env "API: GetTestimonials" false ("Network error: " ++ Error.message e)
           JNull (count_fetch s)
     | Ok reached =>
         if reached && nullish (first_of rt data "testimonials")
         then logged env "API: GetTestimonials" false
                ("Network error: "
                 ++ nullish_read_message rt (first_of rt data "testimonials") "client")
                JNull (count_fetch s)
         else if list_shape rt data "testimonials" "client" "rating"
         then logged env "API: GetTestimonials" true
                (shown rt (prop rt (prop rt data "testimonials") "length")
                 ++ " testimonials returned with valid structure") JNull (count_fetch s)
         else logged env "API: GetTestimonials" false "Invalid testimonials structure" data
                (count_fetch s)
     end).
Proof.
  intros E J C N. unfold testGetTestimonials, try_catch.
  rewrite bind_get_state, bind_fetch, E, bind_lift, J, C. cbn [Nat.eqb].
  list_cases data "testimonials" "client" "rating".
Qed.

Lemma testGetCustomers_shape s response data :
  fetch env (fetched s) (baseURL s ++ "/GetCustomers") = Ok response ->
  Response.json response = Ok data ->
  Response.status response = 200%nat ->
  nullish data = false ->
  testGetCustomers env rt s
  = (Ok tt,
     match first_reached rt data "customers" with
     | Throw e =>
         logged env "API: GetCustomers" false ("Network error: " ++ Error.message e)
           JNull (count_fetch s)
     | Ok reached =>
         if reached && nullish (first_of rt data "customers")
         then logged env "API: GetCustomers" false
                ("Network error: "
                 ++ nullish_read_message rt (first_of rt data "customers") "customerId")
                JNull (count_fetch s)
         else if list_shape rt data "customers" "customerId" "companyName"
         then logged env "API: GetCustomers" true
                (shown rt (prop rt (prop rt data "customers") "length")
                 ++ " customers returned with valid structure") JNull (count_fetch s)
         else logged env "API: GetCustomers" false "Invalid customers structure" data
                (count_fetch s)
     end).
Proof.
  intros E J C N. unfold testGetCustomers, try_catch.
  rewrite bind_get_state, bind_fetch, E, bind_lift, J, C. cbn [Nat.eqb].
  list_cases data "customers" "customerId" "companyName".
Qed.

(** A payload that is [null]: the first property read throws. *)
Lemma testGetBritEdgeInfo_null s response data :
  fetch env (fetched s) (baseURL s ++ "/GetBritEdgeInfo") = Ok response ->
  Response.json response = Ok data ->
  Response.status response = 200%nat ->
  nullish data = true ->
  testGetBritEdgeInfo env rt s
  = (Ok tt, logged env "API: GetBritEdgeInfo" false
              ("Network error: " ++ nullish_read_message rt data "company")
              JNull (count_fetch s)).
Proof.
  intros E J C N. unfold testGetBritEdgeInfo, try_catch.
  rewrite bind_get_state, bind_fetch, E, bind_lift, J, C. cbn [Nat.eqb].
  run_gets. reflexivity.
Qed.

Lemma testGetTestimonials_null s response data :
  fetch env (fetched s) (baseURL s ++ "/GetTestimonials") = Ok response ->
  Response.json response = Ok data ->
  Response.status response = 200%nat ->
  nullish data = true ->
  testGetTestimonials env rt s
  = (Ok tt, logged env "API: GetTestimonials" false
              ("Network error: " ++ nullish_read_message rt data "testimonials")
              JNull (count_fetch s)).
Proof.
  intros E J C N. unfold testGetTestimonials, try_catch.
  rewrite bind_get_state, bind_fetch, E, bind_lift, J, C. cbn [Nat.eqb].
  run_gets. reflexivity.
Qed.

Lemma testGetCustomers_null s response data :
  fetch env (fetched s) (baseURL s ++ "/GetCustomers") = Ok response ->
  Response.json response = Ok data ->
  Response.status response = 200%nat ->
  nullish data = true ->
  testGetCustomers env rt s
  = (Ok tt, logged env "API: GetCustomers" false
              ("Network error: " ++ nullish_read_message rt data "customers")
              JNull (count_fetch s)).
Proof.
  intros E J C N. unfold testGetCustomers, try_catch.
  rewrite bind_get_state, bind_fetch, E, bind_lift, J, C. cbn [Nat.eqb].
  run_gets. reflexivity.
Qed.

End Payloads.

Section Verdicts.

Variable env : Env.
Variable rt : Runtime.

Lemma testGetBritEdgeInfo_verdict s response :
  fetch env (fetched s) (baseURL s ++ "/GetBritEdgeInfo") = Ok response ->
  testGetBritEdgeInfo env rt s
  = (Ok tt,
     let '(p, msg, d) := info_verdict rt response in
     logged env "API: GetBritEdgeInfo" p msg d (count_fetch s)).
Proof.
  intro E. unfold info_verdict.
  destruct (Response.json response) as [payload|e] eqn:J.
  - destruct (Response.status response =? 200)%nat eqn:C.
    + apply Nat.eqb_eq in C. destruct (nullish payload) eqn:N.
      * apply (testGetBritEdgeInfo_null env rt s response payload); assumption.
      * rewrite (testGetBritEdgeInfo_shape env rt s response payload) by assumption.
        destruct (info_shape rt payload); reflexivity.
    + apply Nat.eqb_neq in C.
      apply (testGetBritEdgeInfo_http_error env rt s response payload); assumption.
  - apply testGetBritEdgeInfo_caught. right. eauto.
Qed.

Lemma testGetTestimonials_verdict s response :
  fetch env (fetched s) (baseURL s ++ "/GetTestimonials") = Ok response ->
  testGetTestimonials env rt s
  = (Ok tt,
     let '(p, msg, d) :=
       list_verdict rt "testimonials" "client" "rating" "testimonials" response in
     logged env "API: GetTestimonials" p msg d (count_fetch s)).
Proof.
  intro E. unfold list_verdict.
  destruct (Response.json response) as [payload|e] eqn:J.
  - destruct (Response.status response =? 200)%nat eqn:C.
    + apply Nat.eqb_eq in C. destruct (nullish payload) eqn:N.
      * apply (testGetTestimonials_null env rt s response payload); assumption.
      * rewrite (testGetTestimonials_shape env rt s response payload) by assumption.
        destruct (first_reached rt payload "testimonials") as [reached|e]; [ | reflexivity].
        destruct (reached && nullish (first_of rt payload "testimonials"));
          [reflexivity | ].
        destruct (list_shape rt payload "testimonials" "client" "rating"); reflexivity.
    + apply Nat.eqb_neq in C.
      apply (testGetTestimonials_http_error env rt s response payload); assumption.
  - apply testGetTestimonials_caught. right. eauto.
Qed.

Lemma testGetCustomers_verdict s response :
  fetch env (fetched s) (baseURL s ++ "/GetCustomers") = Ok response ->
  testGetCustomers env rt s
  = (Ok tt,
     let '(p, msg, d) :=
       list_verdict rt "customers" "customerId" "companyName" "customers" response in
     logged env "API: GetCustomers" p msg d (count_fetch s)).
Proof.
  intro E. unfold list_verdict.
  destruct (Response.json response) as [payload|e] eqn:J.
  - destruct (Response.status response =? 200)%nat eqn:C.
    + apply Nat.eqb_eq in C. destruct (nullish payload) eqn:N.
      * apply (testGetCustomers_null env rt s response payload); assumption.
      * rewrite (testGetCustomers_shape env rt s response payload) by assumption.
        destruct (first_reached rt payload "customers") as [reached|e]; [ | reflexivity].
        destruct (reached && nullish (first_of rt payload "customers")); [reflexivity | ].
        destruct (list_shape rt payload "customers" "customerId" "companyName");
          reflexivity.
    + apply Nat.eqb_neq in C.
      apply (testGetCustomers_http_error env rt s response payload); assumption.
  - apply testGetCustomers_caught. right. eauto.
Qed.

Lemma logged_entry testName p msg d s :
  results (logged env testName p msg d s)
  = (results s ++ [entry testName p msg (now env (ticks s)) d])%list.
Proof. reflexivity. Qed.

End Verdicts.

Lemma info_shape_nullish (rt : Runtime) (data : JSValue) :
  nullish data = true -> info_shape rt data = false.
Proof. intro H. unfold info_shape. rewrite (prop_nullish rt data "company" H). reflexivity. Qed.

Lemma list_shape_nullish (rt : Runtime) (data : JSValue) (key k1 k2 : string) :
  nullish data = true -> list_shape rt data key k1 k2 = false.
Proof. intro H. unfold list_shape. rewrite (prop_nullish rt data key H). reflexivity. Qed.

Lemma Ok_eq {A} (a b : A) : Ok a = Ok b -> a = b.
Proof. intro H. injection H as H. exact H. Qed.

Lemma reaches_first_Ok (rt : Runtime) (data : JSValue) (key : string) (b : bool) :
  first_reached rt data key = Ok b -> reaches_first rt data key = b.
Proof.
  unfold first_reached, reaches_first, exceeds.
  destruct (JS.truthy (prop rt data key)); [intros ->; reflexivity | ].
  intro H. injection H as <-. reflexivity.
Qed.

Lemma reaches_first_Throw (rt : Runtime) (data : JSValue) (key : string) (e : Error.t) :
  first_reached rt data key = Throw e -> reaches_first rt data key = false.
Proof.
  unfold first_reached, reaches_first, exceeds.
  destruct (JS.truthy (prop rt data key)); [intros ->; reflexivity | discriminate].
Qed.

Lemma list_shape_reaches (rt : Runtime) (data : JSValue) (key k1 k2 : string) :
  list_shape rt data key k1 k2 = true ->
  reaches_first rt data key = true /\ nullish (first_of rt data key) = false.
Proof.
  unfold list_shape. intro H.
  apply andb_true_iff in H. destruct H as [H _].
  apply andb_true_iff in H. destruct H as [H H1].
  apply andb_true_iff in H. destruct H as [_ Hr]. split; [exact Hr | ].
  destruct (nullish (first_of rt data key)) eqn:N; [ | reflexivity].
  rewrite (prop_nullish rt _ k1 N) in H1. discriminate H1.
Qed.

Lemma not_nullish_data (d : JSValue) :
  nullish d = false -> match d with JUndefined => JNull | _ => d end = d.
Proof. destruct d; try discriminate; reflexivity. Qed.

Lemma array_length (rt : Runtime) (items : list JSValue) :
  prop rt (JArr items) "length" = JNum (Num.of_nat (List.length items)).
Proof. reflexivity. Qed.

Lemma isArray_items (v : JSValue) : JS.isArray v = true -> exists items, v = JArr items.
Proof. destruct v; try discriminate. eauto. Qed.

(** The message of a PASS, with its numbers. *)
Lemma info_message_eq (rt : Runtime) (data : JSValue) :
  info_shape rt data = true ->
  exists employees locations,
    prop rt (prop rt data "stats") "totalEmployees" = JNum employees
    /\ prop rt data "locations" = JArr locations
    /\ info_message rt data
       = "Valid company data returned (" ++ Num.toString employees ++ " employees, "
         ++ Num.toString (Num.of_nat (List.length locations)) ++ " locations)".
Proof.
  unfold info_shape, info_message. intro H.
  apply andb_true_iff in H. destruct H as [H _].
  apply andb_true_iff in H. destruct H as [H Ha].
  apply andb_true_iff in H. destruct H as [_ Hn].
  destruct (typeof_number _ Hn) as (employees & He).
  destruct (isArray_items _ Ha) as (locations & Hl).
  exists employees, locations. rewrite He, Hl, array_length.
  split; [reflexivity | ]. split; reflexivity.
Qed.

Lemma list_message_eq (rt : Runtime) (data : JSValue) (key k1 k2 : string) :
  list_shape rt data key k1 k2 = true ->
  exists items,
    prop rt data key = JArr items
    /\ shown rt (prop rt (prop rt data key) "length")
       = Num.toString (Num.of_nat (List.length items)).
Proof.
  unfold list_shape. intro H.
  apply andb_true_iff in H. destruct H as [H _].
  apply andb_true_iff in H. destruct H as [H _].
  apply andb_true_iff in H. destruct H as [Ha _].
  destruct (isArray_items _ Ha) as (items & Hi).
  exists items. rewrite Hi, array_length. split; reflexivity.
Qed.

(** A length that is an object with a [toString] of its own cannot be
    compared. *)
Lemma first_reached_no_primitive (rt : Runtime) (data : JSValue) (key : string)
    (fields inner : list (string * JSValue)) :
  prop rt data key = JObj fields ->
  JS.lookup fields "length" = JObj inner ->
  JS.has_own inner "toString" = true ->
  first_reached rt data key
  = Throw {| Error.name := "TypeError";
             Error.message := no_primitive_message rt (JObj inner) |}.
Proof.
  intros H Hl Ho. unfold first_reached. rewrite H. cbn [JS.truthy].
  change (prop rt (JObj fields) "length") with (JS.lookup fields "length").
  rewrite Hl. unfold JS.gt, JS.ToNumber, JS.ToString. rewrite Ho. reflexivity.
Qed.

Lemma prop_not_nullish (rt : Runtime) (data : JSValue) (key : string) :
  prop rt data key <> JUndefined -> nullish data = false.
Proof.
  intro H. destruct (nullish data) eqn:N; [ | reflexivity].
  rewrite (prop_nullish rt data key N) in H. contradiction.
Qed.

(** What [info_verdict] gives, case by case. *)
Lemma info_verdict_facts (rt : Runtime) (response : Response.t) :
  forall p msg d,
    info_verdict rt response = (p, msg, d) ->
    (p = true <->
     Response.status response = 200%nat
     /\ exists payload,
          Response.json response = Ok payload /\ info_shape rt payload = true)
    /\ (p = true ->
        match d with JUndefined => JNull | _ => d end = JNull
        /\ exists payload,
             Response.json response = Ok payload /\ msg = info_message rt payload)
    /\ (forall payload,
          Response.status response = 200%nat ->
          Response.json response = Ok payload ->
          nullish payload = false ->
          info_shape rt payload = false ->
          p = false /\ msg = "Invalid response structure"
          /\ match d with JUndefined => JNull | _ => d end = payload)
    /\ (match d with JUndefined => JNull | _ => d end = JNull
        \/ (p = false /\ msg = "Invalid response structure"
            /\ Response.status response = 200%nat
            /\ Response.json response
               = Ok (match d with JUndefined => JNull | _ => d end)
            /\ nullish (match d with JUndefined => JNull | _ => d end) = false
            /\ info_shape rt (match d with JUndefined => JNull | _ => d end) = false)).
Proof.
  intros p msg d. unfold info_verdict.
  destruct (Response.json response) as [payload|e] eqn:J.
  - destruct (Response.status response =? 200)%nat eqn:C.
    + apply Nat.eqb_eq in C. destruct (nullish payload) eqn:N.
      * intro H. inversion H; subst.
        split; [ | split; [discriminate | split; [ | left; reflexivity]]].
        -- split; [discriminate | ]. intros (_ & q & Hq & Hs).
           apply Ok_eq in Hq. subst q.
           rewrite (info_shape_nullish rt payload N) in Hs. discriminate Hs.
        -- intros q _ Hq Hn _. apply Ok_eq in Hq. subst q. congruence.
      * destruct (info_shape rt payload) eqn:S; intro H; inversion H; subst.
        -- split; [split; [eauto | reflexivity] | ].
           split; [intros _; split; [reflexivity | eauto] | ].
           split; [ | left; reflexivity].
           intros q _ Hq _ Hs. apply Ok_eq in Hq. subst q. congruence.
        -- rewrite (not_nullish_data d N).
           split; [ | split; [discriminate | split]].
           ++ split; [discriminate | ]. intros (_ & q & Hq & Hs).
              apply Ok_eq in Hq. subst q. congruence.
           ++ intros q _ Hq _ _. apply Ok_eq in Hq. subst q. auto.
           ++ right. auto 7.
    + apply Nat.eqb_neq in C. intro H. inversion H; subst.
      split; [ | split; [discriminate | split; [ | left; reflexivity]]].
      * split; [discriminate | ]. intros [H0 _]. contradiction.
      * intros q H0. contradiction.
  - intro H. inversion H; subst.
    split; [ | split; [discriminate | split; [ | left; reflexivity]]].
    + split; [discriminate | ]. intros (_ & q & Hq & _). discriminate Hq.
    + intros q _ Hq. discriminate Hq.
Qed.

(** What [list_verdict] gives, case by case. *)
Lemma list_verdict_facts (rt : Runtime) (key k1 k2 noun : string) (response : Response.t) :
  forall p msg d,
    list_verdict rt key k1 k2 noun response = (p, msg, d) ->
    (p = true <->
     Response.status response = 200%nat
     /\ exists payload,
          Response.json response = Ok payload /\ list_shape rt payload key k1 k2 = true)
    /\ (p = true ->
        match d with JUndefined => JNull | _ => d end = JNull
        /\ exists payload,
             Response.json response = Ok payload
             /\ msg = shown rt (prop rt (prop rt payload key) "length")
                      ++ " " ++ noun ++ " returned with valid structure")
    /\ (forall payload,
          Response.status response = 200%nat ->
          Response.json response = Ok payload ->
          list_readable rt payload key ->
          list_shape rt payload key k1 k2 = false ->
          p = false /\ msg = "Invalid " ++ noun ++ " structure"
          /\ match d with JUndefined => JNull | _ => d end = payload)
    /\ (forall payload e,
          Response.status response = 200%nat ->
          Response.json response = Ok payload ->
          nullish payload = false ->
          first_reached rt payload key = Throw e ->
          p = false /\ msg = "Network error: " ++ Error.message e
          /\ match d with JUndefined => JNull | _ => d end = JNull)
    /\ (match d with JUndefined => JNull | _ => d end = JNull
        \/ (p = false /\ msg = "Invalid " ++ noun ++ " structure"
            /\ Response.status response = 200%nat
            /\ Response.json response
               = Ok (match d with JUndefined => JNull | _ => d end)
            /\ list_readable rt (match d with JUndefined => JNull | _ => d end) key
            /\ list_shape rt (match d with JUndefined => JNull | _ => d end) key k1 k2
               = false)).
Proof.
  intros p msg d. unfold list_verdict.
  destruct (Response.json response) as [payload|e] eqn:J.
  - destruct (Response.status response =? 200)%nat eqn:C.
    + apply Nat.eqb_eq in C. destruct (nullish payload) eqn:N.
      * intro H. inversion H; subst.
        split; [ | split; [discriminate | split; [ | split; [ | left; reflexivity]]]].
        -- split; [discriminate | ]. intros (_ & q & Hq & Hs).
           apply Ok_eq in Hq. subst q.
           rewrite (list_shape_nullish rt payload key k1 k2 N) in Hs. discriminate Hs.
        -- intros q _ Hq [Hn _] _. apply Ok_eq in Hq. subst q. congruence.
        -- intros q e _ Hq Hn _. apply Ok_eq in Hq. subst q. congruence.
      * destruct (first_reached rt payload key) as [reached|e] eqn:R.
        -- destruct (reached && nullish (first_of rt payload key)) eqn:T.
           ++ intro H. inversion H; subst.
              apply andb_true_iff in T. destruct T as [-> T].
              split; [ | split; [discriminate | split; [ | split; [ | left; reflexivity]]]].
              ** split; [discriminate | ]. intros (_ & q & Hq & Hs).
                 apply Ok_eq in Hq. subst q.
                 destruct (list_shape_reaches rt payload key k1 k2 Hs) as [_ Hf].
                 congruence.
              ** intros q _ Hq (_ & b & Hb & Hf) _. apply Ok_eq in Hq. subst q.
                 rewrite R in Hb. apply Ok_eq in Hb. subst b.
                 rewrite (Hf eq_refl) in T. discriminate T.
              ** intros q e _ Hq _ He. apply Ok_eq in Hq. subst q.
                 rewrite R in He. discriminate He.
           ++ destruct (list_shape rt payload key k1 k2) eqn:S; intro H; inversion H; subst.
              ** split; [split; [eauto | reflexivity] | ].
                 split; [intros _; split; [reflexivity | eauto] | ].
                 split; [ | split; [ | left; reflexivity]].
                 --- intros q _ Hq _ Hs. apply Ok_eq in Hq. subst q. congruence.
                 --- intros q e _ Hq _ He. apply Ok_eq in Hq. subst q.
                     rewrite R in He. discriminate He.
              ** rewrite (not_nullish_data d N).
                 assert (Hr : list_readable rt d key).
                 { split; [exact N | ]. exists reached. split; [exact R | ].
                   intros ->. exact T. }
                 split; [ | split; [discriminate | split; [ | split]]].
                 --- split; [discriminate | ]. intros (_ & q & Hq & Hs).
                     apply Ok_eq in Hq. subst q. congruence.
                 --- intros q _ Hq _ _. apply Ok_eq in Hq. subst q. auto.
                 --- intros q e _ Hq _ He. apply Ok_eq in Hq. subst q.
                     rewrite R in He. discriminate He.
                 --- right. auto 7.
        -- intro H. inversion H; subst.
           split; [ | split; [discriminate | split; [ | split; [ | left; reflexivity]]]].
           ++ split; [discriminate | ]. intros (_ & q & Hq & Hs).
              apply Ok_eq in Hq. subst q.
              destruct (list_shape_reaches rt payload key k1 k2 Hs) as [Hr _].
              rewrite (reaches_first_Throw rt payload key e R) in Hr. discriminate Hr.
           ++ intros q _ Hq (_ & b & Hb & _) _. apply Ok_eq in Hq. subst q.
              rewrite R in Hb. discriminate Hb.
           ++ intros q e' _ Hq _ He. apply Ok_eq in Hq. subst q.
              rewrite R in He. injection He as <-. auto.
    + apply Nat.eqb_neq in C. intro H. inversion H; subst.
      split; [ | split; [discriminate | split; [ | split; [ | left; reflexivity]]]].
      * split; [discriminate | ]. intros [H0 _]. contradiction.
      * intros q H0. contradiction.
      * intros q e H0. contradiction.
  - intro H. inversion H; subst.
    split; [ | split; [discriminate | split; [ | split; [ | left; reflexivity]]]].
    + split; [discriminate | ]. intros (_ & q & Hq & _). discriminate Hq.
    + intros q _ Hq. discriminate Hq.
    + intros q e' _ Hq. discriminate Hq.
Qed.

Lemma status_passed (p : bool) : (if p then "PASS" else "FAIL") = "PASS" <-> p = true.
Proof. destruct p; split; intro H; try reflexivity; discriminate H. Qed.

Lemma status_failed (p : bool) : p = false -> (if p then "PASS" else "FAIL") = "FAIL".
Proof. intros ->. reflexivity. Qed.

(** X4.  When the API answers, [testGetBritEdgeInfo] appends one result.  It
    is a PASS exactly when the status is 200 and the body parses to a payload
    with a truthy [company.name], a numeric [stats.totalEmployees] and a
    non-empty array [locations]; a PASS carries the two numbers in its
    message and no data.  A 200 whose payload is not [null] and lacks that
    shape is a FAIL with "Invalid response structure" and the payload
    attached as data; in every other case the data is [null]. *)
Theorem testGetBritEdgeInfo_passes_iff (env : Env) (rt : Runtime) (s : St)
    (response : Response.t) :
  fetch env (fetched s) (baseURL s ++ "/GetBritEdgeInfo") = Ok response ->
  exists r s',
    testGetBritEdgeInfo env rt s = (Ok tt, s')
    /\ results s' = (results s ++ [r])%list
    /\ test r = "API: GetBritEdgeInfo"
    /\ (status r = "PASS" <->
        Response.status response = 200%nat
        /\ exists payload,
             Response.json response = Ok payload /\ info_shape rt payload = true)
    /\ (status r = "PASS" ->
        data r = JNull
        /\ exists payload employees locations,
             Response.json response = Ok payload
             /\ prop rt (prop rt payload "stats") "totalEmployees" = JNum employees
             /\ prop rt payload "locations" = JArr locations
             /\ message r
                = "Valid company data returned (" ++ Num.toString employees
                  ++ " employees, " ++ Num.toString (Num.of_nat (List.length locations))
                  ++ " locations)")
    /\ (forall payload,
          Response.status response = 200%nat ->
          Response.json response = Ok payload ->
          nullish payload = false ->
          info_shape rt payload = false ->
          status r = "FAIL" /\ message r = "Invalid response structure"
          /\ data r = payload)
    /\ (data r = JNull
        \/ (status r = "FAIL" /\ message r = "Invalid response structure"
            /\ Response.status response = 200%nat
            /\ Response.json response = Ok (data r)
            /\ nullish (data r) = false
            /\ info_shape rt (data r) = false)).
Proof.
  intro E. rewrite (testGetBritEdgeInfo_verdict env rt s response E).
  destruct (info_verdict rt response) as [[p msg] d] eqn:V.
  destruct (info_verdict_facts rt response p msg d V) as (Hiff & Hmsg & Hinv & Hdata).
  do 2 eexists. split; [reflexivity | ]. rewrite logged_entry.
  split; [reflexivity | ]. split; [reflexivity | ]. cbn [status message data entry].
  rewrite status_passed. split; [exact Hiff | ]. split; [ | split].
  - intro Hp. destruct (Hmsg Hp) as (Hd & payload & Hj & Hm).
    split; [exact Hd | ].
    destruct (proj1 Hiff Hp) as (_ & q & Hq & Hs).
    rewrite Hj in Hq. apply Ok_eq in Hq. subst q.
    destruct (info_message_eq rt payload Hs) as (employees & locations & He & Hl & Hi).
    exists payload, employees, locations. rewrite Hm, Hi. auto.
  - intros payload C J N S. destruct (Hinv payload C J N S) as (Hp & Hm & Hd).
    split; [apply status_failed; exact Hp | split; [exact Hm | exact Hd]].
  - destruct Hdata as [Hd | (Hp & Hm & Hrest)]; [left; exact Hd | right].
    split; [apply status_failed; exact Hp | split; [exact Hm | exact Hrest]].
Qed.

Section Lists.

Variable env : Env.
Variable rt : Runtime.

(** What the two list checks have in common: the result, from the verdict. *)
Lemma list_result_facts (key k1 k2 noun testName : string) (response : Response.t)
    (p : bool) (msg : string) (d : JSValue) (t : Z) :
  list_verdict rt key k1 k2 noun response = (p, msg, d) ->
  let r := entry testName p msg t d in
  (status r = "PASS" <->
   Response.status response = 200%nat
   /\ exists payload,
        Response.json response = Ok payload /\ list_shape rt payload key k1 k2 = true)
  /\ (status r = "PASS" ->
      data r = JNull
      /\ exists payload items,
           Response.json response = Ok payload
           /\ prop rt payload key = JArr items
           /\ message r
              = Num.toString (Num.of_nat (List.length items))
                ++ " " ++ noun ++ " returned with valid structure")
  /\ (forall payload,
        Response.status response = 200%nat ->
        Response.json response = Ok payload ->
        list_readable rt payload key ->
        list_shape rt payload key k1 k2 = false ->
        status r = "FAIL" /\ message r = "Invalid " ++ noun ++ " structure"
        /\ data r = payload)
  /\ (forall payload e,
        Response.status response = 200%nat ->
        Response.json response = Ok payload ->
        nullish payload = false ->
        first_reached rt payload key = Throw e ->
        status r = "FAIL" /\ message r = "Network error: " ++ Error.message e
        /\ data r = JNull)
  /\ (forall payload fields inner,
        Response.status response = 200%nat ->
        Response.json response = Ok payload ->
        prop rt payload key = JObj fields ->
        JS.lookup fields "length" = JObj inner ->
        JS.has_own inner "toString" = true ->
        status r = "FAIL"
        /\ message r = "Network error: " ++ no_primitive_message rt (JObj inner)
        /\ data r = JNull)
  /\ (data r = JNull
      \/ (status r = "FAIL" /\ message r = "Invalid " ++ noun ++ " structure"
          /\ Response.status response = 200%nat
          /\ Response.json response = Ok (data r)
          /\ list_readable rt (data r) key
          /\ list_shape rt (data r) key k1 k2 = false)).
Proof.
  intros V r.
  destruct (list_verdict_facts rt _ _ _ _ response p msg d V)
    as (Hiff & Hmsg & Hinv & Hthrow & Hdata).
  subst r. cbn [status message data entry]. rewrite status_passed.
  split; [exact Hiff | ]. split; [ | split; [ | split; [ | split]]].
  - intro Hp. destruct (Hmsg Hp) as (Hd & payload & Hj & Hm).
    split; [exact Hd | ].
    destruct (proj1 Hiff Hp) as (_ & q & Hq & Hs).
    rewrite Hj in Hq. apply Ok_eq in Hq. subst q.
    destruct (list_message_eq rt payload key k1 k2 Hs) as (items & Hi & Hl).
    exists payload, items. rewrite Hm, Hl. auto.
  - intros payload C J R S. destruct (Hinv payload C J R S) as (Hp & Hm & Hd).
    split; [apply status_failed; exact Hp | split; [exact Hm | exact Hd]].
  - intros payload e C J N R. destruct (Hthrow payload e C J N R) as (Hp & Hm & Hd).
    split; [apply status_failed; exact Hp | split; [exact Hm | exact Hd]].
  - intros payload fields inner C J P L O.
    assert (N : nullish payload = false)
      by (apply (prop_not_nullish rt payload key); rewrite P; discriminate).
    destruct (Hthrow payload _ C J N (first_reached_no_primitive rt payload key _ _ P L O))
      as (Hp & Hm & Hd).
    split; [apply status_failed; exact Hp | split; [exact Hm | exact Hd]].
  - destruct Hdata as [Hd | (Hp & Hm & Hrest)]; [left; exact Hd | right].
    split; [apply status_failed; exact Hp | split; [exact Hm | exact Hrest]].
Qed.

End Lists.

(** X5.  When the API answers, [testGetTestimonials] appends one result.  It
    is a PASS exactly when the status is 200 and the body parses to a payload
    whose [testimonials] is a non-empty array with a truthy [client] and
    [rating] in its first item; a PASS reports the length of the array and
    has no data.  A 200 whose payload is read without a throw and lacks that
    shape is a FAIL with "Invalid testimonials structure" and the payload
    attached as data.  Where the comparison of the length throws (a length
    that is an object with a [toString] of its own, say) the result is a
    FAIL with "Network error: " and the text of the error, without data.  In
    every case but the second the data is [null]. *)
Theorem testGetTestimonials_passes_iff (env : Env) (rt : Runtime) (s : St)
    (response : Response.t) :
  fetch env (fetched s) (baseURL s ++ "/GetTestimonials") = Ok response ->
  exists r s',
    testGetTestimonials env rt s = (Ok tt, s')
    /\ results s' = (results s ++ [r])%list
    /\ test r = "API: GetTestimonials"
    /\ (status r = "PASS" <->
        Response.status response = 200%nat
        /\ exists payload,
             Response.json response = Ok payload
             /\ list_shape rt payload "testimonials" "client" "rating" = true)
    /\ (status r = "PASS" ->
        data r = JNull
        /\ exists payload items,
             Response.json response = Ok payload
             /\ prop rt payload "testimonials" = JArr items
             /\ message r
                = Num.toString (Num.of_nat (List.length items))
                  ++ " testimonials returned with valid structure")
    /\ (forall payload,
          Response.status response = 200%nat ->
          Response.json response = Ok payload ->
          list_readable rt payload "testimonials" ->
          list_shape rt payload "testimonials" "client" "rating" = false ->
          status r = "FAIL" /\ message r = "Invalid testimonials structure"
          /\ data r = payload)
    /\ (forall payload e,
          Response.status response = 200%nat ->
          Response.json response = Ok payload ->
          nullish payload = false ->
          first_reached rt payload "testimonials" = Throw e ->
          status r = "FAIL" /\ message r = "Network error: " ++ Error.message e
          /\ data r = JNull)
    /\ (forall payload fields inner,
          Response.status response = 200%nat ->
          Response.json response = Ok payload ->
          prop rt payload "testimonials" = JObj fields ->
          JS.lookup fields "length" = JObj inner ->
          JS.has_own inner "toString" = true ->
          status r = "FAIL"
          /\ message r = "Network error: " ++ no_primitive_message rt (JObj inner)
          /\ data r = JNull)
    /\ (data r = JNull
        \/ (status r = "FAIL" /\ message r = "Invalid testimonials structure"
            /\ Response.status response = 200%nat
            /\ Response.json response = Ok (data r)
            /\ list_readable rt (data r) "testimonials"
            /\ list_shape rt (data r) "testimonials" "client" "rating" = false)).
Proof.
  intro E. rewrite (testGetTestimonials_verdict env rt s response E).
  destruct (list_verdict rt "testimonials" "client" "rating" "testimonials" response)
    as [[p msg] d] eqn:V.
  do 2 eexists. split; [reflexivity | ]. rewrite logged_entry.
  split; [reflexivity | ]. split; [reflexivity | ].
  exact (list_result_facts rt _ _ _ _ "API: GetTestimonials" response p msg d _ V).
Qed.

(** X6.  When the API answers, [testGetCustomers] appends one result.  It is
    a PASS exactly when the status is 200 and the body parses to a payload
    whose [customers] is a non-empty array with a truthy [customerId] and
    [companyName] in its first item; a PASS reports the length of the array
    and has no data.  A 200 whose payload is read without a throw and lacks
    that shape is a FAIL with "Invalid customers structure" and the payload
    attached as data.  Where the comparison of the length throws (a length
    that is an object with a [toString] of its own, say) the result is a
    FAIL with "Network error: " and the text of the error, without data.  In
    every case but the second the data is [null]. *)
Theorem testGetCustomers_passes_iff (env : Env) (rt : Runtime) (s : St)
    (response : Response.t) :
  fetch env (fetched s) (baseURL s ++ "/GetCustomers") = Ok response ->
  exists r s',
    testGetCustomers env rt s = (Ok tt, s')
    /\ results s' = (results s ++ [r])%list
    /\ test r = "API: GetCustomers"
    /\ (status r = "PASS" <->
        Response.status response = 200%nat
        /\ exists payload,
             Response.json response = Ok payload
             /\ list_shape rt payload "customers" "customerId" "companyName" = true)
    /\ (status r = "PASS" ->
        data r = JNull
        /\ exists payload items,
             Response.json response = Ok payload
             /\ prop rt payload "customers" = JArr items
             /\ message r
                = Num.toString (Num.of_nat (List.length items))
                  ++ " customers returned with valid structure")
    /\ (forall payload,
          Response.status response = 200%nat ->
          Response.json response = Ok payload ->
          list_readable rt payload "customers" ->
          list_shape rt payload "customers" "customerId" "companyName" = false ->
          status r = "FAIL" /\ message r = "Invalid customers structure"
          /\ data r = payload)
    /\ (forall payload e,
          Response.status response = 200%nat ->
          Response.json response = Ok payload ->
          nullish payload = false ->
          first_reached rt payload "customers" = Throw e ->
          status r = "FAIL" /\ message r = "Network error: " ++ Error.message e
          /\ data r = JNull)
    /\ (forall payload fields inner,
          Response.status response = 200%nat ->
          Response.json response = Ok payload ->
          prop rt payload "customers" = JObj fields ->
          JS.lookup fields "length" = JObj inner ->
          JS.has_own inner "toString" = true ->
          status r = "FAIL"
          /\ message r = "Network error: " ++ no_primitive_message rt (JObj inner)
          /\ data r = JNull)
    /\ (data r = JNull
        \/ (status r = "FAIL" /\ message r = "Invalid customers structure"
            /\ Response.status response = 200%nat
            /\ Response.json response = Ok (data r)
            /\ list_readable rt (data r) "customers"
            /\ list_shape rt (data r) "customers" "customerId" "companyName" = false)).
Proof.
  intro E. rewrite (testGetCustomers_verdict env rt s response E).
  destruct (list_verdict rt "customers" "customerId" "companyName" "customers" response)
    as [[p msg] d] eqn:V.
  do 2 eexists. split; [reflexivity | ]. rewrite logged_entry.
  split; [reflexivity | ]. split; [reflexivity | ].
  exact (list_result_facts rt _ _ _ _ "API: GetCustomers" response p msg d _ V).
Qed.

(** The theorem on the healthy deployment, and on a payload without
    [stats]. *)
Lemma testGetBritEdgeInfo_healthy :
  (exists r s',
     testGetBritEdgeInfo healthy exampleRuntime (constructor healthy) = (Ok tt, s')
     /\ results s' = [r] /\ status r = "PASS" /\ data r = JNull
     /\ message r = "Valid company data returned (250 employees, 2 locations)")
  /\ (exists r s',
        testGetBritEdgeInfo (serving incomplete) exampleRuntime
          (constructor (serving incomplete)) = (Ok tt, s')
        /\ results s' = [r] /\ status r = "FAIL"
        /\ message r = "Invalid response structure" /\ data r = incomplete_payload).
Proof.
  split.
  - destruct (testGetBritEdgeInfo_passes_iff healthy exampleRuntime (constructor healthy)
                _ eq_refl)
      as (r & s' & E & R & _ & Hiff & Hmsg & _).
    assert (Hs : status r = "PASS").
    { apply Hiff. split; [reflexivity | ].
      eexists. split; [reflexivity | vm_compute; reflexivity]. }
    exists r, s'. split; [exact E | ]. split; [exact R | ]. split; [exact Hs | ].
    destruct (Hmsg Hs) as (Hd & payload & employees & locations & Hp & He & Hl & Hm).
    split; [exact Hd | ].
    apply Ok_eq in Hp. subst payload.
    vm_compute in He. vm_compute in Hl. injection He as <-. injection Hl as <-.
    rewrite Hm. vm_compute. reflexivity.
  - destruct (testGetBritEdgeInfo_passes_iff (serving incomplete) exampleRuntime
                (constructor (serving incomplete)) _ eq_refl)
      as (r & s' & E & R & _ & _ & _ & Hinv & _).
    exists r, s'. split; [exact E | ]. split; [exact R | ].
    apply (Hinv incomplete_payload); reflexivity.
Defined.

(** The theorem on the healthy deployment, on a first testimonial without
    [rating], and on a length without a primitive value. *)
Lemma testGetTestimonials_healthy :
  (exists r s',
     testGetTestimonials healthy exampleRuntime (constructor healthy) = (Ok tt, s')
     /\ results s' = [r] /\ status r = "PASS" /\ data r = JNull
     /\ message r = "1 testimonials returned with valid structure")
  /\ (exists r s',
        testGetTestimonials (serving incomplete) exampleRuntime
          (constructor (serving incomplete)) = (Ok tt, s')
        /\ results s' = [r] /\ status r = "FAIL"
        /\ message r = "Invalid testimonials structure" /\ data r = incomplete_payload)
  /\ (exists r s',
        testGetTestimonials (serving unconvertible) exampleRuntime
          (constructor (serving unconvertible)) = (Ok tt, s')
        /\ results s' = [r] /\ status r = "FAIL"
        /\ message r = "Network error: Cannot convert object to primitive value"
        /\ data r = JNull).
Proof.
  split; [ | split].
  - destruct (testGetTestimonials_passes_iff healthy exampleRuntime (constructor healthy)
                _ eq_refl)
      as (r & s' & E & R & _ & Hiff & Hmsg & _).
    assert (Hs : status r = "PASS").
    { apply Hiff. split; [reflexivity | ].
      eexists. split; [reflexivity | vm_compute; reflexivity]. }
    exists r, s'. split; [exact E | ]. split; [exact R | ]. split; [exact Hs | ].
    destruct (Hmsg Hs) as (Hd & payload & items & Hp & Hi & Hm).
    split; [exact Hd | ].
    apply Ok_eq in Hp. subst payload. vm_compute in Hi. injection Hi as <-.
    rewrite Hm. vm_compute. reflexivity.
  - destruct (testGetTestimonials_passes_iff (serving incomplete) exampleRuntime
                (constructor (serving incomplete)) _ eq_refl)
      as (r & s' & E & R & _ & _ & _ & Hinv & _).
    exists r, s'. split; [exact E | ]. split; [exact R | ].
    apply (Hinv incomplete_payload); try reflexivity.
    split; [reflexivity | ]. exists true. split; [vm_compute; reflexivity | reflexivity].
  - destruct (testGetTestimonials_passes_iff (serving unconvertible) exampleRuntime
                (constructor (serving unconvertible)) _ eq_refl)
      as (r & s' & E & R & _ & _ & _ & _ & _ & Hobj & _).
    exists r, s'. split; [exact E | ]. split; [exact R | ].
    apply (Hobj (JObj [ ("testimonials", odd_length); ("customers", odd_length) ])
             [("length", JObj [("toString", JNum (Num.of_Z 1))])]
             [("toString", JNum (Num.of_Z 1))]);
      reflexivity.
Defined.

Lemma testGetCustomers_healthy :
  (exists r s',
     testGetCustomers healthy exampleRuntime (constructor healthy) = (Ok tt, s')
     /\ results s' = [r] /\ status r = "PASS" /\ data r = JNull
     /\ message r = "2 customers returned with valid structure")
  /\ (exists r s',
        testGetCustomers (serving incomplete) exampleRuntime
          (constructor (serving incomplete)) = (Ok tt, s')
        /\ results s' = [r] /\ status r = "FAIL"
        /\ message r = "Invalid customers structure" /\ data r = incomplete_payload)
  /\ (exists r s',
        testGetCustomers (serving unconvertible) exampleRuntime
          (constructor (serving unconvertible)) = (Ok tt, s')
        /\ results s' = [r] /\ status r = "FAIL"
        /\ message r = "Network error: Cannot convert object to primitive value"
        /\ data r = JNull).
Proof.
  split; [ | split].
  - destruct (testGetCustomers_passes_iff healthy exampleRuntime (constructor healthy)
                _ eq_refl)
      as (r & s' & E & R & _ & Hiff & Hmsg & _).
    assert (Hs : status r = "PASS").
    { apply Hiff. split; [reflexivity | ].
      eexists. split; [reflexivity | vm_compute; reflexivity]. }
    exists r, s'. split; [exact E | ]. split; [exact R | ]. split; [exact Hs | ].
    destruct (Hmsg Hs) as (Hd & payload & items & Hp & Hi & Hm).
    split; [exact Hd | ].
    apply Ok_eq in Hp. subst payload. vm_compute in Hi. injection Hi as <-.
    rewrite Hm. vm_compute. reflexivity.
  - destruct (testGetCustomers_passes_iff (serving incomplete) exampleRuntime
                (constructor (serving incomplete)) _ eq_refl)
      as (r & s' & E & R & _ & _ & _ & Hinv & _).
    exists r, s'. split; [exact E | ]. split; [exact R | ].
    apply (Hinv incomplete_payload); try reflexivity.
    split; [reflexivity | ]. exists true. split; [vm_compute; reflexivity | reflexivity].
  - destruct (testGetCustomers_passes_iff (serving unconvertible) exampleRuntime
                (constructor (serving unconvertible)) _ eq_refl)
      as (r & s' & E & R & _ & _ & _ & _ & _ & Hobj & _).
    exists r, s'. split; [exact E | ]. split; [exact R | ].
    apply (Hobj (JObj [ ("testimonials", odd_length); ("customers", odd_length) ])
             [("length", JObj [("toString", JNum (Num.of_Z 1))])]
             [("toString", JNum (Num.of_Z 1))]);
      reflexivity.
Defined.

(** ** Property reads that throw *)

Lemma positive_length (n : nat) :
  (0 < n)%nat -> (Z.of_nat n < 2 ^ 53)%Z ->
  forall rt, JS.gt rt (JNum (Num.of_nat n)) (Num.of_Z 0) = Ok true.
Proof.
  intros Hn Hb rt. destruct (of_nat_finite n Hn Hb) as (m & e & H).
  unfold JS.gt, JS.ToNumber. rewrite H. reflexivity.
Qed.

(** An array under [key] with a first item: the check reads that item. *)
Lemma array_first (rt : Runtime) (data : JSValue) (key : string)
    (x : JSValue) (rest : list JSValue) :
  prop rt data key = JArr (x :: rest) ->
  (Z.of_nat (S (List.length rest)) < 2 ^ 53)%Z ->
  first_reached rt data key = Ok true /\ first_of rt data key = x.
Proof.
  intros H Hb. unfold first_reached, first_of. rewrite H. split; [ | reflexivity].
  change (prop rt (JArr (x :: rest)) "length")
    with (JNum (Num.of_nat (S (List.length rest)))).
  rewrite positive_length by (lia || assumption). reflexivity.
Qed.

Lemma array_empty (rt : Runtime) (data : JSValue) (key k1 k2 : string) :
  prop rt data key = JArr [] ->
  first_reached rt data key = Ok false /\ list_shape rt data key k1 k2 = false.
Proof.
  intro H. unfold list_shape, reaches_first, first_reached. rewrite H.
  split; reflexivity.
Qed.

Section Edges.

Variable env : Env.
Variable rt : Runtime.

Lemma list_verdict_first_null key k1 k2 noun response payload first rest :
  Response.status response = 200%nat ->
  Response.json response = Ok payload ->
  prop rt payload key = JArr (first :: rest) ->
  nullish first = true ->
  (Z.of_nat (S (List.length rest)) < 2 ^ 53)%Z ->
  list_verdict rt key k1 k2 noun response
  = (false, "Network error: " ++ nullish_read_message rt first k1, JNull).
Proof.
  intros C J P N B. unfold list_verdict. rewrite J, C. cbn [Nat.eqb].
  rewrite (prop_not_nullish rt payload key) by (rewrite P; discriminate).
  destruct (array_first rt payload key first rest P B) as [-> ->].
  rewrite N. reflexivity.
Qed.

Lemma list_verdict_empty key k1 k2 noun response payload :
  Response.status response = 200%nat ->
  Response.json response = Ok payload ->
  prop rt payload key = JArr [] ->
  list_verdict rt key k1 k2 noun response
  = (false, "Invalid " ++ noun ++ " structure", payload).
Proof.
  intros C J P. unfold list_verdict. rewrite J, C. cbn [Nat.eqb].
  rewrite (prop_not_nullish rt payload key) by (rewrite P; discriminate).
  destruct (array_empty rt payload key k1 k2 P) as [-> ->]. reflexivity.
Qed.

End Edges.

(** X7.  A 200 response whose body parses, but on which a property read
    throws, is recorded as FAIL "Network error: <TypeError text>": for each
    of the three API checks when the payload is [null], and for the
    testimonials and customers checks when the list is an array whose first
    item is [null] (or [undefined]).  An empty list is a FAIL with
    "Invalid ... structure" instead. *)
Theorem api_checks_report_TypeError (env : Env) (rt : Runtime) (s : St)
    (response : Response.t) (payload : JSValue) :
  Response.status response = 200%nat ->
  Response.json response = Ok payload ->
  (nullish payload = true ->
   (fetch env (fetched s) (baseURL s ++ "/GetBritEdgeInfo") = Ok response ->
    records_failure (testGetBritEdgeInfo env rt) s "API: GetBritEdgeInfo"
      ("Network error: " ++ nullish_read_message rt payload "company"))
   /\ (fetch env (fetched s) (baseURL s ++ "/GetTestimonials") = Ok response ->
       records_failure (testGetTestimonials env rt) s "API: GetTestimonials"
         ("Network error: " ++ nullish_read_message rt payload "testimonials"))
   /\ (fetch env (fetched s) (baseURL s ++ "/GetCustomers") = Ok response ->
       records_failure (testGetCustomers env rt) s "API: GetCustomers"
         ("Network error: " ++ nullish_read_message rt payload "customers")))
  /\ (forall first rest,
        nullish first = true ->
        (Z.of_nat (S (List.length rest)) < 2 ^ 53)%Z ->
        (prop rt payload "testimonials" = JArr (first :: rest) ->
         fetch env (fetched s) (baseURL s ++ "/GetTestimonials") = Ok response ->
         records_failure (testGetTestimonials env rt) s "API: GetTestimonials"
           ("Network error: " ++ nullish_read_message rt first "client"))
        /\ (prop rt payload "customers" = JArr (first :: rest) ->
            fetch env (fetched s) (baseURL s ++ "/GetCustomers") = Ok response ->
            records_failure (testGetCustomers env rt) s "API: GetCustomers"
              ("Network error: " ++ nullish_read_message rt first "customerId")))
  /\ (prop rt payload "testimonials" = JArr [] ->
      fetch env (fetched s) (baseURL s ++ "/GetTestimonials") = Ok response ->
      records_failure (testGetTestimonials env rt) s "API: GetTestimonials"
        "Invalid testimonials structure")
  /\ (prop rt payload "customers" = JArr [] ->
      fetch env (fetched s) (baseURL s ++ "/GetCustomers") = Ok response ->
      records_failure (testGetCustomers env rt) s "API: GetCustomers"
        "Invalid customers structure").
Proof.
  intros C J. split; [ | split; [ | split]].
  - intro N. split; [ | split]; intro E.
    + eapply logged_failure;
        [eapply testGetBritEdgeInfo_null; eassumption | reflexivity].
    + eapply logged_failure;
        [eapply testGetTestimonials_null; eassumption | reflexivity].
    + eapply logged_failure;
        [eapply testGetCustomers_null; eassumption | reflexivity].
  - intros first rest N B. split; intros P E.
    + do 2 eexists. split; [apply (testGetTestimonials_verdict env rt s response E) | ].
      rewrite (list_verdict_first_null rt _ _ _ _ response payload first rest C J P N B).
      rewrite logged_entry. repeat split; reflexivity.
    + do 2 eexists. split; [apply (testGetCustomers_verdict env rt s response E) | ].
      rewrite (list_verdict_first_null rt _ _ _ _ response payload first rest C J P N B).
      rewrite logged_entry. repeat split; reflexivity.
  - intros P E.
    do 2 eexists. split; [apply (testGetTestimonials_verdict env rt s response E) | ].
    rewrite (list_verdict_empty rt _ _ _ _ response payload C J P).
    rewrite logged_entry. repeat split; reflexivity.
  - intros P E.
    do 2 eexists. split; [apply (testGetCustomers_verdict env rt s response E) | ].
    rewrite (list_verdict_empty rt _ _ _ _ response payload C J P).
    rewrite logged_entry. repeat split; reflexivity.
Qed.

(** The theorem on a payload whose lists start with [null], and on the body
    [null]. *)
Lemma api_checks_on_hollow_lists :
  records_failure (testGetTestimonials (serving hollow) exampleRuntime)
    (constructor (serving hollow)) "API: GetTestimonials"
    "Network error: Cannot read properties of null (reading 'client')"
  /\ records_failure (testGetCustomers (serving hollow) exampleRuntime)
       (constructor (serving hollow)) "API: GetCustomers"
       "Network error: Cannot read properties of null (reading 'customerId')"
  /\ records_failure (testGetBritEdgeInfo (serving null_body) exampleRuntime)
       (constructor (serving null_body)) "API: GetBritEdgeInfo"
       "Network error: Cannot read properties of null (reading 'company')".
Proof.
  destruct (api_checks_report_TypeError (serving hollow) exampleRuntime
              (constructor (serving hollow)) hollow _ eq_refl eq_refl)
    as (_ & H & _).
  destruct (api_checks_report_TypeError (serving null_body) exampleRuntime
              (constructor (serving null_body)) null_body _ eq_refl eq_refl)
    as (N & _).
  split; [ | split].
  - apply (proj1 (H JNull [] eq_refl ltac:(vm_compute; reflexivity)));
      reflexivity.
  - apply (proj2 (H JNull [JNull] eq_refl ltac:(vm_compute; reflexivity)));
      reflexivity.
  - apply (proj1 (N eq_refl)). reflexivity.
Defined.

(** ** More on the summary *)

Lemma rate_all_passed (t : nat) :
  (0 < t)%nat -> (Z.of_nat t < 2 ^ 53)%Z -> rate t t = "100.0".
Proof.
  intros Ht Hb. unfold rate. destruct (of_nat_finite t Ht Hb) as (m & e & ->).
  rewrite div_self. vm_compute. reflexivity.
Qed.

Lemma rate_none_passed (t : nat) :
  (0 < t)%nat -> (Z.of_nat t < 2 ^ 53)%Z -> rate 0 t = "0.0".
Proof.
  intros Ht Hb. unfold rate. destruct (of_nat_finite t Ht Hb) as (m & e & ->).
  vm_compute. reflexivity.
Qed.

Lemma filter_all {A} (f : A -> bool) (l : list A) :
  Forall (fun x => f x = true) l -> filter f l = l.
Proof. induction 1 as [|x l Hx _ IH]; simpl; [ | rewrite Hx, IH]; reflexivity. Qed.

Lemma filter_none {A} (f : A -> bool) (l : list A) :
  Forall (fun x => f x = false) l -> filter f l = [].
Proof. induction 1 as [|x l Hx _ IH]; simpl; [ | rewrite Hx, IH]; reflexivity. Qed.

(** X8.  On a non-empty log (of fewer than 2^53 results): if every result
    passed, the summary has [failed = 0] and [successRate = "100.0"]; if none
    passed, it has [passed = 0], [failed = total] and [successRate = "0.0"]. *)
Theorem generateSummary_all_or_nothing (env : Env) (s : St) :
  (0 < List.length (results s))%nat ->
  (Z.of_nat (List.length (results s)) < 2 ^ 53)%Z ->
  exists sm,
    summary_in env s = Some sm
    /\ (Forall (fun r => status r = "PASS") (results s) ->
        passed sm = total sm /\ failed sm = 0%nat /\ successRate sm = "100.0")
    /\ (Forall (fun r => status r <> "PASS") (results s) ->
        passed sm = 0%nat /\ failed sm = total sm /\ successRate sm = "0.0").
Proof.
  intros Ht Hb. rewrite summary_in_eq. eexists. split; [reflexivity | ].
  cbn [total passed failed successRate]. split; intro H.
  - rewrite filter_all.
    + split; [reflexivity | ]. split; [lia | ]. apply rate_all_passed; assumption.
    + eapply Forall_impl; [ | exact H]. intros r Hr. cbv beta. rewrite Hr. reflexivity.
  - rewrite filter_none.
    + split; [reflexivity | ]. split; [simpl; lia | ].
      apply rate_none_passed; assumption.
    + eapply Forall_impl; [ | exact H]. intros r Hr. cbv beta.
      apply String.eqb_neq. exact Hr.
Qed.

(** The theorem after a whole run with no network is not of this kind (one
    check passes); on two logged failures it gives 0.0. *)
Lemma generateSummary_two_failures :
  exists sm,
    summary_in offline (log_many offline 2 false (constructor offline)) = Some sm
    /\ passed sm = 0%nat /\ failed sm = total sm /\ successRate sm = "0.0".
Proof.
  destruct (generateSummary_all_or_nothing offline
              (log_many offline 2 false (constructor offline))
              ltac:(simpl; lia) ltac:(vm_compute; reflexivity))
    as (sm & E & _ & H).
  exists sm. split; [exact E | ]. apply H.
  repeat constructor; discriminate.
Defined.

(** X9.  Every call of [logResult] raises the total of the summary by one,
    and with it the passed count (for [true]) or the failed count (for
    [false]), leaving the other as it was. *)
Theorem logResult_counts_once (env : Env) (s : St)
    (testName : string) (p : bool) (msg : string) (d : JSValue) :
  exists sm sm',
    summary_in env s = Some sm
    /\ summary_in env (snd (logResult env testName p msg d s)) = Some sm'
    /\ total sm' = S (total sm)
    /\ passed sm' = (if p then S (passed sm) else passed sm)
    /\ failed sm' = (if p then failed sm else S (failed sm)).
Proof.
  rewrite logResult_eq. cbn [snd]. rewrite !summary_in_eq. do 2 eexists.
  split; [reflexivity | ]. split; [reflexivity | ].
  cbn [total passed failed]. rewrite results_logged, filter_app, !length_app.
  pose proof (filter_length_le (fun r => status r =? "PASS") (results s)) as Hle.
  destruct p; cbn [filter status List.length];
    [change ("PASS" =? "PASS") with true | change ("FAIL" =? "PASS") with false];
    cbn [List.length]; repeat split; lia.
Qed.

(** ** The whole run *)

Lemma grows_one (s s' : St) (testName : string) (nf : nat) :
  grows s s' [testName] nf ->
  exists r, results s' = (results s ++ [r])%list /\ test r = testName /\ well_formed r.
Proof.
  intros [_ _ _ _ _ (l & R & N & W)].
  destruct l as [|r [|r' l]]; try discriminate N.
  exists r. split; [exact R | ]. split; [simpl in N; inversion N; reflexivity | ].
  inversion W; assumption.
Qed.

Lemma filter_has {A} (f : A -> bool) (l : list A) (a : A) :
  In a l -> f a = true -> (1 <= List.length (filter f l))%nat.
Proof.
  intros Hin Hf. assert (H : In a (filter f l)) by (apply filter_In; auto).
  destruct (filter f l); [contradiction | simpl; lia].
Qed.

Section Split.

Variable env : Env.
Variable rt : Runtime.

(** The run up to the HTTPS check, the check, and the rest. *)
Lemma runAllTests_split s :
  configured s ->
  exists l1 r l2 s',
    runAllTests env rt s = (Ok tt, s')
    /\ results s' = (results s ++ l1 ++ r :: l2)%list
    /\ map test (l1 ++ r :: l2)%list = run_names
    /\ List.length l1 = 5%nat
    /\ Forall well_formed (l1 ++ r :: l2)%list
    /\ status r = "PASS"
    /\ fetched s' = (fetched s + 13)%nat.
Proof.
  intros [_ Hw].
  destruct (runAllTests_grows env rt s) as (s' & E & G).
  destruct (testGetBritEdgeInfo_grows env rt s) as (s1 & E1 & G1).
  destruct (testGetTestimonials_grows env rt s1) as (s2 & E2 & G2).
  destruct (testGetCustomers_grows env rt s2) as (s3 & E3 & G3).
  destruct (testJSONResponses_grows env s3) as (s4 & E4 & G4).
  destruct (testSecurityHeaders_grows env s4) as (s5 & E5 & G5).
  pose proof (testHTTPS_eq env s5) as E6.
  set (s6 := logged env "Security: HTTPS" (Str.startsWith (websiteURL s5) "https://")
               (if Str.startsWith (websiteURL s5) "https://"
                then "Website uses HTTPS encryption" else "Website not using HTTPS")
               JNull s5) in E6.
  assert (G7 : exists s7,
             (testCORS env ;;; testResponseTimes env ;;; testWebsiteNavigation env ;;;
              generateSummary env ;;; ret tt) s6 = (Ok tt, s7)
             /\ grows s6 s7 (["Security: CORS"] ++ performance_names
                             ++ ["Functionality: Website"] ++ [])%list (1 + (4 + (1 + 0)))).
  { apply returns_growing_bind; [apply testCORS_grows | ].
    apply returns_growing_bind; [apply testResponseTimes_grows | ].
    apply returns_growing_bind; [apply testWebsiteNavigation_grows | ].
    apply summary_grows. }
  destruct G7 as (s7 & E7 & G7).
  assert (Es : s' = s7).
  { unfold runAllTests in E. unfold bind at 1 in E. rewrite E1 in E.
    unfold bind at 1 in E. rewrite E2 in E.
    unfold bind at 1 in E. rewrite E3 in E.
    unfold bind at 1 in E. rewrite E4 in E.
    unfold bind at 1 in E. rewrite E5 in E.
    unfold bind at 1 in E. rewrite E6 in E.
    rewrite E7 in E. inversion E. reflexivity. }
  subst s7.
  destruct (grows_one _ _ _ _ G1) as (r1 & R1 & N1 & W1).
  destruct (grows_one _ _ _ _ G2) as (r2 & R2 & N2 & W2).
  destruct (grows_one _ _ _ _ G3) as (r3 & R3 & N3 & W3).
  destruct (grows_one _ _ _ _ G4) as (r4 & R4 & N4 & W4).
  destruct (grows_one _ _ _ _ G5) as (r5 & R5 & N5 & W5).
  destruct G7 as [_ _ _ _ _ (l7 & R7 & N7 & W7)].
  assert (Hs5 : websiteURL s5 = websiteURL s).
  { rewrite (grows_websiteURL _ _ _ _ G5), (grows_websiteURL _ _ _ _ G4),
      (grows_websiteURL _ _ _ _ G3), (grows_websiteURL _ _ _ _ G2),
      (grows_websiteURL _ _ _ _ G1). reflexivity. }
  assert (Hp : Str.startsWith (websiteURL s5) "https://" = true)
    by (rewrite Hs5, Hw; reflexivity).
  exists [r1; r2; r3; r4; r5],
    (entry "Security: HTTPS" true "Website uses HTTPS encryption" (now env (ticks s5)) JNull),
    l7, s'.
  split; [exact E | ]. split; [ | split; [ | split; [reflexivity | split; [ | split]]]].
  - rewrite R7. subst s6. rewrite logged_entry, Hp, R5, R4, R3, R2, R1.
    rewrite <- !app_assoc. reflexivity.
  - rewrite map_app. cbn [map]. rewrite N1, N2, N3, N4, N5, N7. reflexivity.
  - apply Forall_app. split.
    + repeat (constructor; [assumption | ]). constructor.
    + constructor; [left; reflexivity | exact W7].
  - reflexivity.
  - apply (grows_fetched _ _ _ _ G).
Qed.

End Split.

(** X2.  From every state of an instance, [runAllTests] returns and appends
    twelve results to the log, named and ordered as the checks are run, each
    PASS or FAIL, after thirteen requests; the sixth, the HTTPS check, is a
    PASS.  So the summary of a run on a new instance has [total = 12], at
    least one passed, at most eleven failed, and its success rate is the
    rounded percentage of [passed] out of 12. *)
Theorem runAllTests_appends_twelve (env : Env) (rt : Runtime) (s : St) :
  reachable env rt s ->
  exists l s',
    runAllTests env rt s = (Ok tt, s')
    /\ results s' = (results s ++ l)%list
    /\ map test l = run_names
    /\ Forall well_formed l
    /\ fetched s' = (fetched s + 13)%nat
    /\ (exists r, nth_error l 5 = Some r /\ status r = "PASS")
    /\ (results s = [] ->
        exists sm,
          summary_in env s' = Some sm
          /\ total sm = 12%nat
          /\ (1 <= passed sm <= 12)%nat
          /\ (failed sm <= 11)%nat
          /\ successRate sm = round_1_decimal (passed sm) 12).
Proof.
  intro Hs. apply reachable_invariant in Hs. destruct Hs as [Hc _].
  destruct (runAllTests_split env rt s Hc) as (l1 & r & l2 & s' & E & R & N & L & W & P & F).
  exists (l1 ++ r :: l2)%list, s'.
  split; [exact E | ]. split; [exact R | ]. split; [exact N | ]. split; [exact W | ].
  split; [exact F | ]. split.
  - exists r. split; [ | exact P].
    rewrite nth_error_app2 by lia. rewrite L. reflexivity.
  - intro H0. rewrite summary_in_eq. eexists. split; [reflexivity | ].
    cbn [total passed failed successRate].
    assert (Hlen : List.length (results s') = 12%nat).
    { rewrite R, H0. cbn [app]. rewrite <- (length_map test), N. reflexivity. }
    pose proof (filter_length_le (fun x => status x =? "PASS") (results s')) as Hle.
    assert (Hge : (1 <= List.length (filter (fun x => (status x =? "PASS")%string)
                                            (results s')))%nat).
    { apply (filter_has _ _ r).
      - rewrite R. apply in_or_app. right. apply in_or_app. right. left. reflexivity.
      - rewrite P. reflexivity. }
    rewrite Hlen in *. split; [reflexivity | ]. split; [lia | ]. split; [lia | ].
    apply rate_exact; lia.
Qed.

(** The theorem on a run with no network: only the HTTPS check passes. *)
Lemma runAllTests_offline :
  exists s' sm,
    runBritEdgeTests offline exampleRuntime = (Ok tt, s')
    /\ map test (results s') = run_names
    /\ summary_in offline s' = Some sm
    /\ total sm = 12%nat /\ passed sm = 1%nat /\ failed sm = 11%nat
    /\ successRate sm = "8.3".
Proof.
  destruct (runAllTests_appends_twelve offline exampleRuntime (constructor offline)
              (reach_new offline exampleRuntime))
    as (l & s' & E & R & N & _ & _ & _ & H).
  destruct (H eq_refl) as (sm & Hsm & Ht & _ & _ & Hr).
  exists s', sm. split; [exact E | ]. split; [rewrite R; exact N | ].
  split; [exact Hsm | ]. split; [exact Ht | ].
  assert (Es : s' = snd (runAllTests offline exampleRuntime (constructor offline)))
    by (rewrite E; reflexivity).
  rewrite summary_in_eq in Hsm. apply Some_eq in Hsm.
  assert (Hp : passed sm = 1%nat) by (subst sm s'; vm_compute; reflexivity).
  split; [exact Hp | ]. split; [subst sm s'; vm_compute; reflexivity | ].
  rewrite Hr, Hp. vm_compute. reflexivity.
Defined.

(** X11.  No method of the class throws; a call leaves the logged results in
    place and appends to them, each new result PASS or FAIL; it never lowers
    the count of requests or of clock readings, and never changes the two URLs
    or the start time. *)
Theorem methods_return_and_append (env : Env) (rt : Runtime) (m : Method) (s : St) :
  exists l s',
    call env rt m s = (Ok tt, s')
    /\ results s' = (results s ++ l)%list
    /\ Forall well_formed l
    /\ baseURL s' = baseURL s /\ websiteURL s' = websiteURL s
    /\ startTime s' = startTime s
    /\ (fetched s <= fetched s')%nat /\ (ticks s <= ticks s')%nat.
Proof.
  destruct (call_grows env rt m) as (names & nf & H).
  destruct (H s) as (s' & E & [B W T F K (l & R & _ & Wl)]).
  exists l, s'. split; [exact E | ]. split; [exact R | ]. split; [exact Wl | ].
  split; [exact B | ]. split; [exact W | ]. split; [exact T | ]. split; [lia | exact K].
Qed.

(** ** Timestamps *)

Lemma StronglySorted_snoc (ks : list nat) (t : nat) :
  StronglySorted lt ks -> Forall (fun k => (k < t)%nat) ks ->
  StronglySorted lt (ks ++ [t]).
Proof.
  induction 1 as [|k ks Hs IH Hk]; intro Hb; simpl.
  - constructor; constructor.
  - inversion Hb; subst. constructor; [apply IH; assumption | ].
    apply Forall_app. split; [assumption | ]. constructor; [assumption | constructor].
Qed.

Lemma StronglySorted_map_clock (env : Env) (ks : list nat) :
  monotone_clock env -> StronglySorted lt ks ->
  StronglySorted Z.le (map (now env) ks).
Proof.
  intros Hm. induction 1 as [|k ks Hs IH Hk]; simpl; constructor; [exact IH | ].
  apply Forall_map. eapply Forall_impl; [ | exact Hk].
  intros j Hj. apply Hm. lia.
Qed.

Lemma Forall_lt_S (ks : list nat) (t : nat) :
  Forall (fun k => (0 < k < t)%nat) ks -> Forall (fun k => (0 < k < S t)%nat) ks.
Proof. apply Forall_impl. intros k Hk. lia. Qed.

Lemma Forall_lt_upper (ks : list nat) (t : nat) :
  Forall (fun k => (0 < k < t)%nat) ks -> Forall (fun k => (k < t)%nat) ks.
Proof. apply Forall_impl. intros k Hk. lia. Qed.

Lemma Forall_lt_lower (ks : list nat) (t : nat) :
  Forall (fun k => (0 < k < t)%nat) ks -> Forall (fun k => (0 < k)%nat) ks.
Proof. apply Forall_impl. intros k Hk. lia. Qed.

Section Stamps.

Variable env : Env.
Variable rt : Runtime.

Lemma stamped_constructor : stamped env (constructor env).
Proof.
  split; [reflexivity | ]. split; [simpl; lia | ]. exists []. split; [reflexivity | ].
  split; constructor.
Qed.

Lemma stamped_tick s : stamped env s -> stamped env (tick s).
Proof.
  intros (H0 & Ht & ks & Hk & Hs & Hb). split; [exact H0 | ].
  change (ticks (tick s)) with (S (ticks s)). split; [lia | ].
  exists ks. split; [exact Hk | ]. split; [exact Hs | ].
  apply Forall_lt_S. exact Hb.
Qed.

Lemma stamped_count_fetch s : stamped env s -> stamped env (count_fetch s).
Proof. intro H. exact H. Qed.

Lemma stamped_logged testName p msg d s :
  stamped env s -> stamped env (logged env testName p msg d s).
Proof.
  intros (H0 & Ht & ks & Hk & Hs & Hb). split; [exact H0 | ].
  rewrite ticks_logged. split; [lia | ].
  exists (ks ++ [ticks s])%list. rewrite results_logged, !map_app, Hk.
  split; [reflexivity | ]. split.
  - apply StronglySorted_snoc; [exact Hs | apply Forall_lt_upper; exact Hb].
  - apply Forall_app. split; [apply Forall_lt_S; exact Hb | ].
    constructor; [lia | constructor].
Qed.

Lemma keeps_bind {A B} (m : M A) (k : A -> M B) :
  keeps_stamps env m -> (forall a, keeps_stamps env (k a)) ->
  keeps_stamps env (bind m k).
Proof.
  intros Hm Hk s Hs. unfold bind. specialize (Hm s Hs).
  destruct (m s) as [[a|e] s1]; [apply Hk | ]; exact Hm.
Qed.

Lemma keeps_logResult testName p msg d : keeps_stamps env (logResult env testName p msg d).
Proof. intros s Hs. rewrite logResult_eq. apply stamped_logged. exact Hs. Qed.

Lemma keeps_testGetBritEdgeInfo : keeps_stamps env (testGetBritEdgeInfo env rt).
Proof.
  intros s Hs. destruct (testGetBritEdgeInfo_returns env rt s) as (p & msg & d & ->).
  apply stamped_logged, stamped_count_fetch, Hs.
Qed.

Lemma keeps_testGetTestimonials : keeps_stamps env (testGetTestimonials env rt).
Proof.
  intros s Hs. destruct (testGetTestimonials_returns env rt s) as (p & msg & d & ->).
  apply stamped_logged, stamped_count_fetch, Hs.
Qed.

Lemma keeps_testGetCustomers : keeps_stamps env (testGetCustomers env rt).
Proof.
  intros s Hs. destruct (testGetCustomers_returns env rt s) as (p & msg & d & ->).
  apply stamped_logged, stamped_count_fetch, Hs.
Qed.

Lemma keeps_testJSONResponses : keeps_stamps env (testJSONResponses env).
Proof.
  intros s Hs. rewrite testJSONResponses_eq. cbv zeta.
  apply stamped_logged. repeat apply stamped_count_fetch. exact Hs.
Qed.

Lemma keeps_testSecurityHeaders : keeps_stamps env (testSecurityHeaders env).
Proof.
  intros s Hs. rewrite testSecurityHeaders_eq.
  destruct (fetch env (fetched s) (websiteURL s)); cbv zeta;
    apply stamped_logged, stamped_count_fetch, Hs.
Qed.

Lemma keeps_testHTTPS : keeps_stamps env (testHTTPS env).
Proof. intros s Hs. rewrite testHTTPS_eq. apply stamped_logged, Hs. Qed.

Lemma keeps_testCORS : keeps_stamps env (testCORS env).
Proof.
  intros s Hs. rewrite testCORS_eq.
  destruct (fetch env (fetched s) (baseURL s ++ "/GetBritEdgeInfo")); cbv zeta;
    apply stamped_logged, stamped_count_fetch, Hs.
Qed.

Lemma keeps_measure endpoint : keeps_stamps env (measure env endpoint tt).
Proof.
  intros s Hs. rewrite measure_eq.
  destruct (fetch env (fetched s) (Endpoint.url endpoint)); cbv zeta; apply stamped_logged.
  - apply stamped_tick, stamped_count_fetch, stamped_tick, Hs.
  - apply stamped_count_fetch, stamped_tick, Hs.
Qed.

Lemma keeps_testResponseTimes : keeps_stamps env (testResponseTimes env).
Proof.
  intros s Hs. unfold testResponseTimes. rewrite bind_get_state.
  generalize (endpoints s) as l. intro l. revert s Hs.
  induction l as [|endpoint l IH]; intros s Hs; [exact Hs | ].
  simpl for_of. apply keeps_bind; [ | intros [] s1 H1; apply IH; exact H1 | exact Hs].
  apply keeps_measure.
Qed.

Lemma keeps_testWebsiteNavigation : keeps_stamps env (testWebsiteNavigation env).
Proof.
  intros s Hs. rewrite testWebsiteNavigation_eq.
  destruct (fetch env (fetched s) (websiteURL s)) as [response|e];
    [destruct (Response.text response) | ]; cbv zeta;
    apply stamped_logged, stamped_count_fetch, Hs.
Qed.

Lemma keeps_summary : keeps_stamps env (generateSummary env ;;; ret tt).
Proof.
  intros s Hs. unfold bind. rewrite generateSummary_eq. apply stamped_tick, Hs.
Qed.

Lemma keeps_runAllTests : keeps_stamps env (runAllTests env rt).
Proof.
  unfold runAllTests.
  repeat (apply keeps_bind;
          [ first [ apply keeps_testGetBritEdgeInfo | apply keeps_testGetTestimonials
                  | apply keeps_testGetCustomers | apply keeps_testJSONResponses
                  | apply keeps_testSecurityHeaders | apply keeps_testHTTPS
                  | apply keeps_testCORS | apply keeps_testResponseTimes
                  | apply keeps_testWebsiteNavigation ] | intros _ ]).
  apply keeps_summary.
Qed.

Lemma keeps_call m : keeps_stamps env (call env rt m).
Proof.
  destruct m; simpl call.
  - apply keeps_logResult.
  - apply keeps_testGetBritEdgeInfo.
  - apply keeps_testGetTestimonials.
  - apply keeps_testGetCustomers.
  - apply keeps_testSecurityHeaders.
  - apply keeps_testHTTPS.
  - apply keeps_testCORS.
  - apply keeps_testResponseTimes.
  - apply keeps_testWebsiteNavigation.
  - apply keeps_testJSONResponses.
  - apply keeps_runAllTests.
  - apply keeps_summary.
Qed.

Lemma reachable_stamped s : reachable env rt s -> stamped env s.
Proof.
  induction 1 as [|s m _ IH]; [apply stamped_constructor | apply keeps_call; exact IH].
Qed.

End Stamps.

(** X12.  In every state of an instance, the timestamps of the log are
    readings of the clock taken one after the other, later than the reading
    of the constructor.  So with a clock that never runs backwards the log is
    in chronological order, no result is older than the start time, and the
    execution time of the summary is not negative. *)
Theorem timestamps_in_order (env : Env) (rt : Runtime) (s : St) :
  reachable env rt s ->
  (exists ks,
     map timestamp (results s) = map (now env) ks
     /\ StronglySorted lt ks /\ Forall (fun k => (0 < k)%nat) ks)
  /\ (monotone_clock env ->
      StronglySorted Z.le (map timestamp (results s))
      /\ Forall (fun r => (startTime s <= timestamp r)%Z) (results s)
      /\ exists sm, summary_in env s = Some sm /\ (0 <= executionTime sm)%Z).
Proof.
  intro Hs. destruct (reachable_stamped env rt s Hs) as (H0 & Ht & ks & Hk & Hsorted & Hb).
  split.
  - exists ks. split; [exact Hk | ]. split; [exact Hsorted | ].
    apply (Forall_lt_lower ks (ticks s)). exact Hb.
  - intro Hm. split; [rewrite Hk; apply StronglySorted_map_clock; assumption | ].
    split.
    + apply Forall_forall. intros r Hr. rewrite H0.
      assert (Hin : In (timestamp r) (map (now env) ks))
        by (rewrite <- Hk; apply in_map; exact Hr).
      apply in_map_iff in Hin. destruct Hin as (k & <- & _). apply Hm. lia.
    + rewrite summary_in_eq. eexists. split; [reflexivity | ].
      cbn [executionTime]. rewrite H0. specialize (Hm 0%nat (ticks s)). lia.
Qed.

(** The theorem after a run with no network, on a clock that ticks once per
    reading. *)
Lemma timestamps_offline_run :
  StronglySorted Z.le
    (map timestamp
       (results (snd (call offline exampleRuntime CallRunAllTests (constructor offline)))))
  /\ exists sm,
       summary_in offline
         (snd (call offline exampleRuntime CallRunAllTests (constructor offline))) = Some sm
       /\ (0 <= executionTime sm)%Z.
Proof.
  assert (Hm : monotone_clock offline) by (intros i j Hij; simpl; lia).
  destruct (timestamps_in_order offline exampleRuntime _
              (reach_call offline exampleRuntime _ CallRunAllTests
                 (reach_new offline exampleRuntime)))
    as [_ H].
  destruct (H Hm) as (Hsorted & _ & Hsm). split; [exact Hsorted | exact Hsm].
Defined.

(** ** The requests of a run *)

Lemma bind_step {A B} (m : M A) (k : A -> M B) s a s1 :
  m s = (Ok a, s1) -> bind m k s = k a s1.
Proof. intro E. unfold bind. rewrite E. reflexivity. Qed.

Section Requests.

Variables env1 env2 : Env.
Variable rt : Runtime.
Hypothesis clock : same_clock env1 env2.

Lemma logged_ext testName p msg d s :
  logged env1 testName p msg d s = logged env2 testName p msg d s.
Proof.
  unfold logged, logResult, bind, Date_now. cbn [snd]. rewrite (clock (ticks s)).
  reflexivity.
Qed.

Lemma testGetBritEdgeInfo_ext s :
  fetch env1 (fetched s) (baseURL s ++ "/GetBritEdgeInfo")
  = fetch env2 (fetched s) (baseURL s ++ "/GetBritEdgeInfo") ->
  testGetBritEdgeInfo env1 rt s = testGetBritEdgeInfo env2 rt s.
Proof.
  intro H. destruct (fetch env1 (fetched s) (baseURL s ++ "/GetBritEdgeInfo"))
    as [response|e] eqn:E1; symmetry in H.
  - rewrite (testGetBritEdgeInfo_verdict env1 rt s response E1),
      (testGetBritEdgeInfo_verdict env2 rt s response H).
    destruct (info_verdict rt response) as [[p msg] d]. rewrite logged_ext. reflexivity.
  - rewrite (testGetBritEdgeInfo_caught env1 rt s e) by (left; exact E1).
    rewrite (testGetBritEdgeInfo_caught env2 rt s e) by (left; exact H).
    rewrite logged_ext. reflexivity.
Qed.

Lemma testGetTestimonials_ext s :
  fetch env1 (fetched s) (baseURL s ++ "/GetTestimonials")
  = fetch env2 (fetched s) (baseURL s ++ "/GetTestimonials") ->
  testGetTestimonials env1 rt s = testGetTestimonials env2 rt s.
Proof.
  intro H. destruct (fetch env1 (fetched s) (baseURL s ++ "/GetTestimonials"))
    as [response|e] eqn:E1; symmetry in H.
  - rewrite (testGetTestimonials_verdict env1 rt s response E1),
      (testGetTestimonials_verdict env2 rt s response H).
    destruct (list_verdict rt _ _ _ _ response) as [[p msg] d].
    rewrite logged_ext. reflexivity.
  - rewrite (testGetTestimonials_caught env1 rt s e) by (left; exact E1).
    rewrite (testGetTestimonials_caught env2 rt s e) by (left; exact H).
    rewrite logged_ext. reflexivity.
Qed.

Lemma testGetCustomers_ext s :
  fetch env1 (fetched s) (baseURL s ++ "/GetCustomers")
  = fetch env2 (fetched s) (baseURL s ++ "/GetCustomers") ->
  testGetCustomers env1 rt s = testGetCustomers env2 rt s.
Proof.
  intro H. destruct (fetch env1 (fetched s) (baseURL s ++ "/GetCustomers"))
    as [response|e] eqn:E1; symmetry in H.
  - rewrite (testGetCustomers_verdict env1 rt s response E1),
      (testGetCustomers_verdict env2 rt s response H).
    destruct (list_verdict rt _ _ _ _ response) as [[p msg] d].
    rewrite logged_ext. reflexivity.
  - rewrite (testGetCustomers_caught env1 rt s e) by (left; exact E1).
    rewrite (testGetCustomers_caught env2 rt s e) by (left; exact H).
    rewrite logged_ext. reflexivity.
Qed.

Lemma testJSONResponses_ext s :
  same_answers env1 env2 s
    [baseURL s ++ "/GetBritEdgeInfo"; baseURL s ++ "/GetTestimonials";
     baseURL s ++ "/GetCustomers"] ->
  testJSONResponses env1 s = testJSONResponses env2 s.
Proof.
  intro H. rewrite !testJSONResponses_eq.
  assert (A0 : json_answer env1 s 0 = json_answer env2 s 0) by exact (H 0%nat _ eq_refl).
  assert (A1 : json_answer env1 s 1 = json_answer env2 s 1) by exact (H 1%nat _ eq_refl).
  assert (A2 : json_answer env1 s 2 = json_answer env2 s 2) by exact (H 2%nat _ eq_refl).
  rewrite A0, A1, A2. cbv zeta. rewrite logged_ext. reflexivity.
Qed.

Lemma testSecurityHeaders_ext s :
  fetch env1 (fetched s) (websiteURL s) = fetch env2 (fetched s) (websiteURL s) ->
  testSecurityHeaders env1 s = testSecurityHeaders env2 s.
Proof.
  intro H. rewrite !testSecurityHeaders_eq, H.
  destruct (fetch env2 (fetched s) (websiteURL s)); cbv zeta; rewrite logged_ext;
    reflexivity.
Qed.

Lemma testHTTPS_ext s : testHTTPS env1 s = testHTTPS env2 s.
Proof. rewrite !testHTTPS_eq, logged_ext. reflexivity. Qed.

Lemma testCORS_ext s :
  fetch env1 (fetched s) (baseURL s ++ "/GetBritEdgeInfo")
  = fetch env2 (fetched s) (baseURL s ++ "/GetBritEdgeInfo") ->
  testCORS env1 s = testCORS env2 s.
Proof.
  intro H. rewrite !testCORS_eq, H.
  destruct (fetch env2 (fetched s) (baseURL s ++ "/GetBritEdgeInfo")); cbv zeta;
    rewrite logged_ext; reflexivity.
Qed.

Lemma measure_ext endpoint s :
  fetch env1 (fetched s) (Endpoint.url endpoint)
  = fetch env2 (fetched s) (Endpoint.url endpoint) ->
  measure env1 endpoint tt s = measure env2 endpoint tt s.
Proof.
  intro H. rewrite !measure_eq, H.
  destruct (fetch env2 (fetched s) (Endpoint.url endpoint)); cbv zeta;
    rewrite ?clock, logged_ext; reflexivity.
Qed.

Lemma for_of_measure_ext l :
  forall s,
    same_answers env1 env2 s (map Endpoint.url l) ->
    for_of l (measure env1) tt s = for_of l (measure env2) tt s.
Proof.
  induction l as [|endpoint l IH]; intros s H; [reflexivity | ].
  simpl for_of.
  destruct (measure_step env1 endpoint s) as (r & s1 & E1 & _ & _ & _ & G1).
  assert (E2 : measure env2 endpoint tt s = (Ok tt, s1)).
  { rewrite <- E1. symmetry. apply measure_ext.
    specialize (H 0%nat _ eq_refl). rewrite Nat.add_0_r in H. exact H. }
  rewrite (bind_step _ _ _ _ _ E1), (bind_step _ _ _ _ _ E2).
  apply IH. intros i url Hi. rewrite (grows_fetched _ _ _ _ G1).
  replace (fetched s + 1 + i)%nat with (fetched s + S i)%nat by lia.
  apply H. exact Hi.
Qed.

Lemma testResponseTimes_ext s :
  same_answers env1 env2 s
    [websiteURL s; baseURL s ++ "/GetBritEdgeInfo"; baseURL s ++ "/GetTestimonials";
     baseURL s ++ "/GetCustomers"] ->
  testResponseTimes env1 s = testResponseTimes env2 s.
Proof.
  intro H. unfold testResponseTimes. rewrite !bind_get_state.
  apply for_of_measure_ext. exact H.
Qed.

Lemma testWebsiteNavigation_ext s :
  fetch env1 (fetched s) (websiteURL s) = fetch env2 (fetched s) (websiteURL s) ->
  testWebsiteNavigation env1 s = testWebsiteNavigation env2 s.
Proof.
  intro H. rewrite !testWebsiteNavigation_eq, H.
  destruct (fetch env2 (fetched s) (websiteURL s)) as [response|e];
    [destruct (Response.text response) | ]; cbv zeta; rewrite logged_ext; reflexivity.
Qed.

Lemma summary_ext s :
  (generateSummary env1 ;;; ret tt) s = (generateSummary env2 ;;; ret tt) s.
Proof. unfold bind. rewrite !generateSummary_eq. reflexivity. Qed.

Lemma same_answers_first s url rest :
  same_answers env1 env2 s (url :: rest) ->
  fetch env1 (fetched s) url = fetch env2 (fetched s) url.
Proof. intro H. specialize (H 0%nat url eq_refl). rewrite Nat.add_0_r in H. exact H. Qed.

End Requests.

Section Run13.

Variables env1 env2 : Env.
Variable rt : Runtime.
Hypothesis clock : same_clock env1 env2.

Lemma same_answers_skipn s s' names n urls :
  grows s s' names n -> same_answers env1 env2 s urls ->
  same_answers env1 env2 s' (skipn n urls).
Proof.
  intros G H i url Hi. rewrite (grows_fetched _ _ _ _ G).
  replace (fetched s + n + i)%nat with (fetched s + (n + i))%nat by lia.
  apply H. rewrite <- nth_error_skipn. exact Hi.
Qed.

Lemma same_answers_firstn s n urls :
  same_answers env1 env2 s urls -> same_answers env1 env2 s (firstn n urls).
Proof.
  intros H i url Hi. apply H.
  destruct (Nat.lt_ge_cases i n) as [Hlt | Hge].
  - rewrite nth_error_firstn in Hi.
    destruct (i <? n)%nat eqn:C; [exact Hi | apply Nat.ltb_ge in C; lia].
  - exfalso. assert (Hn : nth_error (firstn n urls) i = None).
    { apply nth_error_None. pose proof (firstn_le_length n urls). lia. }
    congruence.
Qed.

Lemma runAllTests_ext s :
  same_answers env1 env2 s (run_requests s) ->
  runAllTests env1 rt s = runAllTests env2 rt s.
Proof.
  intro H. unfold runAllTests.
  pose proof (grows_refl s) as G.
  (* the three API checks *)
  destruct (testGetBritEdgeInfo_grows env1 rt s) as (s1 & E1 & G1).
  assert (E1' : testGetBritEdgeInfo env2 rt s = (Ok tt, s1)).
  { rewrite <- E1. symmetry. apply testGetBritEdgeInfo_ext; [exact clock | ].
    eapply same_answers_first. exact H. }
  rewrite (bind_step _ _ _ _ _ E1), (bind_step _ _ _ _ _ E1').
  destruct (testGetTestimonials_grows env1 rt s1) as (s2 & E2 & G2).
  pose proof (same_answers_skipn _ _ _ _ _ G1 H) as H1.
  assert (E2' : testGetTestimonials env2 rt s1 = (Ok tt, s2)).
  { rewrite <- E2. symmetry. apply testGetTestimonials_ext; [exact clock | ].
    rewrite (grows_baseURL _ _ _ _ G1). eapply same_answers_first. exact H1. }
  rewrite (bind_step _ _ _ _ _ E2), (bind_step _ _ _ _ _ E2').
  pose proof (grows_trans _ _ _ _ _ _ _ G1 G2) as G12.
  destruct (testGetCustomers_grows env1 rt s2) as (s3 & E3 & G3).
  pose proof (same_answers_skipn _ _ _ _ _ G12 H) as H2.
  assert (E3' : testGetCustomers env2 rt s2 = (Ok tt, s3)).
  { rewrite <- E3. symmetry. apply testGetCustomers_ext; [exact clock | ].
    rewrite (grows_baseURL _ _ _ _ G12). eapply same_answers_first. exact H2. }
  rewrite (bind_step _ _ _ _ _ E3), (bind_step _ _ _ _ _ E3').
  pose proof (grows_trans _ _ _ _ _ _ _ G12 G3) as G13.
  (* the JSON check *)
  destruct (testJSONResponses_grows env1 s3) as (s4 & E4 & G4).
  pose proof (same_answers_skipn _ _ _ _ _ G13 H) as H3.
  assert (E4' : testJSONResponses env2 s3 = (Ok tt, s4)).
  { rewrite <- E4. symmetry. apply testJSONResponses_ext; [exact clock | ].
    rewrite (grows_baseURL _ _ _ _ G13). exact (same_answers_firstn _ 3 _ H3). }
  rewrite (bind_step _ _ _ _ _ E4), (bind_step _ _ _ _ _ E4').
  pose proof (grows_trans _ _ _ _ _ _ _ G13 G4) as G14.
  (* the security checks *)
  destruct (testSecurityHeaders_grows env1 s4) as (s5 & E5 & G5).
  pose proof (same_answers_skipn _ _ _ _ _ G14 H) as H4.
  assert (E5' : testSecurityHeaders env2 s4 = (Ok tt, s5)).
  { rewrite <- E5. symmetry. apply testSecurityHeaders_ext; [exact clock | ].
    rewrite (grows_websiteURL _ _ _ _ G14). eapply same_answers_first. exact H4. }
  rewrite (bind_step _ _ _ _ _ E5), (bind_step _ _ _ _ _ E5').
  pose proof (grows_trans _ _ _ _ _ _ _ G14 G5) as G15.
  destruct (testHTTPS_grows env1 s5) as (s6 & E6 & G6).
  assert (E6' : testHTTPS env2 s5 = (Ok tt, s6)).
  { rewrite <- E6. symmetry. apply testHTTPS_ext. exact clock. }
  rewrite (bind_step _ _ _ _ _ E6), (bind_step _ _ _ _ _ E6').
  pose proof (grows_trans _ _ _ _ _ _ _ G15 G6) as G16.
  destruct (testCORS_grows env1 s6) as (s7 & E7 & G7).
  pose proof (same_answers_skipn _ _ _ _ _ G16 H) as H6.
  assert (E7' : testCORS env2 s6 = (Ok tt, s7)).
  { rewrite <- E7. symmetry. apply testCORS_ext; [exact clock | ].
    rewrite (grows_baseURL _ _ _ _ G16). eapply same_answers_first. exact H6. }
  rewrite (bind_step _ _ _ _ _ E7), (bind_step _ _ _ _ _ E7').
  pose proof (grows_trans _ _ _ _ _ _ _ G16 G7) as G17.
  (* the response times *)
  destruct (testResponseTimes_grows env1 s7) as (s8 & E8 & G8).
  pose proof (same_answers_skipn _ _ _ _ _ G17 H) as H7.
  assert (E8' : testResponseTimes env2 s7 = (Ok tt, s8)).
  { rewrite <- E8. symmetry. apply testResponseTimes_ext; [exact clock | ].
    rewrite (grows_baseURL _ _ _ _ G17), (grows_websiteURL _ _ _ _ G17).
    exact (same_answers_firstn _ 4 _ H7). }
  rewrite (bind_step _ _ _ _ _ E8), (bind_step _ _ _ _ _ E8').
  pose proof (grows_trans _ _ _ _ _ _ _ G17 G8) as G18.
  (* the page *)
  destruct (testWebsiteNavigation_grows env1 s8) as (s9 & E9 & G9).
  pose proof (same_answers_skipn _ _ _ _ _ G18 H) as H8.
  assert (E9' : testWebsiteNavigation env2 s8 = (Ok tt, s9)).
  { rewrite <- E9. symmetry. apply testWebsiteNavigation_ext; [exact clock | ].
    rewrite (grows_websiteURL _ _ _ _ G18). eapply same_answers_first. exact H8. }
  rewrite (bind_step _ _ _ _ _ E9), (bind_step _ _ _ _ _ E9').
  apply summary_ext.
Qed.

End Run13.

Lemma same_answers_cut_off (env : Env) (s : St) (urls : list string) :
  same_answers env (cut_off env (fetched s + List.length urls)) s urls.
Proof.
  intros i url Hi. unfold cut_off. cbn [fetch].
  assert (Hlt : (i < List.length urls)%nat) by (apply nth_error_Some; congruence).
  destruct (fetched s + i <? fetched s + List.length urls)%nat eqn:C; [reflexivity | ].
  apply Nat.ltb_ge in C. lia.
Qed.

(** X13.  A run makes thirteen requests, to the URLs of [run_requests] in
    that order, and depends on the network through their answers alone: two
    environments with the same clock that answer these thirteen requests
    alike give the same run, whatever else they would answer. *)
Theorem runAllTests_thirteen_requests (env1 env2 : Env) (rt : Runtime) (s : St) :
  same_clock env1 env2 ->
  same_answers env1 env2 s (run_requests s) ->
  runAllTests env1 rt s = runAllTests env2 rt s
  /\ exists s', runAllTests env1 rt s = (Ok tt, s') /\ fetched s' = (fetched s + 13)%nat.
Proof.
  intros Hc Ha. split; [apply runAllTests_ext; assumption | ].
  destruct (runAllTests_grows env1 rt s) as (s' & E & G).
  exists s'. split; [exact E | apply (grows_fetched _ _ _ _ G)].
Qed.

(** The theorem on the healthy deployment and on one that goes down after the
    thirteenth request. *)
Lemma runAllTests_network_down_later :
  runBritEdgeTests healthy exampleRuntime
  = runAllTests (cut_off healthy 13) exampleRuntime (constructor healthy).
Proof.
  apply (runAllTests_thirteen_requests healthy (cut_off healthy 13) exampleRuntime
           (constructor healthy)).
  - intro k. reflexivity.
  - apply (same_answers_cut_off healthy (constructor healthy)
             (run_requests (constructor healthy))).
Defined.

(** ** A run in which every check passes *)





Section Settled.

Variable env : Env.
Variable rt : Runtime.













End Settled.

Section AllPass.

Variable env : Env.
Variable rt : Runtime.




End AllPass.




(** ** The empty log *)

(** X10.  With no result in the log the rate is 0/0: the summary has
    all three counts at 0 and reports the success rate as "NaN". *)
Theorem generateSummary_no_results (env : Env) (s : St) :
  results s = [] ->
  exists sm,
    summary_in env s = Some sm
    /\ total sm = 0%nat /\ passed sm = 0%nat /\ failed sm = 0%nat
    /\ successRate sm = "NaN".
Proof.
  intro H. rewrite summary_in_eq, H. eexists. split; [reflexivity | ].
  repeat split; reflexivity.
Qed.

(** The theorem on a new instance. *)
Lemma generateSummary_new_instance :
  exists sm,
    summary_in offline (constructor offline) = Some sm
    /\ total sm = 0%nat /\ successRate sm = "NaN".
Proof.
  destruct (generateSummary_no_results offline (constructor offline) eq_refl)
    as (sm & E & Ht & _ & _ & Hr).
  exists sm. split; [exact E | ]. split; [exact Ht | exact Hr].
Defined.

(** ** Checks that do not look at the status *)

Section Status.

Variable env : Env.
Variable code : nat -> string -> nat.

Lemma logged_restatus testName p msg d s :
  logged (restatus code env) testName p msg d s = logged env testName p msg d s.
Proof. reflexivity. Qed.

Lemma valid_json_restatus i url :
  valid_json (fetch (restatus code env) i url) = valid_json (fetch env i url).
Proof. cbn [restatus fetch]. destruct (fetch env i url); reflexivity. Qed.

Lemma testJSONResponses_restatus s :
  testJSONResponses (restatus code env) s = testJSONResponses env s.
Proof.
  rewrite !testJSONResponses_eq. unfold json_answer. cbv zeta. cbn [map].
  rewrite !valid_json_restatus. reflexivity.
Qed.

Lemma testSecurityHeaders_restatus s :
  testSecurityHeaders (restatus code env) s = testSecurityHeaders env s.
Proof.
  rewrite !testSecurityHeaders_eq. cbn [restatus fetch].
  destruct (fetch env (fetched s) (websiteURL s)); reflexivity.
Qed.

Lemma testCORS_restatus s : testCORS (restatus code env) s = testCORS env s.
Proof.
  rewrite !testCORS_eq. cbn [restatus fetch].
  destruct (fetch env (fetched s) (baseURL s ++ "/GetBritEdgeInfo")); reflexivity.
Qed.

Lemma measure_restatus endpoint s :
  measure (restatus code env) endpoint tt s = measure env endpoint tt s.
Proof.
  rewrite !measure_eq. cbn [restatus fetch].
  destruct (fetch env (fetched s) (Endpoint.url endpoint)); reflexivity.
Qed.

Lemma testResponseTimes_restatus s :
  testResponseTimes (restatus code env) s = testResponseTimes env s.
Proof.
  unfold testResponseTimes. rewrite !bind_get_state.
  generalize (endpoints s) as l. intro l. revert s.
  induction l as [|endpoint l IH]; intro s; [reflexivity | ].
  simpl for_of. unfold bind. rewrite measure_restatus.
  destruct (measure env endpoint tt s) as [[[]|e] s1]; [apply IH | reflexivity].
Qed.

Lemma testWebsiteNavigation_restatus s :
  testWebsiteNavigation (restatus code env) s = testWebsiteNavigation env s.
Proof.
  rewrite !testWebsiteNavigation_eq. cbn [restatus fetch].
  destruct (fetch env (fetched s) (websiteURL s)) as [response|e]; reflexivity.
Qed.

End Status.

(** X14.  The JSON, header, CORS, response-time and page checks never look
    at the HTTP status: whatever the status codes of the answers are, each of
    them leaves the same result (a 404 or a 500 with the same headers and
    body scores as a 200). *)
Theorem checks_ignore_status (env : Env) (code : nat -> string -> nat) (s : St) :
  testJSONResponses (restatus code env) s = testJSONResponses env s
  /\ testSecurityHeaders (restatus code env) s = testSecurityHeaders env s
  /\ testCORS (restatus code env) s = testCORS env s
  /\ testResponseTimes (restatus code env) s = testResponseTimes env s
  /\ testWebsiteNavigation (restatus code env) s = testWebsiteNavigation env s.
Proof.
  split; [apply testJSONResponses_restatus | ].
  split; [apply testSecurityHeaders_restatus | ].
  split; [apply testCORS_restatus | ].
  split; [apply testResponseTimes_restatus | apply testWebsiteNavigation_restatus].
Qed.

(** ** Runs on the same instance *)

Lemma count_passed_app (l1 l2 : list TestResult) :
  count_passed (l1 ++ l2) = (count_passed l1 + count_passed l2)%nat.
Proof. unfold count_passed. rewrite filter_app, length_app. reflexivity. Qed.

Lemma runs_accumulate (env : Env) (rt : Runtime) (n : nat) :
  forall s,
    configured s ->
    configured (runs env rt n s)
    /\ List.length (results (runs env rt n s)) = (List.length (results s) + 12 * n)%nat
    /\ (count_passed (results s) + n <= count_passed (results (runs env rt n s)))%nat
    /\ fetched (runs env rt n s) = (fetched s + 13 * n)%nat
    /\ startTime (runs env rt n s) = startTime s.
Proof.
  induction n as [|n IH]; intros s Hc.
  - cbn [runs]. split; [exact Hc | ]. split; [lia | ]. split; [lia | ].
    split; [lia | reflexivity].
  - cbn [runs].
    destruct (runAllTests_split env rt s Hc) as (l1 & r & l2 & s' & E & R & N & L & W & P & F).
    destruct (runAllTests_grows env rt s) as (s'' & E' & G).
    rewrite E in E'. inversion E'; subst s''. clear E'.
    rewrite E. cbn [snd].
    assert (Hc' : configured s').
    { destruct Hc as [Hb Hw]. split.
      - rewrite (grows_baseURL _ _ _ _ G). exact Hb.
      - rewrite (grows_websiteURL _ _ _ _ G). exact Hw. }
    destruct (IH s' Hc') as (C & Hl & Hp & Hf & Ht).
    assert (L12 : List.length (l1 ++ r :: l2) = 12%nat).
    { rewrite <- (length_map test), N. reflexivity. }
    assert (Hlen : List.length (results s') = (List.length (results s) + 12)%nat).
    { rewrite R, length_app, L12. reflexivity. }
    split; [exact C | ]. split; [lia | ]. split; [ | split; [lia | ]].
    + assert (Hone : (1 <= count_passed (l1 ++ r :: l2))%nat).
      { unfold count_passed. apply (filter_has _ _ r).
        - apply in_or_app. right. left. reflexivity.
        - rewrite P. reflexivity. }
      rewrite R, count_passed_app in Hp. lia.
    + rewrite Ht. apply (grows_startTime _ _ _ _ G).
Qed.

(** X15.  The log is never reset: [n] runs on one instance leave [12 n]
    results and have made [13 n] requests; the summary then counts all of
    them, with at least [n] passed, and measures its execution time from the
    construction of the instance. *)
Theorem runs_on_one_instance (env : Env) (rt : Runtime) (n : nat) :
  exists sm,
    summary_in env (runs env rt n (constructor env)) = Some sm
    /\ total sm = (12 * n)%nat
    /\ (n <= passed sm)%nat
    /\ (failed sm <= 11 * n)%nat
    /\ fetched (runs env rt n (constructor env)) = (13 * n)%nat
    /\ executionTime sm
       = (now env (ticks (runs env rt n (constructor env))) - now env 0)%Z.
Proof.
  destruct (runs_accumulate env rt n (constructor env)) as (_ & Hl & Hp & Hf & Ht).
  { split; reflexivity. }
  rewrite summary_in_eq. eexists. split; [reflexivity | ].
  cbn [total passed failed executionTime].
  change (List.length (filter (fun r => status r =? "PASS")
                         (results (runs env rt n (constructor env)))))
    with (count_passed (results (runs env rt n (constructor env)))).
  cbn [results constructor List.length count_passed filter fetched startTime] in Hl, Hp, Hf, Ht.
  change (count_passed []) with 0%nat in Hp.
  pose proof (filter_length_le (fun r => status r =? "PASS")
                (results (runs env rt n (constructor env)))) as Hle.
  fold (count_passed (results (runs env rt n (constructor env)))) in Hle.
  split; [exact Hl | ]. split; [lia | ]. split; [lia | ]. split; [exact Hf | ].
  rewrite Ht. reflexivity.
Qed.
